(** * Shipping-label formatter: the image-normalisation pipeline

    A shallow embedding of the TypeScript core of the repository (the module
    "Core image processing and PDF generation logic", [core.ts], which the
    source tree holds in [shipping_label_py/label_resize_print/static/sw.js]:
    [loadImage], [autoCropLabel], [resizeImage], [buildPdf2Up], [resizeLabel],
    [resizeLabelFromBuffers]), of the upload check of
    [shipping_label_node/src/app.ts], and of the pieces of the Swift port
    ([Services/LabelProcessor.swift]) that the statements below refer to.

    Conventions of the embedding.
    - Pixel coordinates and pixel counts are [Z].
    - A JavaScript [number] that holds a physical quantity (inches, dots per
      inch, PDF points) is an exact rational [Q], or [NaN]; rounding error of
      IEEE doubles is not modelled.  Every product the code forms from a
      catalogue size and an integer dpi is exactly representable.
    - Calls into [sharp], [mupdf] and [pdf-lib] are modelled by what they
      return: the decoded image, the size of the produced buffer, or the
      exception they throw on a rejected argument.  Resampling of pixel
      contents and resource limits of those libraries are not modelled.
    - A [Promise] that rejects and a [throw] are both [Throw]. *)

From Stdlib Require Import ZArith QArith Qround List Bool Lia Lqa String Ascii.
Import ListNotations.

Open Scope string_scope.
Open Scope list_scope.
Open Scope Z_scope.

(* ------------------------------------------------------------------ *)
(** ** Exceptions and results *)

Inductive Exception : Type :=
| Error (message : string)
    (* [new Error(message)] thrown by the repository's own code *)
| SharpInvalidParameter (name : string)
    (* sharp: "Expected positive integer for <name> but received ..." *)
| SharpBadExtractArea
    (* libvips: "extract_area: bad extract area" *)
| SharpUnsupportedInput
    (* sharp: the bytes are not a decodable image *)
| MupdfFailure
    (* mupdf could not open or render the document *)
| PdfLibNotPng.
    (* pdf-lib [embedPng]: the bytes are not a PNG stream *)

Inductive result (A : Type) : Type :=
| Ok (a : A)
| Throw (e : Exception).

Arguments Ok {A} a.
Arguments Throw {A} e.

Definition bind {A B : Type} (r : result A) (k : A -> result B) : result B :=
  match r with
  | Ok a => k a
  | Throw e => Throw e
  end.

Notation "'await' x <- r ; k" := (bind r (fun x => k))
  (at level 10, x name, r at level 100, k at level 200).

(* ------------------------------------------------------------------ *)
(** ** JavaScript numbers *)

Inductive JsNum : Type :=
| Finite (q : Q)
| NaN.

Definition jsMul (a b : JsNum) : JsNum :=
  match a, b with
  | Finite x, Finite y => Finite (x * y)
  | _, _ => NaN
  end.

Definition jsAdd (a b : JsNum) : JsNum :=
  match a, b with
  | Finite x, Finite y => Finite (x + y)
  | _, _ => NaN
  end.

Definition jsSub (a b : JsNum) : JsNum :=
  match a, b with
  | Finite x, Finite y => Finite (x - y)
  | _, _ => NaN
  end.

(** Division by a non-zero constant (the code only ever divides by 2). *)
Definition jsHalf (a : JsNum) : JsNum :=
  match a with
  | Finite x => Finite (x / 2)
  | NaN => NaN
  end.

(** The nearest integer, ties towards +infinity. *)
Definition roundHalfUp (x : Q) : Z := Qfloor (x + (1 # 2)).

(** [Math.round]; [NaN] stays [NaN] ([None]).  A product is multiplied out
    exactly here; the code rounds it to the nearest binary64 value first, so
    the two agree where the product is a binary64 value itself (the
    statements about pixel sizes say so, see [Binary64]). *)
Definition Math_round (a : JsNum) : option Z :=
  match a with
  | Finite x => Some (roundHalfUp x)
  | NaN => None
  end.

(** [a < b] on rationals, as a boolean. *)
Definition Qltb (a b : Q) : bool :=
  Qnum a * Zpos (Qden b) <? Qnum b * Zpos (Qden a).

(* ------------------------------------------------------------------ *)
(** ** [for] loops *)

(** [for (let i = start; i < limit; i++) s = body(i, s)], run for [n]
    iterations from [i]. *)
Fixpoint forUp {St : Type} (n : nat) (i : Z) (body : Z -> St -> St) (s : St) : St :=
  match n with
  | O => s
  | S n' => forUp n' (i + 1) body (body i s)
  end.

Definition forRange {St : Type} (start limit : Z) (body : Z -> St -> St) (s : St) : St :=
  forUp (Z.to_nat (limit - start)) start body s.

(** [for (let i = start; i < limit; i++) if (stop(i)) { ...; break; }]:
    the first index at which the loop breaks, if any. *)
Fixpoint breakUp (n : nat) (i : Z) (stop : Z -> bool) : option Z :=
  match n with
  | O => None
  | S n' => if stop i then Some i else breakUp n' (i + 1) stop
  end.

Definition firstAscending (start limit : Z) (stop : Z -> bool) : option Z :=
  breakUp (Z.to_nat (limit - start)) start stop.

(** [for (let i = start; i > limit; i--) if (stop(i)) { ...; break; }]. *)
Fixpoint breakDown (n : nat) (i : Z) (stop : Z -> bool) : option Z :=
  match n with
  | O => None
  | S n' => if stop i then Some i else breakDown n' (i - 1) stop
  end.

Definition firstDescending (start limit : Z) (stop : Z -> bool) : option Z :=
  breakDown (Z.to_nat (start - limit)) start stop.

(* ------------------------------------------------------------------ *)
(** ** Decoded images *)

(** What [sharp(imageBuffer).metadata()] and
    [sharp(imageBuffer).grayscale().raw().toBuffer()] give for an image
    buffer: its pixel size and the raw single-channel data. *)
Record GrayImage : Type := {
  width : Z;
  height : Z;
  gray : list Z
}.

(** [data[i]] on a [Buffer]: [undefined] ([None]) outside the data. *)
Definition byteAt (data : list Z) (i : Z) : option Z :=
  if i <? 0 then None else nth_error data (Z.to_nat i).

(** [v < t] where [v] may be [undefined]: [undefined < t] is [false]. *)
Definition lessThan (v : option Z) (t : Z) : bool :=
  match v with
  | Some b => b <? t
  | None => false
  end.

Module Region.
(** The argument of [sharp.extract]. *)
Record t : Type := { left : Z; top : Z; width : Z; height : Z }.
End Region.

Module Edges.
(** The four edges [left], [top], [right], [bottom] of [autoCropLabel]
    ([right] and [bottom] are exclusive). *)
Record t : Type := { left : Z; top : Z; right : Z; bottom : Z }.
End Edges.

(** [sharp(img).extract(region)...toBuffer()]: the integers must be
    non-negative, and the area non-empty and inside the image. *)
Definition sharp_extract (img : GrayImage) (r : Region.t) : result Region.t :=
  if (Region.left r <? 0) then Throw (SharpInvalidParameter "left")
  else if (Region.top r <? 0) then Throw (SharpInvalidParameter "top")
  else if (Region.width r <? 0) then Throw (SharpInvalidParameter "width")
  else if (Region.height r <? 0) then Throw (SharpInvalidParameter "height")
  else if (0 <? Region.width r) && (0 <? Region.height r)
          && (Region.left r + Region.width r <=? width img)
          && (Region.top r + Region.height r <=? height img)
       then Ok r
       else Throw SharpBadExtractArea.

(** The two ways [autoCropLabel] returns: [return imageBuffer], or the
    buffer extracted at a region. *)
Inductive CropOutcome : Type :=
| SameBuffer
| Extracted (region : Region.t).

(* ------------------------------------------------------------------ *)
(** ** [autoCropLabel] *)

(** The loop state of the bounding-box search. *)
Record BBox : Type := {
  bx0 : Z;
  by0 : Z;
  bx1 : Z;
  by1 : Z;
  found : bool
}.

Section AutoCrop.

Variable img : GrayImage.
Variable borderThreshold : Z.
Variable minAreaRatio : Q.

(** [gray[i] < borderThreshold] *)
Definition isDark (i : Z) : bool :=
  lessThan (byteAt (gray img) i) borderThreshold.

(** Body of the inner loop of the bounding-box search. *)
Definition markPixel (y x : Z) (b : BBox) : BBox :=
  if isDark (y * width img + x) then
    {| bx0 := if x <? bx0 b then x else bx0 b;
       by0 := if y <? by0 b then y else by0 b;
       bx1 := if bx1 b <? x + 1 then x + 1 else bx1 b;
       by1 := if by1 b <? y + 1 then y + 1 else by1 b;
       found := true |}
  else b.

Definition markRow (y : Z) (b : BBox) : BBox :=
  forRange 0 (width img) (markPixel y) b.

Definition findBoundingBox : BBox :=
  forRange 0 (height img) markRow
    {| bx0 := width img; by0 := height img; bx1 := 0; by1 := 0; found := false |}.

(** [dark > len * 0.5]; halving is exact in doubles. *)
Definition moreThanHalf (dark len : Z) : bool :=
  Qltb (inject_Z len * (1 # 2)) (inject_Z dark).

Definition rowIsBorder (ry x0 x1 : Z) : bool :=
  let len := x1 - x0 in
  let off := ry * width img in
  let dark := forRange x0 x1 (fun x dark => if isDark (off + x) then dark + 1 else dark) 0 in
  moreThanHalf dark len.

Definition colIsBorder (cx y0 y1 : Z) : bool :=
  let len := y1 - y0 in
  let dark := forRange y0 y1 (fun y dark => if isDark (y * width img + cx) then dark + 1 else dark) 0 in
  moreThanHalf dark len.

(** [Math.min(Math.floor(box / 2), 100)] *)
Definition scanLimit (box : Z) : Z := Z.min (box / 2) 100.

(** "Scan inward past border lines". *)
Definition scanInward (b : BBox) : Edges.t :=
  let boxW := bx1 b - bx0 b in
  let boxH := by1 b - by0 b in
  let scanH := scanLimit boxH in
  let top :=
    match firstAscending (by0 b) (by0 b + scanH)
            (fun y => negb (rowIsBorder y (bx0 b) (bx1 b))) with
    | Some y => y
    | None => by0 b
    end in
  let bottom :=
    match firstDescending (by1 b - 1) (by1 b - scanH)
            (fun y => negb (rowIsBorder y (bx0 b) (bx1 b))) with
    | Some y => y + 1
    | None => by1 b
    end in
  let scanW := scanLimit boxW in
  let left :=
    match firstAscending (bx0 b) (bx0 b + scanW)
            (fun x => negb (colIsBorder x (by0 b) (by1 b))) with
    | Some x => x
    | None => bx0 b
    end in
  let right :=
    match firstDescending (bx1 b - 1) (bx1 b - scanW)
            (fun x => negb (colIsBorder x (by0 b) (by1 b))) with
    | Some x => x + 1
    | None => bx1 b
    end in
  {| Edges.left := left; Edges.top := top; Edges.right := right; Edges.bottom := bottom |}.

Definition pad : Z := 8.

(** "Expand outward by 8 px so border remains visible". *)
Definition expand (e : Edges.t) : Edges.t :=
  {| Edges.left := Z.max (Edges.left e - pad) 0;
     Edges.top := Z.max (Edges.top e - pad) 0;
     Edges.right := Z.min (Edges.right e + pad) (width img);
     Edges.bottom := Z.min (Edges.bottom e + pad) (height img) |}.

Definition extractArgs (e : Edges.t) : Region.t :=
  {| Region.left := Edges.left e;
     Region.top := Edges.top e;
     Region.width := Edges.right e - Edges.left e;
     Region.height := Edges.bottom e - Edges.top e |}.

(** [boxW * boxH < width * height * minAreaRatio], in exact arithmetic.  With
    the default ratio the comparison of the doubles gives the same answer for
    every image of fewer than 2^49 pixels; with another ratio (0.07, say) the
    doubles can compare differently at the boundary, and the statements
    below are about the default. *)
Definition tooSmall (b : BBox) : bool :=
  let boxW := bx1 b - bx0 b in
  let boxH := by1 b - by0 b in
  Qltb (inject_Z (boxW * boxH)) (inject_Z (width img * height img) * minAreaRatio).

Definition autoCropLabel : result CropOutcome :=
  let b := findBoundingBox in
  if negb (found b) then Ok SameBuffer
  else if tooSmall b then Ok SameBuffer
  else
    await region <- sharp_extract img (extractArgs (expand (scanInward b)));
    Ok (Extracted region).

End AutoCrop.

(** The defaults of [autoCropLabel]'s optional parameters. *)
Definition defaultBorderThreshold : Z := 80.
Definition defaultMinAreaRatio : Q := 5 # 100.

(** An input buffer of [autoCropLabel], by what sharp makes of it: the size
    [sharp(imageBuffer).metadata()] resolves to and the data
    [sharp(imageBuffer).grayscale().raw().toBuffer()] resolves to, or the
    error either rejects with. *)
Record ImageBuffer : Type := {
  metadata : result (Z * Z);
  grayscaleRaw : result (list Z)
}.

(** [autoCropLabel] from its first line: the two decoding calls are awaited
    outside any [try], then the search runs on what they gave. *)
Definition autoCropLabelOf (imageBuffer : ImageBuffer) (borderThreshold : Z)
           (minAreaRatio : Q) : result CropOutcome :=
  await meta <- metadata imageBuffer;
  await gray <- grayscaleRaw imageBuffer;
  autoCropLabel {| width := fst meta; height := snd meta; gray := gray |}
                borderThreshold minAreaRatio.

(* ------------------------------------------------------------------ *)
(** ** Strings, [path.extname], [Set] and [Array.prototype.sort]

    Strings are byte strings; on ASCII text they agree with JavaScript's
    UTF-16 strings, including the order [sort] uses.  [toLowerCase] lowers
    the letters A-Z; JavaScript lowers capitals outside ASCII too. *)

Definition lowerChar (c : ascii) : ascii :=
  let n := nat_of_ascii c in
  if (65 <=? n)%nat && (n <=? 90)%nat then ascii_of_nat (n + 32) else c.

Fixpoint toLowerCase (s : string) : string :=
  match s with
  | EmptyString => EmptyString
  | String c rest => String (lowerChar c) (toLowerCase rest)
  end.

(** The variables of the loop of Node's posix [path.extname]. *)
Record ExtScan : Type := {
  startDot : Z;
  startPart : Z;
  endAt : Z;
  matchedSlash : bool;
  preDotState : Z
}.

(** The loop [for (let i = path.length - 1; i >= 0; --i)] of [path.extname],
    over the characters of the path from the last one. *)
Fixpoint extnameScan (backwards : list ascii) (i : Z) (st : ExtScan) : ExtScan :=
  match backwards with
  | [] => st
  | code :: rest =>
    if Ascii.eqb code "/" then
      if negb (matchedSlash st) then
        {| startDot := startDot st; startPart := i + 1; endAt := endAt st;
           matchedSlash := matchedSlash st; preDotState := preDotState st |}
      else extnameScan rest (i - 1) st
    else
      let st1 :=
        if endAt st =? -1 then
          {| startDot := startDot st; startPart := startPart st; endAt := i + 1;
             matchedSlash := false; preDotState := preDotState st |}
        else st in
      let st2 :=
        if Ascii.eqb code "." then
          if startDot st1 =? -1 then
            {| startDot := i; startPart := startPart st1; endAt := endAt st1;
               matchedSlash := matchedSlash st1; preDotState := preDotState st1 |}
          else if negb (preDotState st1 =? 1) then
            {| startDot := startDot st1; startPart := startPart st1; endAt := endAt st1;
               matchedSlash := matchedSlash st1; preDotState := 1 |}
          else st1
        else if negb (startDot st1 =? -1) then
          {| startDot := startDot st1; startPart := startPart st1; endAt := endAt st1;
             matchedSlash := matchedSlash st1; preDotState := -1 |}
        else st1 in
      extnameScan rest (i - 1) st2
  end.

(** [path.extname(path)] (posix). *)
Definition extname (path : string) : string :=
  let st := extnameScan (rev (list_ascii_of_string path))
              (Z.of_nat (String.length path) - 1)
              {| startDot := -1; startPart := 0; endAt := -1;
                 matchedSlash := true; preDotState := 0 |} in
  if (startDot st =? -1) || (endAt st =? -1) || (preDotState st =? 0)
     || ((preDotState st =? 1) && (startDot st =? endAt st - 1)
         && (startDot st =? startPart st + 1))
  then ""
  else substring (Z.to_nat (startDot st)) (Z.to_nat (endAt st - startDot st)) path.

(** [new Set(items)]: the distinct items in order of first insertion. *)
Definition has (set : list string) (s : string) : bool :=
  existsb (String.eqb s) set.

Definition newSet (items : list string) : list string :=
  fold_left (fun set s => if has set s then set else set ++ [s]) items [].

(** [array.sort()] with the default comparison (by code units). *)
Fixpoint insertSorted (s : string) (sorted : list string) : list string :=
  match sorted with
  | [] => [s]
  | h :: t => if String.leb h s then h :: insertSorted s t else s :: sorted
  end.

Definition sort (items : list string) : list string :=
  fold_left (fun sorted s => insertSorted s sorted) items [].

(** [items.join(sep)] *)
Definition join (sep : string) (items : list string) : string :=
  String.concat sep items.

(** A value used in a condition: [undefined] and [""] are falsy. *)
Definition truthy (s : option string) : bool :=
  match s with
  | Some v => negb (String.eqb v "")
  | None => false
  end.

(** A parameter with a default value. *)
Definition orDefault {A : Type} (v : option A) (default : A) : A :=
  match v with
  | Some a => a
  | None => default
  end.

(* ------------------------------------------------------------------ *)
(** ** Constants of [core.ts] *)

(** A value read out of the [LABEL_SIZES] object. *)
Inductive JsValue : Type :=
| JsTuple (w h : Q)          (* a [[number, number]] of the catalogue *)
| JsInherited (name : string) (* a member inherited from [Object.prototype] *)
| JsUndefined.

Definition LABEL_SIZES : list (string * (Q * Q)) :=
  [ ("4x6", (4, 6)); ("4x8", (4, 8)); ("2x7", (2, 7)); ("letter", (17 # 2, 11)) ]%Q.

(** The property names that every object literal inherits. *)
Definition Object_prototype : list string :=
  [ "constructor"; "__defineGetter__"; "__defineSetter__"; "hasOwnProperty";
    "__lookupGetter__"; "__lookupSetter__"; "isPrototypeOf";
    "propertyIsEnumerable"; "toString"; "valueOf"; "__proto__";
    "toLocaleString" ].

Fixpoint ownProperty (entries : list (string * (Q * Q))) (key : string) : option (Q * Q) :=
  match entries with
  | [] => None
  | (k, v) :: rest => if String.eqb k key then Some v else ownProperty rest key
  end.

(** [LABEL_SIZES[key]]: an own property, else one found on the prototype,
    else [undefined]. *)
Definition getProperty (key : string) : JsValue :=
  match ownProperty LABEL_SIZES key with
  | Some (w, h) => JsTuple w h
  | None => if has Object_prototype key then JsInherited key else JsUndefined
  end.

(** [a ?? b] *)
Definition nullish (a b : JsValue) : JsValue :=
  match a with
  | JsUndefined => b
  | _ => a
  end.

(** [v[0]] and [v[1]] used as numbers: an index that is not there gives
    [undefined], which is [NaN] in arithmetic. *)
Definition item0 (v : JsValue) : JsNum :=
  match v with
  | JsTuple w _ => Finite w
  | _ => NaN
  end.

Definition item1 (v : JsValue) : JsNum :=
  match v with
  | JsTuple _ h => Finite h
  | _ => NaN
  end.

Definition DEFAULT_LABEL_SIZE : string := "4x6".
Definition DEFAULT_DPI : JsNum := Finite 300.

Definition SUPPORTED_IMAGE_EXTS : list string :=
  newSet [".png"; ".jpg"; ".jpeg"; ".bmp"; ".tiff"; ".tif"; ".webp"].
Definition SUPPORTED_PDF_EXTS : list string := newSet [".pdf"].
Definition SUPPORTED_EXTS : list string :=
  newSet (SUPPORTED_IMAGE_EXTS ++ SUPPORTED_PDF_EXTS).

Definition PAGE_WIDTH_IN : JsNum := Finite 11.
Definition PAGE_HEIGHT_IN : JsNum := Finite (17 # 2).
Definition PTS_PER_INCH : JsNum := Finite 72.

(* ------------------------------------------------------------------ *)
(** ** Image loading *)

(** The files the process can see: whether a path exists, what
    [sharp(path).png().toBuffer()] decodes it to, what
    [loadImageFromPdf(path, pageNum, dpi)] rasterises it to, and whether
    [fs.writeFileSync(path, data)] writes the file or throws (a path in a
    missing or read-only directory; the outcome is taken not to depend on
    the data). *)
Record FileSystem : Type := {
  existsSync : string -> bool;
  sharpFile : string -> result GrayImage;
  loadImageFromPdf : string -> Z -> JsNum -> result GrayImage;
  writeFileSync : string -> result unit
}.

(** The message of the error [loadImage] throws. *)
Definition unsupportedFileFormat (ext : string) (supported : list string) : string :=
  ("Unsupported file format '" ++ ext ++ "'. Supported: " ++ join ", " supported)%string.

Definition loadImage (fs : FileSystem) (inputPath : string) : result GrayImage :=
  let ext := toLowerCase (extname inputPath) in
  if has SUPPORTED_IMAGE_EXTS ext then sharpFile fs inputPath
  else if has SUPPORTED_PDF_EXTS ext then loadImageFromPdf fs inputPath 0 DEFAULT_DPI
  else Throw (Error (unsupportedFileFormat ext (sort SUPPORTED_EXTS))).

(** The check of the first upload in the [/resize] route of [app.ts]: the
    JSON error of the 400 response, if the extension is not supported. *)
Definition unsupportedFormat (ext : string) (supported : list string) : string :=
  ("Unsupported format '" ++ ext ++ "'. Supported: " ++ join ", " supported)%string.

Definition resizeRouteCheck (originalname : string) : option string :=
  let ext1 := toLowerCase (extname originalname) in
  if negb (has SUPPORTED_EXTS ext1)
  then Some (unsupportedFormat ext1 (sort SUPPORTED_EXTS))
  else None.

(** A file system with no files. *)
Definition noFiles : FileSystem :=
  {| existsSync := fun _ => false;
     sharpFile := fun _ => Throw SharpUnsupportedInput;
     loadImageFromPdf := fun _ _ _ => Throw MupdfFailure;
     writeFileSync := fun _ => Ok tt |}.

(* ------------------------------------------------------------------ *)
(** ** [resizeImage] *)

(** A buffer as [pdf-lib] sees it: a PNG stream of some pixel size, or
    bytes that are not a PNG. *)
Inductive Buffer : Type :=
| PngBytes (w h : Z)
| OtherBytes.

(** The three [fit] options of [sharp.resize] the code uses.  With each of
    them the output has exactly the requested size; they differ in how the
    source is mapped into it. *)
Inductive SharpFit : Type := fit_fill | fit_cover | fit_contain.

(** The largest width or height the image library takes. *)
Definition maxDimension : Z := 100000000.

(** [sharp(imageBuffer).resize(w, h, { fit }).flatten(...).png().toBuffer()]:
    [w] and [h] must be positive integers, and none above [maxDimension].
    (The memory an output of that size takes is not modelled.) *)
Definition sharp_resize (imageBuffer : GrayImage) (w h : option Z) (fit : SharpFit)
  : result Buffer :=
  match w with
  | Some w' =>
    if (0 <? w') && (w' <=? maxDimension) then
      match h with
      | Some h' =>
        if (0 <? h') && (h' <=? maxDimension) then Ok (PngBytes w' h')
        else Throw (SharpInvalidParameter "height")
      | None => Throw (SharpInvalidParameter "height")
      end
    else Throw (SharpInvalidParameter "width")
  | None => Throw (SharpInvalidParameter "width")
  end.

Definition resizeImage (imageBuffer : GrayImage) (labelSize : JsValue)
           (dpi : JsNum) (fitMode : string) : result Buffer :=
  let targetW := Math_round (jsMul (item0 labelSize) dpi) in
  let targetH := Math_round (jsMul (item1 labelSize) dpi) in
  if String.eqb fitMode "stretch" then
    sharp_resize imageBuffer targetW targetH fit_fill
  else if String.eqb fitMode "fill" then
    sharp_resize imageBuffer targetW targetH fit_cover
  else
    sharp_resize imageBuffer targetW targetH fit_contain.

(* ------------------------------------------------------------------ *)
(** ** [buildPdf2Up] *)

(** One [page.drawImage(img, { x, y, width, height })]. *)
Record DrawnImage : Type := {
  image : Z * Z;     (* pixel size of the embedded PNG *)
  x : JsNum;
  y : JsNum;
  drawnWidth : JsNum;
  drawnHeight : JsNum
}.

Record Page : Type := {
  pageSize : JsNum * JsNum;
  drawn : list DrawnImage
}.

Record PdfDocument : Type := { pages : list Page }.

(** [pdfDoc.embedPng(bytes)] *)
Definition embedPng (bytes : option Buffer) : result (Z * Z) :=
  match bytes with
  | Some (PngBytes w h) => Ok (w, h)
  | _ => Throw PdfLibNotPng
  end.

Definition drawImage (page : Page) (d : DrawnImage) : Page :=
  {| pageSize := pageSize page; drawn := drawn page ++ [d] |}.

(** [for (let i = start; ...; i++) s = await body(i, s)], [n] iterations. *)
Fixpoint forUpAwait {St : Type} (n : nat) (i : Z) (body : Z -> St -> result St) (s : St)
  : result St :=
  match n with
  | O => Ok s
  | S n' => await s' <- body i s; forUpAwait n' (i + 1) body s'
  end.

Definition buildPdf2Up (images : list Buffer) (labelSize : JsValue) : result PdfDocument :=
  let pageW := jsMul PAGE_WIDTH_IN PTS_PER_INCH in
  let pageH := jsMul PAGE_HEIGHT_IN PTS_PER_INCH in
  let labelW := jsMul (item0 labelSize) PTS_PER_INCH in
  let labelH := jsMul (item1 labelSize) PTS_PER_INCH in
  let halfW := jsHalf pageW in
  let page := {| pageSize := (pageW, pageH); drawn := [] |} in
  await page' <-
    forUpAwait (Z.to_nat (Z.min (Z.of_nat (List.length images)) 2 - 0)) 0
      (fun i page =>
         await img <- embedPng (nth_error images (Z.to_nat i));
         let x := if i =? 0 then jsHalf (jsSub halfW labelW)
                  else jsAdd halfW (jsHalf (jsSub halfW labelW)) in
         let y := jsHalf (jsSub pageH labelH) in
         Ok (drawImage page {| image := img; x := x; y := y;
                               drawnWidth := labelW; drawnHeight := labelH |}))
      page;
  Ok {| pages := [page'] |}.

(* ------------------------------------------------------------------ *)
(** ** Vocabulary of the statements about [autoCropLabel] *)

(** The pixel in column [x] of row [y] is dark. *)
Definition darkAt (img : GrayImage) (threshold : Z) (x y : Z) : Prop :=
  isDark img threshold (y * width img + x) = true.

(** [(x, y)] is a pixel position of the image. *)
Definition inImage (img : GrayImage) (x y : Z) : Prop :=
  0 <= x < width img /\ 0 <= y < height img.

(** [[x0, x1) x [y0, y1)] is the tightest axis-aligned box around the dark
    pixels: it contains all of them and each of its sides touches one. *)
Definition TightBox (img : GrayImage) (threshold : Z) (x0 y0 x1 y1 : Z) : Prop :=
  (forall x y, inImage img x y -> darkAt img threshold x y ->
     x0 <= x < x1 /\ y0 <= y < y1) /\
  (exists y, inImage img x0 y /\ darkAt img threshold x0 y) /\
  (exists y, inImage img (x1 - 1) y /\ darkAt img threshold (x1 - 1) y) /\
  (exists x, inImage img x y0 /\ darkAt img threshold x y0) /\
  (exists x, inImage img x (y1 - 1) /\ darkAt img threshold x (y1 - 1)).

(** A region is a non-empty rectangle inside the image. *)
Definition insideImage (img : GrayImage) (r : Region.t) : Prop :=
  0 <= Region.left r /\ 0 <= Region.top r /\
  0 < Region.width r /\ 0 < Region.height r /\
  Region.left r + Region.width r <= width img /\
  Region.top r + Region.height r <= height img.

(** The integers [start], [start + 1], ... ([n] of them). *)
Fixpoint zrange (start : Z) (n : nat) : list Z :=
  match n with
  | O => []
  | S n' => start :: zrange (start + 1) n'
  end.

(** Number of dark pixels of row [y] in the columns [[x0, x1)]. *)
Definition darkInRow (img : GrayImage) (threshold : Z) (y x0 x1 : Z) : Z :=
  Z.of_nat (List.length
    (filter (fun x => isDark img threshold (y * width img + x))
            (zrange x0 (Z.to_nat (x1 - x0))))).

(** Number of dark pixels of column [x] in the rows [[y0, y1)]. *)
Definition darkInColumn (img : GrayImage) (threshold : Z) (x y0 y1 : Z) : Z :=
  Z.of_nat (List.length
    (filter (fun y => isDark img threshold (y * width img + x))
            (zrange y0 (Z.to_nat (y1 - y0))))).

(** An inward scan over the lines [0, 1, ..., steps - 1] counted from an edge
    of the box: the edge moves to the first line that is not a border line,
    and does not move when every scanned line is one. *)
Definition InwardScan (isBorderLine : Z -> bool) (steps moved : Z) : Prop :=
  (0 <= moved < steps /\ isBorderLine moved = false /\
   forall j, 0 <= j < moved -> isBorderLine j = true)
  \/
  (moved = 0 /\ forall j, 0 <= j < steps -> isBorderLine j = true).

(** The part of the bounding-box loop that has run: the pixels of the rows
    above [yy] and those of row [yy] left of [xx]. *)
Definition visited (img : GrayImage) (yy xx : Z) (x y : Z) : Prop :=
  0 <= x < width img /\ 0 <= y /\ (y < yy \/ (y = yy /\ x < xx)).

(** Invariant of the bounding-box loop over a set [V] of visited pixels. *)
Definition BoxInv (img : GrayImage) (threshold : Z) (V : Z -> Z -> Prop) (b : BBox) : Prop :=
  if found b then
    (forall x y, V x y -> darkAt img threshold x y ->
       bx0 b <= x < bx1 b /\ by0 b <= y < by1 b) /\
    (exists y, V (bx0 b) y /\ darkAt img threshold (bx0 b) y) /\
    (exists y, V (bx1 b - 1) y /\ darkAt img threshold (bx1 b - 1) y) /\
    (exists x, V x (by0 b) /\ darkAt img threshold x (by0 b)) /\
    (exists x, V x (by1 b - 1) /\ darkAt img threshold x (by1 b - 1))
  else
    (bx0 b = width img /\ by0 b = height img /\ bx1 b = 0 /\ by1 b = 0) /\
    (forall x y, V x y -> ~ darkAt img threshold x y).

(* ------------------------------------------------------------------ *)
(** ** The entry points *)

(** The pixels of a region, as [sharp.extract] cuts them out. *)
Definition extractPixels (img : GrayImage) (r : Region.t) : GrayImage :=
  {| width := Region.width r;
     height := Region.height r;
     gray := flat_map
               (fun y => firstn (Z.to_nat (Region.width r))
                           (skipn (Z.to_nat (y * width img + Region.left r)) (gray img)))
               (zrange (Region.top r) (Z.to_nat (Region.height r))) |}.

(** The buffer a call [autoCropLabel(buf)] resolves to. *)
Definition autoCropped (buf : GrayImage) : result GrayImage :=
  await outcome <- autoCropLabel buf defaultBorderThreshold defaultMinAreaRatio;
  Ok (match outcome with
      | SameBuffer => buf
      | Extracted region => extractPixels buf region
      end).

Definition prepareLabel (fs : FileSystem) (inputPath : string) (dpi : JsNum)
           (fitMode : string) (autoCrop : bool) (labelSize : JsValue) : result Buffer :=
  await buf <- loadImage fs inputPath;
  await buf' <- (if autoCrop then autoCropped buf else Ok buf);
  resizeImage buf' labelSize dpi fitMode.

(** [savePdf2Up]: the document written to [outputPath]. *)
Definition savePdf2Up (fs : FileSystem) (images : list Buffer) (outputPath : string)
           (labelSize : JsValue) : result (string * PdfDocument) :=
  await pdfBytes <- buildPdf2Up images labelSize;
  await written <- writeFileSync fs outputPath;
  Ok (outputPath, pdfBytes).

(** Length of the match of [/\.[^.]+$/]: the last dot and what follows it,
    when something follows it. *)
Fixpoint extensionLength (backwards : list ascii) (n : nat) : option nat :=
  match backwards with
  | [] => None
  | c :: rest =>
    if Ascii.eqb c "." then (if Nat.eqb n 0 then None else Some (S n))
    else extensionLength rest (S n)
  end.

(** [s.replace(/\.[^.]+$/, "")] *)
Definition dropExtension (s : string) : string :=
  match extensionLength (rev (list_ascii_of_string s)) 0 with
  | Some k => substring 0 (String.length s - k) s
  | None => s
  end.

Module ResizeLabelOptions.
Record t : Type := {
  inputPath : string;
  outputPath : option string;
  inputPath2 : option string;
  dpi : option JsNum;
  fitMode : option string;
  autoCrop : option bool;
  labelSize : option string
}.
End ResizeLabelOptions.

(** [LABEL_SIZES[labelSizeKey] ?? LABEL_SIZES[DEFAULT_LABEL_SIZE]] *)
Definition sizeFor (labelSizeKey : string) : JsValue :=
  nullish (getProperty labelSizeKey) (getProperty DEFAULT_LABEL_SIZE).

(** [resizeLabel]: the path it returns and the document written there. *)
Definition resizeLabel (fs : FileSystem) (o : ResizeLabelOptions.t)
  : result (string * PdfDocument) :=
  let inputPath := ResizeLabelOptions.inputPath o in
  let inputPath2 := ResizeLabelOptions.inputPath2 o in
  let dpi := orDefault (ResizeLabelOptions.dpi o) DEFAULT_DPI in
  let fitMode := orDefault (ResizeLabelOptions.fitMode o) "fit" in
  let autoCrop := orDefault (ResizeLabelOptions.autoCrop o) true in
  let labelSizeKey := orDefault (ResizeLabelOptions.labelSize o) DEFAULT_LABEL_SIZE in
  if negb (existsSync fs inputPath) then
    Throw (Error ("Input file not found: " ++ inputPath)%string)
  else if truthy inputPath2 && negb (existsSync fs (orDefault inputPath2 "")) then
    Throw (Error ("Second input file not found: " ++ orDefault inputPath2 "")%string)
  else
    let size := sizeFor labelSizeKey in
    let outputPath :=
      if negb (truthy (ResizeLabelOptions.outputPath o))
      then (dropExtension inputPath ++ "_label.pdf")%string
      else orDefault (ResizeLabelOptions.outputPath o) "" in
    await label1 <- prepareLabel fs inputPath dpi fitMode autoCrop size;
    await labels <-
      (if truthy inputPath2 then
         await label2 <- prepareLabel fs (orDefault inputPath2 "") dpi fitMode autoCrop size;
         Ok [label1; label2]
       else Ok [label1]);
    await written <- savePdf2Up fs labels outputPath size;
    Ok (outputPath, snd written).

(** An uploaded buffer, by what the decoders make of it:
    [sharp(buf).png().toBuffer()], and [loadImageFromPdf(tmp, 0, dpi)] on the
    temporary file holding it. *)
Record Upload : Type := {
  sharpPng : result GrayImage;
  pdfPage0 : JsNum -> result GrayImage
}.

Module ResizeLabelFromBuffersOptions.
Record t : Type := {
  buffer1 : Upload;
  ext1 : string;
  buffer2 : option Upload;
  ext2 : option string;
  dpi : option JsNum;
  fitMode : option string;
  autoCrop : option bool;
  labelSize : option string
}.
End ResizeLabelFromBuffersOptions.

Definition bufToImage (dpi : JsNum) (buf : Upload) (ext : string) : result GrayImage :=
  if has SUPPORTED_PDF_EXTS ext then pdfPage0 buf dpi else sharpPng buf.

Definition prepare (dpi : JsNum) (fitMode : string) (autoCrop : bool) (size : JsValue)
           (buf : Upload) (ext : string) : result Buffer :=
  await img <- bufToImage dpi buf ext;
  await img' <- (if autoCrop then autoCropped img else Ok img);
  resizeImage img' size dpi fitMode.

Definition resizeLabelFromBuffers (o : ResizeLabelFromBuffersOptions.t) : result PdfDocument :=
  let dpi := orDefault (ResizeLabelFromBuffersOptions.dpi o) DEFAULT_DPI in
  let fitMode := orDefault (ResizeLabelFromBuffersOptions.fitMode o) "fit" in
  let autoCrop := orDefault (ResizeLabelFromBuffersOptions.autoCrop o) true in
  let labelSizeKey :=
    orDefault (ResizeLabelFromBuffersOptions.labelSize o) DEFAULT_LABEL_SIZE in
  let size := sizeFor labelSizeKey in
  await label1 <- prepare dpi fitMode autoCrop size
                    (ResizeLabelFromBuffersOptions.buffer1 o)
                    (ResizeLabelFromBuffersOptions.ext1 o);
  await labels <-
    (match ResizeLabelFromBuffersOptions.buffer2 o with
     | Some buffer2 =>
       if truthy (ResizeLabelFromBuffersOptions.ext2 o) then
         await label2 <- prepare dpi fitMode autoCrop size buffer2
                           (orDefault (ResizeLabelFromBuffersOptions.ext2 o) "");
         Ok [label1; label2]
       else Ok [label1]
     | None => Ok [label1]
     end);
  buildPdf2Up labels size.

(* ------------------------------------------------------------------ *)
(** ** The Swift port ([LabelProcessor.swift]) *)

Module Swift.

Definition pageWidthInches : Q := 11.
Definition pageHeightInches : Q := 17 # 2.
Definition labelWidthInches : Q := 4.
Definition labelHeightInches : Q := 6.

Record CGRect : Type := { x : Q; y : Q; width : Q; height : Q }.

(** The page of [generate2UpPDF] and the [label.draw(in: drawRect)] calls. *)
Record PdfPage (UIImage : Type) : Type := {
  pageRect : CGRect;
  drawn : list (UIImage * CGRect)
}.

Arguments pageRect {UIImage} _.
Arguments drawn {UIImage} _.

(** [sequence.enumerated()] from index [i]. *)
Fixpoint enumerated {A : Type} (i : Z) (l : list A) : list (Z * A) :=
  match l with
  | [] => []
  | a :: rest => (i, a) :: enumerated (i + 1) rest
  end.

Definition generate2UpPDF {UIImage : Type} (labels : list UIImage) : PdfPage UIImage :=
  let pageW := (pageWidthInches * 72)%Q in
  let pageH := (pageHeightInches * 72)%Q in
  let labelW := (labelWidthInches * 72)%Q in
  let labelH := (labelHeightInches * 72)%Q in
  let halfW := (pageW / 2)%Q in
  let xLeft := ((halfW - labelW) / 2)%Q in
  let xRight := (halfW + (halfW - labelW) / 2)%Q in
  let yOffset := ((pageH - labelH) / 2)%Q in
  {| pageRect := {| x := 0; y := 0; width := pageW; height := pageH |};
     drawn :=
       map (fun '(i, label) =>
              let x := if i =? 0 then xLeft else xRight in
              (label, {| x := x; y := yOffset; width := labelW; height := labelH |}))
           (enumerated 0 (firstn 2 labels)) |}.

(** [UInt16] arithmetic: a result outside [0, 65535] is a runtime trap
    ([None]). *)
Definition uint16 (v : Z) : option Z :=
  if (0 <=? v) && (v <=? 65535) then Some v else None.

Definition checked (op : Z -> Z -> Z) (a b : option Z) : option Z :=
  match a, b with
  | Some u, Some v => uint16 (op u v)
  | _, _ => None
  end.

(** The helper [brightness] of [autoCrop], on the three colour bytes of a
    pixel: [UInt8((r * 299 + g * 587 + b * 114) / 1000)] with [r], [g], [b]
    of type [UInt16]. *)
Definition brightness (r g b : Z) : option Z :=
  let r := uint16 r in
  let g := uint16 g in
  let b := uint16 b in
  let sum := checked Z.add
               (checked Z.add (checked Z.mul r (Some 299)) (checked Z.mul g (Some 587)))
               (checked Z.mul b (Some 114)) in
  match checked Z.div sum (Some 1000) with
  | Some v => if v <=? 255 then Some v else None
  | None => None
  end.

End Swift.

(* ------------------------------------------------------------------ *)
(** ** Vocabulary of the statements about the page layout *)

(** An interval of length [size] starting at [pos] sits in the middle of
    [[lo, hi]]: the margins on both sides are equal. *)
Definition Centred (lo hi pos size : Q) : Prop :=
  (pos - lo == hi - (pos + size))%Q.

(** Number of images drawn on the pages of a document. *)
Definition embeddedImages (doc : PdfDocument) : nat :=
  List.length (flat_map drawn doc.(pages)).

(* ------------------------------------------------------------------ *)
(** ** Vocabulary of the statements about pixel sizes *)

(** The finite binary64 values, the numbers a JavaScript [number] can hold:
    [m * 2^e] with [|m| < 2^53] and [-1074 <= e <= 971].  A product of two
    of them that is one of them again is computed exactly by the code. *)
Definition Binary64 (q : Q) : Prop :=
  exists m e : Z,
    Z.abs m < 2 ^ 53 /\ -1074 <= e <= 971 /\ (q == inject_Z m * 2 ^ e)%Q.

(* ------------------------------------------------------------------ *)
(** ** Sample inputs *)

(** A file system holding one image file, [label.png]. *)
Definition oneLabelFile (img : GrayImage) : FileSystem :=
  {| existsSync := fun p => String.eqb p "label.png";
     sharpFile := fun p => if String.eqb p "label.png" then Ok img
                           else Throw SharpUnsupportedInput;
     loadImageFromPdf := fun _ _ _ => Throw MupdfFailure;
     writeFileSync := fun _ => Ok tt |}.

(** An upload that is an image. *)
Definition imageUpload (img : GrayImage) : Upload :=
  {| sharpPng := Ok img; pdfPage0 := fun _ => Throw MupdfFailure |}.

Definition optionsFor (img : GrayImage) (key : string) : ResizeLabelFromBuffersOptions.t :=
  {| ResizeLabelFromBuffersOptions.buffer1 := imageUpload img;
     ResizeLabelFromBuffersOptions.ext1 := ".png";
     ResizeLabelFromBuffersOptions.buffer2 := None;
     ResizeLabelFromBuffersOptions.ext2 := None;
     ResizeLabelFromBuffersOptions.dpi := None;
     ResizeLabelFromBuffersOptions.fitMode := None;
     ResizeLabelFromBuffersOptions.autoCrop := None;
     ResizeLabelFromBuffersOptions.labelSize := Some key |}.

Definition fileOptionsFor (key : string) : ResizeLabelOptions.t :=
  {| ResizeLabelOptions.inputPath := "label.png";
     ResizeLabelOptions.outputPath := None;
     ResizeLabelOptions.inputPath2 := None;
     ResizeLabelOptions.dpi := None;
     ResizeLabelOptions.fitMode := None;
     ResizeLabelOptions.autoCrop := None;
     ResizeLabelOptions.labelSize := Some key |}.

(** A 6 x 6 image: a one-pixel black frame around a white interior. *)
Definition framedLabel : GrayImage :=
  {| width := 6; height := 6;
     gray := [  0;   0;   0;   0;   0;   0;
                0; 255; 255; 255; 255;   0;
                0; 255; 255; 255; 255;   0;
                0; 255; 255; 255; 255;   0;
                0; 255; 255; 255; 255;   0;
                0;   0;   0;   0;   0;   0] |}.

(** A 4 x 4 image: a one-pixel black frame around a white 2 x 2 interior. *)
Definition smallFrame : GrayImage :=
  {| width := 4; height := 4;
     gray := [  0;   0;   0;   0;
                0; 255; 255;   0;
                0; 255; 255;   0;
                0;   0;   0;   0] |}.

(** The region [autoCropLabel] extracts from [framedLabel]: all of it. *)
Definition framedLabelCrop : Region.t :=
  {| Region.left := 0; Region.top := 0; Region.width := 6; Region.height := 6 |}.

(** A 2 x 2 image of black pixels. *)
Definition blackSquare : GrayImage :=
  {| width := 2; height := 2; gray := [0; 0; 0; 0] |}.

(** A 2 x 40 image: 19 black rows, 2 white rows, 19 black rows. *)
Definition thickBorders : GrayImage :=
  {| width := 2; height := 40;
     gray := repeat 0 38 ++ repeat 255 4 ++ repeat 0 38 |}.

(** A decoded image as an input buffer. *)
Definition decodable (img : GrayImage) : ImageBuffer :=
  {| metadata := Ok (width img, height img); grayscaleRaw := Ok (gray img) |}.

(** A buffer of bytes that are no image. *)
Definition notAnImage : ImageBuffer :=
  {| metadata := Throw SharpUnsupportedInput;
     grayscaleRaw := Throw SharpUnsupportedInput |}.

(** A file system holding [label.png] in which nothing can be written. *)
Definition readOnlyFiles (img : GrayImage) : FileSystem :=
  {| existsSync := fun p => String.eqb p "label.png";
     sharpFile := fun p => if String.eqb p "label.png" then Ok img
                           else Throw SharpUnsupportedInput;
     loadImageFromPdf := fun _ _ _ => Throw MupdfFailure;
     writeFileSync := fun p =>
       Throw (Error ("EACCES: permission denied, open '" ++ p ++ "'")%string) |}.

(** An upload that no decoder accepts. *)
Definition brokenUpload : Upload :=
  {| sharpPng := Throw SharpUnsupportedInput; pdfPage0 := fun _ => Throw MupdfFailure |}.


(** An upload that is a PDF, rendering to [img] at any resolution. *)
Definition pdfUpload (img : GrayImage) : Upload :=
  {| sharpPng := Throw SharpUnsupportedInput; pdfPage0 := fun _ => Ok img |}.

(** A file system holding the one PDF [label.pdf]. *)
Definition onePdfFile (img : GrayImage) : FileSystem :=
  {| existsSync := fun p => String.eqb p "label.pdf";
     sharpFile := fun _ => Throw SharpUnsupportedInput;
     loadImageFromPdf := fun p _ _ => if String.eqb p "label.pdf" then Ok img
                                      else Throw MupdfFailure;
     writeFileSync := fun _ => Ok tt |}.
(* ------------------------------------------------------------------ *)
(** ** The [/resize] route of [app.ts] and the command line *)

(** [parseInt(s, 10)]: leading white space, an optional sign, then decimal
    digits up to the first other character; [NaN] when there is no digit.
    (The value is exact: the loss of precision of a double beyond 2^53 is not
    modelled.  The white space skipped is that of ASCII; in a string with
    other characters JavaScript also skips U+00A0, U+FEFF and the other
    Unicode spaces.) *)
Definition isWhiteSpace (c : ascii) : bool :=
  let n := nat_of_ascii c in
  Nat.eqb n 32 || ((9 <=? n)%nat && (n <=? 13)%nat).

Fixpoint trimStart (s : string) : string :=
  match s with
  | EmptyString => EmptyString
  | String c rest => if isWhiteSpace c then trimStart rest else s
  end.

Definition digitValue (c : ascii) : option Z :=
  let n := nat_of_ascii c in
  if (48 <=? n)%nat && (n <=? 57)%nat then Some (Z.of_nat n - 48) else None.

(** The value of the leading digits of [s], continuing [acc]. *)
Fixpoint leadingDigits (s : string) (acc : option Z) : option Z :=
  match s with
  | EmptyString => acc
  | String c rest =>
    match digitValue c with
    | Some d => leadingDigits rest (Some (10 * orDefault acc 0 + d))
    | None => acc
    end
  end.

Definition parseInt (s : string) : JsNum :=
  let number (sign : Z) (digits : string) :=
    match leadingDigits digits None with
    | Some v => Finite (inject_Z (sign * v))
    | None => NaN
    end in
  match trimStart s with
  | String "-" rest => number (-1) rest
  | String "+" rest => number 1 rest
  | rest => number 1 rest
  end.

(** [s.includes(sub)] *)
Definition includes (s sub : string) : bool :=
  match String.index 0 sub s with
  | Some _ => true
  | None => false
  end.

(** The double-quote character. *)
Definition quote : string := String (ascii_of_nat 34) EmptyString.

(** [err.message]: the message of an error of the repository's own, or the
    one the library gave its exception ([libraryMessage]). *)
Definition messageOf (libraryMessage : Exception -> string) (e : Exception) : string :=
  match e with
  | Error message => message
  | _ => libraryMessage e
  end.

(** One uploaded file as multer hands it over. *)
Record MulterFile : Type := {
  originalname : string;
  buffer : Upload
}.

(** The parts of a [POST /resize] the handler reads: [req.files.file[0]],
    [req.files.file2[0]], and the text fields [dpi], [fit], [auto_crop] (each
    sent at most once).  Any other field, [label_size] included, is not read. *)
Record ResizeRequest : Type := {
  file : option MulterFile;
  file2 : option MulterFile;
  body_dpi : option string;
  body_fit : option string;
  body_auto_crop : option string
}.

Inductive Response : Type :=
| Json (status : Z) (error : string)
    (* [res.status(status).json({ error })] *)
| PdfAttachment (contentDisposition : string) (body : PdfDocument).
    (* status 200, [Content-Type: application/pdf] *)

(** What the handler passes on of the optional second upload: its buffer
    only when its extension is supported, its extension whenever it has a
    name. *)
Definition secondUpload (file2 : option MulterFile) : option Upload * option string :=
  match file2 with
  | Some f2 =>
    if truthy (Some (originalname f2)) then
      let ext2 := toLowerCase (extname (originalname f2)) in
      (if has SUPPORTED_EXTS ext2 then Some (buffer f2) else None, Some ext2)
    else (None, None)
  | None => (None, None)
  end.

(** [app.post("/resize", ...)] *)
Definition resizeRoute (libraryMessage : Exception -> string) (req : ResizeRequest)
  : Response :=
  match file req with
  | None => Json 400 "No file uploaded"
  | Some file1 =>
    let ext1 := toLowerCase (extname (originalname file1)) in
    if negb (has SUPPORTED_EXTS ext1) then
      Json 400 (unsupportedFormat ext1 (sort SUPPORTED_EXTS))
    else
      let dpi := parseInt (orDefault (body_dpi req) "300") in
      let fitMode := orDefault (body_fit req) "fit" in
      let autoCrop :=
        String.eqb (toLowerCase (orDefault (body_auto_crop req) "true")) "true" in
      let second := secondUpload (file2 req) in
      match resizeLabelFromBuffers
              {| ResizeLabelFromBuffersOptions.buffer1 := buffer file1;
                 ResizeLabelFromBuffersOptions.ext1 := ext1;
                 ResizeLabelFromBuffersOptions.buffer2 := fst second;
                 ResizeLabelFromBuffersOptions.ext2 := snd second;
                 ResizeLabelFromBuffersOptions.dpi := Some dpi;
                 ResizeLabelFromBuffersOptions.fitMode := Some fitMode;
                 ResizeLabelFromBuffersOptions.autoCrop := Some autoCrop;
                 ResizeLabelFromBuffersOptions.labelSize := None |} with
      | Ok pdfBuffer =>
        let baseName := dropExtension (originalname file1) in
        PdfAttachment ("attachment; filename=" ++ quote ++ baseName ++ "_label.pdf" ++ quote)%string
                      pdfBuffer
      | Throw err =>
        let message := messageOf libraryMessage err in
        let status :=
          if includes message "not found" || includes message "Unsupported"
          then 400 else 500 in
        Json status message
      end
  end.

(** The options commander hands to the action of [cli.ts]. *)
Record CliOptions : Type := {
  output : option string;
  cli_dpi : string;
  fit : string;
  crop : bool
}.

(** What the action of the command line does: print the path of the saved
    label, or print the error and exit with status 1. *)
Inductive CliOutcome : Type :=
| Logged (line : string) (saved : string * PdfDocument)
| ExitedWith (code : Z) (errorLine : string).

Definition cliAction (fs : FileSystem) (libraryMessage : Exception -> string)
           (input : string) (input2 : option string) (opts : CliOptions) : CliOutcome :=
  match resizeLabel fs
          {| ResizeLabelOptions.inputPath := input;
             ResizeLabelOptions.outputPath := output opts;
             ResizeLabelOptions.inputPath2 := input2;
             ResizeLabelOptions.dpi := Some (parseInt (cli_dpi opts));
             ResizeLabelOptions.fitMode := Some (fit opts);
             ResizeLabelOptions.autoCrop := Some (crop opts);
             ResizeLabelOptions.labelSize := None |} with
  | Ok saved => Logged ("Label saved to: " ++ fst saved)%string saved
  | Throw err => ExitedWith 1 ("Error: " ++ messageOf libraryMessage err)%string
  end.

(* ------------------------------------------------------------------ *)
(** ** [autoCrop] and [resizeToLabel] of [LabelProcessor.swift] *)

Module LabelProcessor.

Definition defaultDPI : Q := 300.
Definition borderThreshold : Z := 80.
Definition cropPadding : Z := 8.

(** A step that may end in a runtime trap ([None]), and its sequencing. *)
Definition andThen {A B : Type} (a : option A) (k : A -> option B) : option B :=
  match a with
  | Some v => k v
  | None => None
  end.

(** [for i in ... { s = body(i, s) }] over [n] consecutive indices from
    [i]; a trap in the body ends the run. *)
Fixpoint forIn {St : Type} (n : nat) (i : Z) (body : Z -> St -> option St) (s : St)
  : option St :=
  match n with
  | O => Some s
  | S n' => andThen (body i s) (forIn n' (i + 1) body)
  end.

(** [for i in start..<limit]; forming the range traps when
    [limit < start]. *)
Definition forInRange {St : Type} (start limit : Z) (body : Z -> St -> option St) (s : St)
  : option St :=
  if limit <? start then None else forIn (Z.to_nat (limit - start)) start body s.

(** [for i in ... { if stop(i) { ...; break } }] over [n] indices from [i]
    in steps of [step]: the index at which the loop breaks, if it does. *)
Fixpoint firstWhere (n : nat) (i step : Z) (stop : Z -> option bool) : option (option Z) :=
  match n with
  | O => Some None
  | S n' =>
    match stop i with
    | None => None
    | Some true => Some (Some i)
    | Some false => firstWhere n' (i + step) step stop
    end
  end.

(** The bitmap behind [context.data] once the image is drawn into it: RGBA
    bytes, [width * 4] to a row.  ([Int] is taken as unbounded: a bitmap of
    2^63 bytes is out of reach.) *)
Record Bitmap : Type := {
  width : Z;
  height : Z;
  data : list Z
}.

(** [data[offset]]; the offsets the loops of [autoCrop] reach lie inside
    the [width * height * 4] bytes of the bitmap. *)
Definition byte (bitmap : Bitmap) (offset : Z) : Z :=
  nth (Z.to_nat offset) (data bitmap) 0.

Definition brightness (bitmap : Bitmap) (x y : Z) : option Z :=
  let offset := (y * width bitmap + x) * 4 in
  Swift.brightness (byte bitmap offset) (byte bitmap (offset + 1)) (byte bitmap (offset + 2)).

Definition isDark (bitmap : Bitmap) (x y : Z) : option bool :=
  andThen (brightness bitmap x y) (fun v => Some (v <? borderThreshold)).

Record Box : Type := { minX : Z; minY : Z; maxX : Z; maxY : Z }.

Definition include (box : Box) (x y : Z) : Box :=
  {| minX := Z.min (minX box) x;
     minY := Z.min (minY box) y;
     maxX := Z.max (maxX box) x;
     maxY := Z.max (maxY box) y |}.

(** The bounding box of all dark pixels. *)
Definition boundingBox (bitmap : Bitmap) : option Box :=
  forInRange 0 (height bitmap)
    (fun y box =>
       forInRange 0 (width bitmap)
         (fun x box =>
            andThen (isDark bitmap x y) (fun dark =>
            Some (if dark then include box x y else box)))
         box)
    {| minX := width bitmap; minY := height bitmap; maxX := 0; maxY := 0 |}.

(** [var darkCount = 0; for i in start..<limit { if dark(i) { darkCount += 1 } }] *)
Definition countDark (start limit : Z) (dark : Z -> option bool) : option Z :=
  forInRange start limit
    (fun i darkCount =>
       andThen (dark i) (fun d => Some (if d then darkCount + 1 else darkCount)))
    0.

Definition rowIsBorder (bitmap : Bitmap) (box : Box) (y : Z) : option bool :=
  let boxW := maxX box - minX box in
  andThen (countDark (minX box) (maxX box) (fun x => isDark bitmap x y)) (fun darkCount =>
  Some (Z.quot boxW 2 <? darkCount)).

Definition colIsBorder (bitmap : Bitmap) (box : Box) (x : Z) : option bool :=
  let boxH := maxY box - minY box in
  andThen (countDark (minY box) (maxY box) (fun y => isDark bitmap x y)) (fun darkCount =>
  Some (Z.quot boxH 2 <? darkCount)).

Definition isNot (test : Z -> option bool) (i : Z) : option bool :=
  andThen (test i) (fun b => Some (negb b)).

(** [var edge = low; for i in low..<limit { if !isBorder(i) { edge = i; break } }] *)
Definition scanUp (low limit : Z) (isBorder : Z -> option bool) : option Z :=
  if limit <? low then None
  else
    andThen (firstWhere (Z.to_nat (limit - low)) low 1 (isNot isBorder)) (fun found =>
    Some (match found with
          | Some i => i
          | None => low
          end)).

(** [var edge = high; for i in stride(from: high, to: limit, by: -1)
    { if !isBorder(i) { edge = i + 1; break } }] *)
Definition scanDown (high limit : Z) (isBorder : Z -> option bool) : option Z :=
  andThen (firstWhere (Z.to_nat (high - limit)) high (-1) (isNot isBorder)) (fun found =>
  Some (match found with
        | Some i => i + 1
        | None => high
        end)).

(** What [autoCrop] returns: [image] itself, or [cgImage.cropping(to:
    cropRect)] (for a rectangle the image does not meet that is [image]
    again). *)
Inductive Cropped : Type :=
| ReturnedImage
| CroppedTo (cropRect : Swift.CGRect).

(** [autoCrop], from the point where the bitmap is at hand (without a
    [cgImage] or a context it returns [image]). *)
Definition autoCrop (bitmap : Bitmap) : option Cropped :=
  let width := width bitmap in
  let height := height bitmap in
  andThen (boundingBox bitmap) (fun box =>
  let minX := minX box in
  let minY := minY box in
  let maxX := maxX box in
  let maxY := maxY box in
  if negb ((minX <? maxX) && (minY <? maxY)) then Some ReturnedImage
  else
    let boxW := maxX - minX in
    let boxH := maxY - minY in
    if negb (Z.quot (width * height) 20 <=? boxW * boxH) then Some ReturnedImage
    else
      andThen (scanUp minY (Z.min (minY + Z.min (Z.quot boxH 2) 100) height)
                      (rowIsBorder bitmap box)) (fun top =>
      andThen (scanDown maxY (Z.max (maxY - Z.min (Z.quot boxH 2) 100) 0)
                        (rowIsBorder bitmap box)) (fun bottom =>
      andThen (scanUp minX (Z.min (minX + Z.min (Z.quot boxW 2) 100) width)
                      (colIsBorder bitmap box)) (fun left =>
      andThen (scanDown maxX (Z.max (maxX - Z.min (Z.quot boxW 2) 100) 0)
                        (colIsBorder bitmap box)) (fun right =>
      let left := Z.max (left - cropPadding) 0 in
      let top := Z.max (top - cropPadding) 0 in
      let right := Z.min (right + cropPadding) width in
      let bottom := Z.min (bottom + cropPadding) height in
      Some (CroppedTo {| Swift.x := inject_Z left;
                         Swift.y := inject_Z top;
                         Swift.width := inject_Z (right - left);
                         Swift.height := inject_Z (bottom - top) |})))))).

(** [CGFloat] values are taken as exact rationals.  Swift's [min(x, y)] and
    [max(x, y)]. *)
Definition min (x y : Q) : Q := if Qltb y x then y else x.
Definition max (x y : Q) : Q := if Qltb y x then x else y.


Record UIImage : Type := {
  size_width : Q;
  size_height : Q;
  scale : Q
}.



End LabelProcessor.

(** A bitmap of [w] x [h] pixels, all of the colour [r], [g], [b]. *)
Definition plainBitmap (w h : Z) (r g b : Z) : LabelProcessor.Bitmap :=
  {| LabelProcessor.width := w;
     LabelProcessor.height := h;
     LabelProcessor.data := List.concat (repeat [r; g; b; 255] (Z.to_nat (w * h))) |}.

(** The bounding box and the rectangle of all of a [w] x [h] bitmap. *)
Definition wholeBox (w h : Z) : LabelProcessor.Box :=
  {| LabelProcessor.minX := 0; LabelProcessor.minY := 0;
     LabelProcessor.maxX := w - 1; LabelProcessor.maxY := h - 1 |}.

Definition wholeImage (bitmap : LabelProcessor.Bitmap) : Swift.CGRect :=
  {| Swift.x := 0; Swift.y := 0;
     Swift.width := inject_Z (LabelProcessor.width bitmap);
     Swift.height := inject_Z (LabelProcessor.height bitmap) |}.

(* ================================================================== *)
(** * Properties *)

(** ** Loops *)

Lemma forUp_invariant {St : Type} (P : Z -> St -> Prop) (body : Z -> St -> St) :
  forall (n : nat) (i : Z) (s : St),
    P i s ->
    (forall j t, i <= j < i + Z.of_nat n -> P j t -> P (j + 1) (body j t)) ->
    P (i + Z.of_nat n) (forUp n i body s).
Proof.
  induction n as [|n IH]; intros i s Hs Hstep.
  - simpl. replace (i + 0) with i by lia. exact Hs.
  - cbn [forUp]. replace (i + Z.of_nat (S n)) with ((i + 1) + Z.of_nat n) by lia.
    apply IH.
    + apply Hstep; [lia | exact Hs].
    + intros j t Hj Ht. apply Hstep; [lia | exact Ht].
Qed.

Lemma forRange_invariant {St : Type} (P : Z -> St -> Prop) (body : Z -> St -> St)
      (start limit : Z) (s : St) :
  start <= limit ->
  P start s ->
  (forall j t, start <= j < limit -> P j t -> P (j + 1) (body j t)) ->
  P limit (forRange start limit body s).
Proof.
  intros Hle Hs Hstep. unfold forRange.
  replace limit with (start + Z.of_nat (Z.to_nat (limit - start))) at 1 by lia.
  apply forUp_invariant; [exact Hs|].
  intros j t Hj. apply Hstep. lia.
Qed.

Lemma forRange_empty {St : Type} (body : Z -> St -> St) (start limit : Z) (s : St) :
  limit <= start -> forRange start limit body s = s.
Proof.
  intros H. unfold forRange. replace (Z.to_nat (limit - start)) with O by lia.
  reflexivity.
Qed.

Lemma breakUp_some (stop : Z -> bool) :
  forall (n : nat) (i k : Z),
    breakUp n i stop = Some k ->
    i <= k < i + Z.of_nat n /\ stop k = true /\
    forall j, i <= j < k -> stop j = false.
Proof.
  induction n as [|n IH]; intros i k H; cbn [breakUp] in H.
  - discriminate.
  - destruct (stop i) eqn:Hi.
    + injection H as <-. repeat split; try lia. exact Hi.
    + apply IH in H. destruct H as (Hk & Hs & Hb).
      repeat split; try lia; [exact Hs|].
      intros j Hj. destruct (Z.eq_dec j i) as [->|Hne]; [exact Hi|].
      apply Hb. lia.
Qed.

Lemma breakUp_none (stop : Z -> bool) :
  forall (n : nat) (i : Z),
    breakUp n i stop = None ->
    forall j, i <= j < i + Z.of_nat n -> stop j = false.
Proof.
  induction n as [|n IH]; intros i H j Hj; cbn [breakUp] in H.
  - lia.
  - destruct (stop i) eqn:Hi; [discriminate|].
    destruct (Z.eq_dec j i) as [->|Hne]; [exact Hi|].
    apply (IH (i + 1) H). lia.
Qed.

Lemma breakDown_some (stop : Z -> bool) :
  forall (n : nat) (i k : Z),
    breakDown n i stop = Some k ->
    i - Z.of_nat n < k <= i /\ stop k = true /\
    forall j, k < j <= i -> stop j = false.
Proof.
  induction n as [|n IH]; intros i k H; cbn [breakDown] in H.
  - discriminate.
  - destruct (stop i) eqn:Hi.
    + injection H as <-. repeat split; try lia. exact Hi.
    + apply IH in H. destruct H as (Hk & Hs & Hb).
      repeat split; try lia; [exact Hs|].
      intros j Hj. destruct (Z.eq_dec j i) as [->|Hne]; [exact Hi|].
      apply Hb. lia.
Qed.

Lemma breakDown_none (stop : Z -> bool) :
  forall (n : nat) (i : Z),
    breakDown n i stop = None ->
    forall j, i - Z.of_nat n < j <= i -> stop j = false.
Proof.
  induction n as [|n IH]; intros i H j Hj; cbn [breakDown] in H.
  - lia.
  - destruct (stop i) eqn:Hi; [discriminate|].
    destruct (Z.eq_dec j i) as [->|Hne]; [exact Hi|].
    apply (IH (i - 1) H). lia.
Qed.

(** ** The bounding-box search *)

Lemma BoxInv_ext (img : GrayImage) (threshold : Z) (V V' : Z -> Z -> Prop) (b : BBox) :
  (forall x y, V x y <-> V' x y) -> BoxInv img threshold V b -> BoxInv img threshold V' b.
Proof.
  intros Hext. unfold BoxInv. destruct (found b).
  - intros (Hall & (y0 & Hy0 & Dy0) & (y1 & Hy1 & Dy1) & (x0 & Hx0 & Dx0) & (x1 & Hx1 & Dx1)).
    split; [|repeat split].
    + intros x y Hv. apply Hall, Hext, Hv.
    + exists y0. split; [apply Hext|]; assumption.
    + exists y1. split; [apply Hext|]; assumption.
    + exists x0. split; [apply Hext|]; assumption.
    + exists x1. split; [apply Hext|]; assumption.
  - intros (Hinit & Hnone). split; [exact Hinit|].
    intros x y Hv. apply Hnone, Hext, Hv.
Qed.

Lemma markPixel_invariant (img : GrayImage) (threshold : Z)
      (V V' : Z -> Z -> Prop) (x y : Z) (b : BBox) :
  0 <= x < width img -> 0 <= y < height img ->
  (forall x' y', V' x' y' <-> V x' y' \/ (x' = x /\ y' = y)) ->
  BoxInv img threshold V b ->
  BoxInv img threshold V' (markPixel img threshold y x b).
Proof.
  intros Hx Hy HV Hinv. unfold markPixel.
  destruct (isDark img threshold (y * width img + x)) eqn:Hdark.
  - (* a dark pixel: the box grows to contain it *)
    assert (Hnew : V' x y) by (apply HV; right; split; reflexivity).
    unfold BoxInv in *. cbn [found bx0 by0 bx1 by1].
    destruct (found b).
    + destruct Hinv as (Hall & (ya & Hya & Dya) & (yb & Hyb & Dyb)
                        & (xa & Hxa & Dxa) & (xb & Hxb & Dxb)).
      split; [|repeat split].
      * intros x' y' Hv Hd. apply HV in Hv. destruct Hv as [Hv|[-> ->]].
        -- specialize (Hall x' y' Hv Hd).
           destruct (Z.ltb_spec x (bx0 b)); destruct (Z.ltb_spec y (by0 b));
           destruct (Z.ltb_spec (bx1 b) (x + 1)); destruct (Z.ltb_spec (by1 b) (y + 1)); lia.
        -- destruct (Z.ltb_spec x (bx0 b)); destruct (Z.ltb_spec y (by0 b));
           destruct (Z.ltb_spec (bx1 b) (x + 1)); destruct (Z.ltb_spec (by1 b) (y + 1)); lia.
      * destruct (Z.ltb_spec x (bx0 b)).
        -- exists y. split; assumption.
        -- exists ya. split; [apply HV; left|]; assumption.
      * destruct (Z.ltb_spec (bx1 b) (x + 1)).
        -- exists y. replace (x + 1 - 1) with x by lia. split; assumption.
        -- exists yb. split; [apply HV; left|]; assumption.
      * destruct (Z.ltb_spec y (by0 b)).
        -- exists x. split; assumption.
        -- exists xa. split; [apply HV; left|]; assumption.
      * destruct (Z.ltb_spec (by1 b) (y + 1)).
        -- exists x. replace (y + 1 - 1) with y by lia. split; assumption.
        -- exists xb. split; [apply HV; left|]; assumption.
    + destruct Hinv as ((E0 & E1 & E2 & E3) & Hnone).
      rewrite E0, E1, E2, E3.
      destruct (Z.ltb_spec x (width img)); [|lia].
      destruct (Z.ltb_spec y (height img)); [|lia].
      destruct (Z.ltb_spec 0 (x + 1)); [|lia].
      destruct (Z.ltb_spec 0 (y + 1)); [|lia].
      replace (x + 1 - 1) with x by lia. replace (y + 1 - 1) with y by lia.
      split; [|repeat split].
      * intros x' y' Hv Hd. apply HV in Hv. destruct Hv as [Hv|[-> ->]].
        -- exfalso. exact (Hnone x' y' Hv Hd).
        -- lia.
      * exists y. split; assumption.
      * exists y. split; assumption.
      * exists x. split; assumption.
      * exists x. split; assumption.
  - (* not dark: the state is unchanged *)
    unfold BoxInv in *. destruct (found b).
    + destruct Hinv as (Hall & (ya & Hya & Dya) & (yb & Hyb & Dyb)
                        & (xa & Hxa & Dxa) & (xb & Hxb & Dxb)).
      split; [|repeat split].
      * intros x' y' Hv Hd. apply HV in Hv. destruct Hv as [Hv|[-> ->]].
        -- exact (Hall x' y' Hv Hd).
        -- unfold darkAt in Hd. congruence.
      * exists ya. split; [apply HV; left|]; assumption.
      * exists yb. split; [apply HV; left|]; assumption.
      * exists xa. split; [apply HV; left|]; assumption.
      * exists xb. split; [apply HV; left|]; assumption.
    + destruct Hinv as (Hinit & Hnone). split; [exact Hinit|].
      intros x' y' Hv Hd. apply HV in Hv. destruct Hv as [Hv|[-> ->]].
      * exact (Hnone x' y' Hv Hd).
      * unfold darkAt in Hd. congruence.
Qed.

Lemma markRow_invariant (img : GrayImage) (threshold : Z) (y : Z) (b : BBox) :
  0 <= y < height img ->
  BoxInv img threshold (visited img y 0) b ->
  BoxInv img threshold (visited img (y + 1) 0) (markRow img threshold y b).
Proof.
  intros Hy Hinv. unfold markRow.
  destruct (Z.le_gt_cases 0 (width img)) as [Hw|Hw].
  - apply BoxInv_ext with (V := visited img y (width img)).
    { intros x' y'. unfold visited. lia. }
    apply (forRange_invariant
             (fun x t => BoxInv img threshold (visited img y x) t)); [exact Hw|exact Hinv|].
    intros x t Hx Ht.
    apply markPixel_invariant with (V := visited img y x); try assumption.
    intros x' y'. unfold visited. lia.
  - rewrite forRange_empty by lia.
    revert Hinv. apply BoxInv_ext. intros x' y'. unfold visited. lia.
Qed.

Lemma findBoundingBox_invariant (img : GrayImage) (threshold : Z) :
  BoxInv img threshold (inImage img) (findBoundingBox img threshold).
Proof.
  unfold findBoundingBox.
  set (init := {| bx0 := width img; by0 := height img; bx1 := 0; by1 := 0; found := false |}).
  assert (Hinit : BoxInv img threshold (visited img 0 0) init).
  { unfold BoxInv. cbn. split; [repeat split|]. intros x y Hv. unfold visited in Hv. lia. }
  destruct (Z.le_gt_cases 0 (height img)) as [Hh|Hh].
  - apply BoxInv_ext with (V := visited img (height img) 0).
    { intros x y. unfold visited, inImage. lia. }
    apply (forRange_invariant
             (fun y t => BoxInv img threshold (visited img y 0) t)); [exact Hh|exact Hinit|].
    intros y t Hy Ht. apply markRow_invariant; assumption.
  - rewrite forRange_empty by lia.
    revert Hinit. apply BoxInv_ext. intros x y. unfold visited, inImage. lia.
Qed.

(** The search finds a dark pixel exactly when the image has one. *)
Lemma found_iff_dark (img : GrayImage) (threshold : Z) :
  found (findBoundingBox img threshold) = true <->
  exists x y, inImage img x y /\ darkAt img threshold x y.
Proof.
  pose proof (findBoundingBox_invariant img threshold) as Hinv.
  unfold BoxInv in Hinv. destruct (found (findBoundingBox img threshold)).
  - split; [intros _|reflexivity].
    destruct Hinv as (_ & (y & Hy & Dy) & _). eauto.
  - split; [discriminate|].
    intros (x & y & Hv & Hd). destruct Hinv as (_ & Hnone).
    exfalso. exact (Hnone x y Hv Hd).
Qed.

(** When it finds one, the four variables are the tightest box. *)
Lemma findBoundingBox_tight (img : GrayImage) (threshold : Z) :
  let b := findBoundingBox img threshold in
  found b = true -> TightBox img threshold (bx0 b) (by0 b) (bx1 b) (by1 b).
Proof.
  intros b Hf. pose proof (findBoundingBox_invariant img threshold) as Hinv.
  fold b in Hinv. unfold BoxInv in Hinv. rewrite Hf in Hinv. exact Hinv.
Qed.

Lemma TightBox_bounds (img : GrayImage) (threshold : Z) (x0 y0 x1 y1 : Z) :
  TightBox img threshold x0 y0 x1 y1 ->
  0 <= x0 < x1 /\ x1 <= width img /\ 0 <= y0 < y1 /\ y1 <= height img.
Proof.
  intros (Hall & (ya & Hya & Dya) & (yb & Hyb & Dyb) & (xa & Hxa & Dxa) & (xb & Hxb & Dxb)).
  pose proof (Hall _ _ Hya Dya). pose proof (Hall _ _ Hxa Dxa).
  unfold inImage in *. lia.
Qed.

Lemma TightBox_unique (img : GrayImage) (threshold : Z) (x0 y0 x1 y1 x0' y0' x1' y1' : Z) :
  TightBox img threshold x0 y0 x1 y1 ->
  TightBox img threshold x0' y0' x1' y1' ->
  x0 = x0' /\ y0 = y0' /\ x1 = x1' /\ y1 = y1'.
Proof.
  intros (Hall & (ya & Hya & Dya) & (yb & Hyb & Dyb) & (xa & Hxa & Dxa) & (xb & Hxb & Dxb))
         (Hall' & (ya' & Hya' & Dya') & (yb' & Hyb' & Dyb') & (xa' & Hxa' & Dxa') & (xb' & Hxb' & Dxb')).
  pose proof (Hall _ _ Hya' Dya'). pose proof (Hall _ _ Hyb' Dyb').
  pose proof (Hall _ _ Hxa' Dxa'). pose proof (Hall _ _ Hxb' Dxb').
  pose proof (Hall' _ _ Hya Dya). pose proof (Hall' _ _ Hyb Dyb).
  pose proof (Hall' _ _ Hxa Dxa). pose proof (Hall' _ _ Hxb Dxb).
  lia.
Qed.

(** ** Border lines *)

Lemma Qltb_spec (a b : Q) : Qltb a b = true <-> (a < b)%Q.
Proof. unfold Qltb, Qlt. apply Z.ltb_lt. Qed.

Lemma moreThanHalf_spec (dark len : Z) :
  moreThanHalf dark len = true <-> len < 2 * dark.
Proof.
  unfold moreThanHalf. rewrite Qltb_spec.
  unfold Qlt, Qmult, inject_Z. cbn [Qnum Qden]. lia.
Qed.

Lemma count_loop (p : Z -> bool) :
  forall (n : nat) (i acc : Z),
    forUp n i (fun x dark => if p x then dark + 1 else dark) acc
    = acc + Z.of_nat (List.length (filter p (zrange i n))).
Proof.
  induction n as [|n IH]; intros i acc; cbn [forUp zrange filter].
  - cbn. lia.
  - rewrite IH. destruct (p i); cbn [List.length]; lia.
Qed.

Lemma rowIsBorder_spec (img : GrayImage) (threshold : Z) (y x0 x1 : Z) :
  rowIsBorder img threshold y x0 x1 = true <->
  x1 - x0 < 2 * darkInRow img threshold y x0 x1.
Proof.
  unfold rowIsBorder, darkInRow, forRange.
  rewrite moreThanHalf_spec.
  rewrite (count_loop (fun x => isDark img threshold (y * width img + x))).
  reflexivity.
Qed.

Lemma colIsBorder_spec (img : GrayImage) (threshold : Z) (x y0 y1 : Z) :
  colIsBorder img threshold x y0 y1 = true <->
  y1 - y0 < 2 * darkInColumn img threshold x y0 y1.
Proof.
  unfold colIsBorder, darkInColumn, forRange.
  rewrite moreThanHalf_spec.
  rewrite (count_loop (fun y => isDark img threshold (y * width img + x))).
  reflexivity.
Qed.

(** ** The inward scans *)

Lemma firstAscending_scan (isBorder : Z -> bool) (edge steps : Z) :
  InwardScan (fun j => isBorder (edge + j)) steps
    (match firstAscending edge (edge + steps) (fun y => negb (isBorder y)) with
     | Some y => y
     | None => edge
     end - edge).
Proof.
  unfold firstAscending, InwardScan.
  destruct (breakUp _ edge _) as [k|] eqn:Hscan.
  - apply breakUp_some in Hscan. destruct Hscan as (Hk & Hstop & Hbefore).
    left. replace (edge + (k - edge)) with k by lia.
    repeat split; try lia.
    + apply negb_true_iff. exact Hstop.
    + intros j Hj. apply negb_false_iff. apply Hbefore. lia.
  - right. split; [lia|]. intros j Hj. apply negb_false_iff.
    apply (breakUp_none _ _ _ Hscan). lia.
Qed.

Lemma firstDescending_scan (isBorder : Z -> bool) (edge steps : Z) :
  InwardScan (fun j => isBorder (edge - 1 - j)) steps
    (edge - match firstDescending (edge - 1) (edge - 1 - steps)
                    (fun y => negb (isBorder y)) with
            | Some y => y + 1
            | None => edge
            end).
Proof.
  unfold firstDescending, InwardScan.
  destruct (breakDown _ (edge - 1) _) as [k|] eqn:Hscan.
  - apply breakDown_some in Hscan. destruct Hscan as (Hk & Hstop & Hbefore).
    left. replace (edge - 1 - (edge - (k + 1))) with k by lia.
    repeat split; try lia.
    + apply negb_true_iff. exact Hstop.
    + intros j Hj. apply negb_false_iff. apply Hbefore. lia.
  - right. split; [lia|]. intros j Hj. apply negb_false_iff.
    apply (breakDown_none _ _ _ Hscan). lia.
Qed.

Lemma scanInward_top (img : GrayImage) (threshold : Z) (b : BBox) :
  InwardScan (fun j => rowIsBorder img threshold (by0 b + j) (bx0 b) (bx1 b))
             (scanLimit (by1 b - by0 b))
             (Edges.top (scanInward img threshold b) - by0 b).
Proof.
  exact (firstAscending_scan (fun y => rowIsBorder img threshold y (bx0 b) (bx1 b))
           (by0 b) (scanLimit (by1 b - by0 b))).
Qed.

Lemma scanInward_left (img : GrayImage) (threshold : Z) (b : BBox) :
  InwardScan (fun j => colIsBorder img threshold (bx0 b + j) (by0 b) (by1 b))
             (scanLimit (bx1 b - bx0 b))
             (Edges.left (scanInward img threshold b) - bx0 b).
Proof.
  exact (firstAscending_scan (fun x => colIsBorder img threshold x (by0 b) (by1 b))
           (bx0 b) (scanLimit (bx1 b - bx0 b))).
Qed.

Lemma scanInward_bottom (img : GrayImage) (threshold : Z) (b : BBox) :
  InwardScan (fun j => rowIsBorder img threshold (by1 b - 1 - j) (bx0 b) (bx1 b))
             (scanLimit (by1 b - by0 b) - 1)
             (by1 b - Edges.bottom (scanInward img threshold b)).
Proof.
  pose proof (firstDescending_scan
                (fun y => rowIsBorder img threshold y (bx0 b) (bx1 b))
                (by1 b) (scanLimit (by1 b - by0 b) - 1)) as H.
  replace (by1 b - 1 - (scanLimit (by1 b - by0 b) - 1))
    with (by1 b - scanLimit (by1 b - by0 b)) in H by lia.
  exact H.
Qed.

Lemma scanInward_right (img : GrayImage) (threshold : Z) (b : BBox) :
  InwardScan (fun j => colIsBorder img threshold (bx1 b - 1 - j) (by0 b) (by1 b))
             (scanLimit (bx1 b - bx0 b) - 1)
             (bx1 b - Edges.right (scanInward img threshold b)).
Proof.
  pose proof (firstDescending_scan
                (fun x => colIsBorder img threshold x (by0 b) (by1 b))
                (bx1 b) (scanLimit (bx1 b - bx0 b) - 1)) as H.
  replace (bx1 b - 1 - (scanLimit (bx1 b - bx0 b) - 1))
    with (bx1 b - scanLimit (bx1 b - bx0 b)) in H by lia.
  exact H.
Qed.

Lemma scanLimit_half (box : Z) : 0 <= box -> 2 * scanLimit box <= box /\ scanLimit box <= 100.
Proof.
  intros H. unfold scanLimit. pose proof (Z.mul_div_le box 2). lia.
Qed.

Lemma InwardScan_moved (isBorderLine : Z -> bool) (steps moved : Z) :
  InwardScan isBorderLine steps moved -> 0 <= moved /\ (moved < steps \/ moved = 0).
Proof. intros [H|H]; lia. Qed.

(** The scanned edges stay inside the box and leave a non-empty rectangle. *)
Lemma scanInward_inside (img : GrayImage) (threshold : Z) (b : BBox) :
  bx0 b < bx1 b -> by0 b < by1 b ->
  let e := scanInward img threshold b in
  bx0 b <= Edges.left e /\ Edges.left e < Edges.right e /\ Edges.right e <= bx1 b /\
  by0 b <= Edges.top e /\ Edges.top e < Edges.bottom e /\ Edges.bottom e <= by1 b.
Proof.
  intros Hx Hy e.
  pose proof (InwardScan_moved _ _ _ (scanInward_top img threshold b)) as Ht.
  pose proof (InwardScan_moved _ _ _ (scanInward_bottom img threshold b)) as Hb.
  pose proof (InwardScan_moved _ _ _ (scanInward_left img threshold b)) as Hl.
  pose proof (InwardScan_moved _ _ _ (scanInward_right img threshold b)) as Hr.
  pose proof (scanLimit_half (bx1 b - bx0 b)).
  pose proof (scanLimit_half (by1 b - by0 b)).
  fold e in Ht, Hb, Hl, Hr. lia.
Qed.

(** The depth of the four scans on [smallFrame], whose box is the whole
    image and whose scan limit is 2.  From the top and the left the second
    line is looked at, found not to be a border line, and becomes the edge.
    From the bottom and the right only the last line is looked at: rows and
    columns 2 are not border lines either, but the edges stay at 4. *)
Lemma scan_depth_on_smallFrame :
  let b := findBoundingBox smallFrame defaultBorderThreshold in
  b = {| bx0 := 0; by0 := 0; bx1 := 4; by1 := 4; found := true |} /\
  scanLimit (by1 b - by0 b) = 2 /\ scanLimit (bx1 b - bx0 b) = 2 /\
  scanInward smallFrame defaultBorderThreshold b
  = {| Edges.left := 1; Edges.top := 1; Edges.right := 4; Edges.bottom := 4 |} /\
  rowIsBorder smallFrame defaultBorderThreshold 1 0 4 = false /\
  rowIsBorder smallFrame defaultBorderThreshold 2 0 4 = false /\
  colIsBorder smallFrame defaultBorderThreshold 1 0 4 = false /\
  colIsBorder smallFrame defaultBorderThreshold 2 0 4 = false.
Proof. vm_compute. repeat split; reflexivity. Qed.

(** ** The crop region *)

Lemma found_bounds (img : GrayImage) (threshold : Z) :
  let b := findBoundingBox img threshold in
  found b = true ->
  0 <= bx0 b < bx1 b /\ bx1 b <= width img /\ 0 <= by0 b < by1 b /\ by1 b <= height img.
Proof.
  intros b Hf. apply (TightBox_bounds img threshold).
  apply findBoundingBox_tight. exact Hf.
Qed.

Lemma sharp_extract_inside (img : GrayImage) (r : Region.t) :
  0 <= Region.left r -> 0 <= Region.top r ->
  0 < Region.width r -> 0 < Region.height r ->
  Region.left r + Region.width r <= width img ->
  Region.top r + Region.height r <= height img ->
  sharp_extract img r = Ok r.
Proof.
  intros. unfold sharp_extract.
  destruct (Z.ltb_spec (Region.left r) 0); [lia|].
  destruct (Z.ltb_spec (Region.top r) 0); [lia|].
  destruct (Z.ltb_spec (Region.width r) 0); [lia|].
  destruct (Z.ltb_spec (Region.height r) 0); [lia|].
  destruct (Z.ltb_spec 0 (Region.width r)); [|lia].
  destruct (Z.ltb_spec 0 (Region.height r)); [|lia].
  destruct (Z.leb_spec (Region.left r + Region.width r) (width img)); [|lia].
  destruct (Z.leb_spec (Region.top r + Region.height r) (height img)); [|lia].
  reflexivity.
Qed.

(** The region cut after a successful search is inside the image. *)
Lemma crop_region_inside (img : GrayImage) (threshold : Z) :
  let b := findBoundingBox img threshold in
  found b = true ->
  insideImage img (extractArgs (expand img (scanInward img threshold b))).
Proof.
  intros b Hf.
  pose proof (found_bounds img threshold Hf) as Hb. fold b in Hb.
  assert (Hx : bx0 b < bx1 b) by lia. assert (Hy : by0 b < by1 b) by lia.
  pose proof (scanInward_inside img threshold b Hx Hy) as He. cbn zeta in He.
  unfold insideImage, extractArgs, expand, pad.
  cbn [Region.left Region.top Region.width Region.height
       Edges.left Edges.top Edges.right Edges.bottom]. lia.
Qed.

(** Past the two early returns the extraction always succeeds. *)
Lemma autoCropLabel_extracts (img : GrayImage) (threshold : Z) (ratio : Q) :
  let b := findBoundingBox img threshold in
  found b = true -> tooSmall img ratio b = false ->
  autoCropLabel img threshold ratio
  = Ok (Extracted (extractArgs (expand img (scanInward img threshold b)))).
Proof.
  intros b Hf Hsmall. unfold autoCropLabel. fold b. rewrite Hf, Hsmall. cbn [negb].
  pose proof (crop_region_inside img threshold Hf) as Hin. fold b in Hin.
  unfold insideImage in Hin.
  rewrite sharp_extract_inside; [reflexivity| | | | | |]; lia.
Qed.

Lemma autoCropLabel_cases (img : GrayImage) (threshold : Z) (ratio : Q) :
  let b := findBoundingBox img threshold in
  (autoCropLabel img threshold ratio = Ok SameBuffer /\
   (found b = false \/ tooSmall img ratio b = true))
  \/
  (autoCropLabel img threshold ratio
   = Ok (Extracted (extractArgs (expand img (scanInward img threshold b)))) /\
   found b = true /\ tooSmall img ratio b = false).
Proof.
  intros b. destruct (found b) eqn:Hf.
  - destruct (tooSmall img ratio b) eqn:Hs.
    + left. split; [|right; reflexivity].
      unfold autoCropLabel. fold b. rewrite Hf, Hs. reflexivity.
    + right. split; [|split; reflexivity].
      apply autoCropLabel_extracts; assumption.
  - left. split; [|left; reflexivity].
    unfold autoCropLabel. fold b. rewrite Hf. reflexivity.
Qed.

(** ** The statements about [autoCropLabel] *)

Lemma darkAt_spec (img : GrayImage) (threshold : Z) (x y : Z) :
  darkAt img threshold x y <->
  exists v, byteAt (gray img) (y * width img + x) = Some v /\ v < threshold.
Proof.
  unfold darkAt, isDark, lessThan.
  destruct (byteAt (gray img) (y * width img + x)) as [v|].
  - rewrite Z.ltb_lt. split.
    + intros H. exists v. split; [reflexivity|exact H].
    + intros (v' & Hv & Hlt). injection Hv as ->. exact Hlt.
  - split; [discriminate|]. intros (v & Hv & _). discriminate.
Qed.

(** When the bounding box of the dark pixels passes the minimum-area
    test, [autoCropLabel] cuts at the edges found by four inward scans.  A row
    (column) is a border line iff strictly more than half of its pixels inside
    the box's perpendicular span are dark, a pixel being dark iff its
    luminance is below 80.  From the top and from the left the scan looks at
    the [min(floor(box/2), 100)] lines starting at the box edge; from the
    bottom and from the right at the [min(floor(box/2), 100) - 1] lines
    starting at the last line of the box.  The edge is put at the first
    scanned line that is not a border line, and stays at the box boundary
    when all scanned lines are border lines. *)
Lemma scanInward_edges (img : GrayImage) :
  let b := findBoundingBox img defaultBorderThreshold in
  found b = true ->
  tooSmall img defaultMinAreaRatio b = false ->
  let e := scanInward img defaultBorderThreshold b in
  let rowBorder := fun y => rowIsBorder img defaultBorderThreshold y (bx0 b) (bx1 b) in
  let colBorder := fun x => colIsBorder img defaultBorderThreshold x (by0 b) (by1 b) in
  let scanH := Z.min ((by1 b - by0 b) / 2) 100 in
  let scanW := Z.min ((bx1 b - bx0 b) / 2) 100 in
  autoCropLabel img defaultBorderThreshold defaultMinAreaRatio
    = Ok (Extracted (extractArgs (expand img e))) /\
  (forall x y, darkAt img defaultBorderThreshold x y <->
     exists v, byteAt (gray img) (y * width img + x) = Some v /\ v < 80) /\
  (forall y, rowBorder y = true <->
     bx1 b - bx0 b < 2 * darkInRow img defaultBorderThreshold y (bx0 b) (bx1 b)) /\
  (forall x, colBorder x = true <->
     by1 b - by0 b < 2 * darkInColumn img defaultBorderThreshold x (by0 b) (by1 b)) /\
  InwardScan (fun j => rowBorder (by0 b + j)) scanH (Edges.top e - by0 b) /\
  InwardScan (fun j => rowBorder (by1 b - 1 - j)) (scanH - 1) (by1 b - Edges.bottom e) /\
  InwardScan (fun j => colBorder (bx0 b + j)) scanW (Edges.left e - bx0 b) /\
  InwardScan (fun j => colBorder (bx1 b - 1 - j)) (scanW - 1) (bx1 b - Edges.right e).
Proof.
  intros b Hf Hsmall e rowBorder colBorder scanH scanW.
  split; [apply autoCropLabel_extracts; assumption|].
  split; [intros x y; apply darkAt_spec|].
  split; [intros y; apply rowIsBorder_spec|].
  split; [intros x; apply colIsBorder_spec|].
  split; [apply scanInward_top|].
  split; [apply scanInward_bottom|].
  split; [apply scanInward_left|apply scanInward_right].
Qed.

(** C1.  The scans from the bottom and from the right stop one line short
    of the [min(floor(box/2), 100)] steps the scans from the top and from the
    left take.  On [thickBorders] the box is the whole 2 x 40 image and the
    limit is 20.  From the top the rows 0..18 are border lines, row 19, the
    20th line, is not, and the edge is put there.  From the bottom the rows
    39..21 are border lines and row 20, the 20th line, is not; the loop
    [for (y = by1 - 1; y > by1 - scanH; y--)] ends before it, and the edge
    stays at the box boundary 40: the crop keeps 8 rows of the upper border
    and all 19 rows of the lower one. *)
Theorem C1_bottom_scan_one_line_short :
  let img := thickBorders in
  let b := findBoundingBox img defaultBorderThreshold in
  let e := scanInward img defaultBorderThreshold b in
  let rowBorder := fun y => rowIsBorder img defaultBorderThreshold y (bx0 b) (bx1 b) in
  b = {| bx0 := 0; by0 := 0; bx1 := 2; by1 := 40; found := true |} /\
  tooSmall img defaultMinAreaRatio b = false /\
  Z.min ((by1 b - by0 b) / 2) 100 = 20 /\
  forallb rowBorder (zrange 0 19) = true /\ rowBorder 19 = false /\
  Edges.top e = 19 /\
  forallb rowBorder (zrange 21 19) = true /\ rowBorder 20 = false /\
  Edges.bottom e = 40 /\
  autoCropLabel img defaultBorderThreshold defaultMinAreaRatio
  = Ok (Extracted {| Region.left := 0; Region.top := 11;
                     Region.width := 2; Region.height := 29 |}).
Proof. vm_compute. repeat split; reflexivity. Qed.

(** C2.  [autoCropLabel] returns its input buffer itself exactly when no pixel
    of the image has luminance below the threshold 80, or the area of the
    tightest box around the dark pixels is less than 0.05 times the area of
    the image; on every other input it returns an extracted crop. *)
Theorem C2_same_buffer_iff (img : GrayImage) :
  (autoCropLabel img defaultBorderThreshold defaultMinAreaRatio = Ok SameBuffer <->
   (forall x y, inImage img x y -> ~ darkAt img 80 x y) \/
   (exists x0 y0 x1 y1,
       TightBox img 80 x0 y0 x1 y1 /\
       (inject_Z ((x1 - x0) * (y1 - y0)) < inject_Z (width img * height img) * (5 # 100))%Q))
  /\
  (autoCropLabel img defaultBorderThreshold defaultMinAreaRatio = Ok SameBuffer \/
   exists region,
     autoCropLabel img defaultBorderThreshold defaultMinAreaRatio = Ok (Extracted region)).
Proof.
  pose proof (autoCropLabel_cases img defaultBorderThreshold defaultMinAreaRatio) as Hcases.
  cbv zeta in Hcases.
  set (b := findBoundingBox img defaultBorderThreshold) in *.
  split; [split|].
  - (* the input comes back: one of the two early returns was taken *)
    intros Hsame. destruct Hcases as [(_ & [Hf|Hs])|(Hcrop & _)].
    + left. intros x y Hin Hd.
      assert (found b = true) by (apply found_iff_dark; eauto).
      congruence.
    + destruct (found b) eqn:Hf.
      * right. exists (bx0 b), (by0 b), (bx1 b), (by1 b). split.
        -- apply (findBoundingBox_tight img defaultBorderThreshold). exact Hf.
        -- apply Qltb_spec. exact Hs.
      * left. intros x y Hin Hd.
        assert (found b = true) by (apply found_iff_dark; eauto).
        congruence.
    + rewrite Hcrop in Hsame. discriminate.
  - (* no dark pixel, or a box that is too small *)
    intros [Hnone|(x0 & y0 & x1 & y1 & Htight & Harea)];
      destruct Hcases as [(Hsame & _)|(_ & Hf & Hs)]; try exact Hsame; exfalso.
    + apply (found_iff_dark img defaultBorderThreshold) in Hf.
      destruct Hf as (x & y & Hin & Hd). exact (Hnone x y Hin Hd).
    + pose proof (findBoundingBox_tight img defaultBorderThreshold Hf) as Htight'.
      fold b in Htight'.
      destruct (TightBox_unique _ _ _ _ _ _ _ _ _ _ Htight Htight') as (-> & -> & -> & ->).
      apply Qltb_spec in Harea. unfold tooSmall in Hs.
      unfold defaultMinAreaRatio in Hs. congruence.
  - destruct Hcases as [(Hsame & _)|(Hcrop & _)]; [left; exact Hsame|].
    right. eexists. exact Hcrop.
Qed.

(** C4.  Whenever [autoCropLabel] crops, the crop rectangle is the inner
    rectangle found by the inward scans moved outward by 8 pixels on each of
    the four sides, left and top clamped at 0, right and bottom clamped at the
    image width and height; it contains the inner rectangle and lies inside
    the image. *)
Theorem C4_padding (img : GrayImage) (region : Region.t) :
  autoCropLabel img defaultBorderThreshold defaultMinAreaRatio = Ok (Extracted region) ->
  let inner := scanInward img defaultBorderThreshold
                 (findBoundingBox img defaultBorderThreshold) in
  let right := Region.left region + Region.width region in
  let bottom := Region.top region + Region.height region in
  (Region.left region = Z.max (Edges.left inner - 8) 0 /\
   Region.top region = Z.max (Edges.top inner - 8) 0 /\
   right = Z.min (Edges.right inner + 8) (width img) /\
   bottom = Z.min (Edges.bottom inner + 8) (height img)) /\
  (Region.left region <= Edges.left inner /\ Edges.right inner <= right /\
   Region.top region <= Edges.top inner /\ Edges.bottom inner <= bottom) /\
  (0 <= Region.left region /\ right <= width img /\
   0 <= Region.top region /\ bottom <= height img).
Proof.
  intros Hcrop inner right bottom.
  pose proof (autoCropLabel_cases img defaultBorderThreshold defaultMinAreaRatio) as Hcases.
  cbv zeta in Hcases. fold inner in Hcases.
  destruct Hcases as [(Hsame & _)|(Hcrop' & Hf & _)]; [congruence|].
  rewrite Hcrop' in Hcrop. injection Hcrop as <-.
  pose proof (found_bounds img defaultBorderThreshold Hf) as Hb. cbv zeta in Hb.
  assert (Hin := scanInward_inside img defaultBorderThreshold
                   (findBoundingBox img defaultBorderThreshold)
                   ltac:(lia) ltac:(lia)).
  cbv zeta in Hin. fold inner in Hin.
  subst right bottom. unfold extractArgs, expand, pad.
  cbn [Region.left Region.top Region.width Region.height
       Edges.left Edges.top Edges.right Edges.bottom].
  lia.
Qed.

Lemma C4_padding_witness :
  autoCropLabel framedLabel defaultBorderThreshold defaultMinAreaRatio
    = Ok (Extracted framedLabelCrop) /\
  (0 <= Region.left framedLabelCrop /\
   Region.left framedLabelCrop + Region.width framedLabelCrop <= width framedLabel /\
   0 <= Region.top framedLabelCrop /\
   Region.top framedLabelCrop + Region.height framedLabelCrop <= height framedLabel).
Proof.
  assert (Hrun : autoCropLabel framedLabel defaultBorderThreshold defaultMinAreaRatio
                 = Ok (Extracted framedLabelCrop))
    by (vm_compute; reflexivity).
  split; [exact Hrun|].
  exact (proj2 (proj2 (C4_padding framedLabel framedLabelCrop Hrun))).
Defined.

(** On every decoded image [autoCropLabel] returns: either the input
    buffer itself, or a crop of it at a non-empty region inside the image. *)
Lemma autoCropLabel_returns (img : GrayImage) :
  (autoCropLabel img defaultBorderThreshold defaultMinAreaRatio = Ok SameBuffer /\
   autoCropped img = Ok img)
  \/
  (exists region,
     autoCropLabel img defaultBorderThreshold defaultMinAreaRatio = Ok (Extracted region) /\
     autoCropped img = Ok (extractPixels img region) /\
     insideImage img region).
Proof.
  pose proof (autoCropLabel_cases img defaultBorderThreshold defaultMinAreaRatio) as Hcases.
  cbv zeta in Hcases.
  destruct Hcases as [(Hsame & _)|(Hcrop & Hf & _)].
  - left. split; [exact Hsame|]. unfold autoCropped. rewrite Hsame. reflexivity.
  - right. eexists. split; [exact Hcrop|]. split.
    + unfold autoCropped. rewrite Hcrop. reflexivity.
    + apply crop_region_inside. exact Hf.
Qed.

(** C8 (as amended).  For every input buffer that sharp decodes, to a size
    and to grayscale data, [autoCropLabel] returns: either the input buffer
    itself, or a crop of it at a non-empty region inside the image.  It does
    not throw. *)
Theorem C8_never_throws (imageBuffer : ImageBuffer) (w h : Z) (data : list Z) :
  metadata imageBuffer = Ok (w, h) ->
  grayscaleRaw imageBuffer = Ok data ->
  autoCropLabelOf imageBuffer defaultBorderThreshold defaultMinAreaRatio = Ok SameBuffer
  \/
  (exists region,
     autoCropLabelOf imageBuffer defaultBorderThreshold defaultMinAreaRatio
     = Ok (Extracted region) /\
     insideImage {| width := w; height := h; gray := data |} region).
Proof.
  intros Hmeta Hraw. unfold autoCropLabelOf. rewrite Hmeta, Hraw. cbn [bind fst snd].
  set (img := {| width := w; height := h; gray := data |}).
  pose proof (autoCropLabel_cases img defaultBorderThreshold defaultMinAreaRatio) as Hcases.
  cbv zeta in Hcases.
  destruct Hcases as [(Hsame & _)|(Hcrop & Hf & _)].
  - left. exact Hsame.
  - right. eexists. split; [exact Hcrop|]. apply crop_region_inside. exact Hf.
Qed.

Lemma C8_never_throws_witness :
  autoCropLabelOf (decodable framedLabel) defaultBorderThreshold defaultMinAreaRatio
  = Ok SameBuffer
  \/
  (exists region,
     autoCropLabelOf (decodable framedLabel) defaultBorderThreshold defaultMinAreaRatio
     = Ok (Extracted region) /\
     insideImage {| width := 6; height := 6; gray := gray framedLabel |} region).
Proof.
  refine (C8_never_throws (decodable framedLabel) 6 6 (gray framedLabel) _ _).
  - reflexivity.
  - reflexivity.
Defined.

(** C8 as stated fails on a buffer that is no image: the first decoding call
    rejects, nothing catches it, and [autoCropLabel] returns neither the
    input nor a crop. *)
Lemma C8_undecodable_buffer_counterexample :
  autoCropLabelOf notAnImage defaultBorderThreshold defaultMinAreaRatio
  = Throw SharpUnsupportedInput /\
  ~ (exists outcome,
       autoCropLabelOf notAnImage defaultBorderThreshold defaultMinAreaRatio = Ok outcome).
Proof.
  split; [reflexivity|]. intros (outcome & H). discriminate H.
Qed.

(** ** [resizeImage] *)

Lemma resizeImage_sharp (img : GrayImage) (labelSize : JsValue) (dpi : JsNum) (fitMode : string) :
  exists fit,
    resizeImage img labelSize dpi fitMode
    = sharp_resize img (Math_round (jsMul (item0 labelSize) dpi))
                       (Math_round (jsMul (item1 labelSize) dpi)) fit.
Proof.
  unfold resizeImage.
  destruct (String.eqb fitMode "stretch"); [eexists; reflexivity|].
  destruct (String.eqb fitMode "fill"); eexists; reflexivity.
Qed.

Lemma sharp_resize_positive (img : GrayImage) (w h : Z) (fit : SharpFit) :
  0 < w <= maxDimension -> 0 < h <= maxDimension ->
  sharp_resize img (Some w) (Some h) fit = Ok (PngBytes w h).
Proof.
  intros Hw Hh. unfold sharp_resize.
  destruct (Z.ltb_spec 0 w); [|lia]. destruct (Z.leb_spec w maxDimension); [|lia].
  destruct (Z.ltb_spec 0 h); [|lia]. destruct (Z.leb_spec h maxDimension); [|lia].
  reflexivity.
Qed.

Lemma sharp_resize_rejects (img : GrayImage) (w h : Z) (fit : SharpFit) :
  w <= 0 \/ h <= 0 ->
  exists name, sharp_resize img (Some w) (Some h) fit = Throw (SharpInvalidParameter name).
Proof.
  intros Hwh. unfold sharp_resize.
  destruct (Z.ltb_spec 0 w); [|eexists; reflexivity].
  destruct (Z.ltb_spec 0 h); [lia|].
  destruct (w <=? maxDimension); eexists; reflexivity.
Qed.

(** A requested size above [maxDimension] is rejected like one that is not
    positive. *)
Lemma sharp_resize_too_large (img : GrayImage) (w h : Z) (fit : SharpFit) :
  maxDimension < w \/ maxDimension < h ->
  exists name, sharp_resize img (Some w) (Some h) fit = Throw (SharpInvalidParameter name).
Proof.
  intros Hwh. unfold sharp_resize.
  destruct ((0 <? w) && (w <=? maxDimension)) eqn:Hw; [|eexists; reflexivity].
  apply andb_true_iff in Hw. destruct Hw as (_ & Hw). apply Z.leb_le in Hw.
  destruct (Z.leb_spec h maxDimension); [lia|].
  rewrite andb_false_r. eexists; reflexivity.
Qed.

Lemma roundHalfUp_non_positive (x : Q) : (x <= 0)%Q -> roundHalfUp x <= 0.
Proof.
  intros Hx. unfold roundHalfUp.
  change 0 with (Qfloor (1 # 2)). apply Qfloor_resp_le.
  rewrite <- (Qplus_0_l (1 # 2)) at 2. apply Qplus_le_l. exact Hx.
Qed.

Lemma Qmult_non_positive (a b : Q) : (a <= 0)%Q -> (0 <= b)%Q -> (a * b <= 0)%Q.
Proof.
  unfold Qle, Qmult. cbn [Qnum Qden]. intros Ha Hb. nia.
Qed.

(** C3 (as amended).  For every target size with [widthIn > 0] and
    [heightIn > 0] and every dpi (binary64 values, as the code receives
    them) whose products [widthIn * dpi] and [heightIn * dpi] are binary64
    values themselves, so that the code computes them exactly, and for which
    both [round(widthIn * dpi)] and [round(heightIn * dpi)] lie between 1
    and 100000000, and each of the three fit modes, [resizeImage] returns a
    buffer of exactly [round(widthIn * dpi)] x [round(heightIn * dpi)]
    pixels. *)
Theorem C3_output_dimensions (img : GrayImage) (widthIn heightIn dpi : Q) (fitMode : string) :
  (0 < widthIn)%Q -> (0 < heightIn)%Q ->
  In fitMode ["fit"; "fill"; "stretch"] ->
  Binary64 widthIn -> Binary64 heightIn -> Binary64 dpi ->
  Binary64 (widthIn * dpi) -> Binary64 (heightIn * dpi) ->
  1 <= roundHalfUp (widthIn * dpi) <= 100000000 ->
  1 <= roundHalfUp (heightIn * dpi) <= 100000000 ->
  resizeImage img (JsTuple widthIn heightIn) (Finite dpi) fitMode
  = Ok (PngBytes (roundHalfUp (widthIn * dpi)) (roundHalfUp (heightIn * dpi))).
Proof.
  intros _ _ _ _ _ _ _ _ Hw Hh.
  destruct (resizeImage_sharp img (JsTuple widthIn heightIn) (Finite dpi) fitMode)
    as (fit & ->).
  cbn [item0 item1 jsMul Math_round].
  apply sharp_resize_positive; unfold maxDimension; lia.
Qed.

Lemma C3_output_dimensions_witness :
  resizeImage framedLabel (JsTuple 4 6) (Finite 300) "fit" = Ok (PngBytes 1200 1800).
Proof.
  refine (C3_output_dimensions framedLabel 4 6 300 "fit" _ _ _ _ _ _ _ _ _ _).
  - reflexivity.
  - reflexivity.
  - simpl. left. reflexivity.
  - exists 4, 0. split; [reflexivity|]. split; [lia|reflexivity].
  - exists 6, 0. split; [reflexivity|]. split; [lia|reflexivity].
  - exists 300, 0. split; [reflexivity|]. split; [lia|reflexivity].
  - exists 1200, 0. split; [reflexivity|]. split; [lia|reflexivity].
  - exists 1800, 0. split; [reflexivity|]. split; [lia|reflexivity].
  - vm_compute. split; discriminate.
  - vm_compute. split; discriminate.
Defined.

(** C3 as stated fails at dpi 0 and at dpi 1000000000: the size is valid,
    the mode is "fit", and [resizeImage] throws instead of returning a
    buffer of 0 x 0 or of 4000000000 x 6000000000 pixels. *)
Lemma C3_dpi_counterexample :
  (0 < 4)%Q /\ (0 < 6)%Q /\ In "fit" ["fit"; "fill"; "stretch"] /\
  resizeImage framedLabel (JsTuple 4 6) (Finite 0) "fit"
    = Throw (SharpInvalidParameter "width") /\
  resizeImage framedLabel (JsTuple 4 6) (Finite 0) "fit"
    <> Ok (PngBytes (roundHalfUp (4 * 0)) (roundHalfUp (6 * 0))) /\
  resizeImage framedLabel (JsTuple 4 6) (Finite 1000000000) "fit"
    = Throw (SharpInvalidParameter "width") /\
  resizeImage framedLabel (JsTuple 4 6) (Finite 1000000000) "fit"
    <> Ok (PngBytes (roundHalfUp (4 * 1000000000)) (roundHalfUp (6 * 1000000000))).
Proof.
  split; [reflexivity|]. split; [reflexivity|]. split; [left; reflexivity|].
  split; [vm_compute; reflexivity|]. split; [vm_compute; discriminate|].
  split; [vm_compute; reflexivity|]. vm_compute. discriminate.
Qed.

(** A valid size can be too small for the resolution: a thousandth of an
    inch at 300 dpi rounds to 0 pixels, and [resizeImage] throws. *)
Lemma resizeImage_tiny_size_throws :
  resizeImage framedLabel (JsTuple (1 # 1000) (1 # 1000)) (Finite 300) "fit"
  = Throw (SharpInvalidParameter "width").
Proof. vm_compute. reflexivity. Qed.

(** C6 (as amended).  For every target size with [widthIn <= 0] or
    [heightIn <= 0] and every dpi that is not negative, [resizeImage] fails:
    the image library rejects the pixel dimension, which is not positive. *)
Theorem C6_non_positive_size_rejected
        (img : GrayImage) (widthIn heightIn dpi : Q) (fitMode : string) :
  (widthIn <= 0)%Q \/ (heightIn <= 0)%Q ->
  (0 <= dpi)%Q ->
  exists name,
    resizeImage img (JsTuple widthIn heightIn) (Finite dpi) fitMode
    = Throw (SharpInvalidParameter name).
Proof.
  intros Hsize Hdpi.
  destruct (resizeImage_sharp img (JsTuple widthIn heightIn) (Finite dpi) fitMode)
    as (fit & ->).
  cbn [item0 item1 jsMul Math_round]. apply sharp_resize_rejects.
  destruct Hsize as [Hw|Hh]; [left|right];
    apply roundHalfUp_non_positive, Qmult_non_positive; assumption.
Qed.

Lemma C6_non_positive_size_rejected_witness :
  exists name,
    resizeImage framedLabel (JsTuple 0 6) (Finite 300) "fit"
    = Throw (SharpInvalidParameter name).
Proof.
  refine (C6_non_positive_size_rejected framedLabel 0 6 300 "fit" _ _).
  - left. vm_compute. discriminate.
  - vm_compute. discriminate.
Defined.

(** C6 as stated fails when the dpi is negative too: both sizes are
    non-positive and [resizeImage] returns a 1200 x 1800 buffer. *)
Lemma C6_negative_dpi_counterexample :
  (-4 <= 0)%Q /\ (-6 <= 0)%Q /\
  resizeImage framedLabel (JsTuple (-4) (-6)) (Finite (-300)) "fit"
    = Ok (PngBytes 1200 1800).
Proof.
  split; [vm_compute; discriminate|]. split; [vm_compute; discriminate|].
  vm_compute. reflexivity.
Qed.

(** ** [loadImage] and the upload check *)

Lemma supported_exts_sorted :
  sort SUPPORTED_EXTS = [".bmp"; ".jpeg"; ".jpg"; ".pdf"; ".png"; ".tif"; ".tiff"; ".webp"].
Proof. vm_compute. reflexivity. Qed.

Lemma supported_exts_split (ext : string) :
  has SUPPORTED_EXTS ext = false ->
  has SUPPORTED_IMAGE_EXTS ext = false /\ has SUPPORTED_PDF_EXTS ext = false.
Proof.
  change SUPPORTED_EXTS
    with [".png"; ".jpg"; ".jpeg"; ".bmp"; ".tiff"; ".tif"; ".webp"; ".pdf"].
  change SUPPORTED_IMAGE_EXTS
    with [".png"; ".jpg"; ".jpeg"; ".bmp"; ".tiff"; ".tif"; ".webp"].
  change SUPPORTED_PDF_EXTS with [".pdf"].
  unfold has. cbn [existsb]. intros H.
  repeat (apply orb_false_iff in H; destruct H as [? H]).
  split; repeat (apply orb_false_iff; split); assumption.
Qed.

(** C7 (as amended).  For every input whose lower-cased extension is outside
    the supported set, [loadImage] throws an error whose message names the
    rejected extension and lists the supported set in the order of
    [sort()]: .bmp, .jpeg, .jpg, .pdf, .png, .tif, .tiff, .webp.  The
    [/resize] route answers the first upload with the same listing. *)
Theorem C7_unsupported_format (fs : FileSystem) (inputPath : string) :
  let ext := toLowerCase (extname inputPath) in
  has SUPPORTED_EXTS ext = false ->
  loadImage fs inputPath
  = Throw (Error ("Unsupported file format '" ++ ext
                  ++ "'. Supported: .bmp, .jpeg, .jpg, .pdf, .png, .tif, .tiff, .webp")%string)
  /\
  resizeRouteCheck inputPath
  = Some ("Unsupported format '" ++ ext
          ++ "'. Supported: .bmp, .jpeg, .jpg, .pdf, .png, .tif, .tiff, .webp")%string.
Proof.
  intros ext Hext. unfold loadImage, resizeRouteCheck. fold ext.
  destruct (supported_exts_split ext Hext) as (Himg & Hpdf).
  rewrite Himg, Hpdf, Hext. cbn [negb].
  unfold unsupportedFileFormat, unsupportedFormat. rewrite supported_exts_sorted.
  split; reflexivity.
Qed.

Lemma C7_unsupported_format_witness :
  loadImage noFiles "label.gif"
  = Throw (Error "Unsupported file format '.gif'. Supported: .bmp, .jpeg, .jpg, .pdf, .png, .tif, .tiff, .webp").
Proof.
  refine (proj1 (C7_unsupported_format noFiles "label.gif" _)).
  vm_compute. reflexivity.
Defined.

(** C7 as stated fails on the order of the listing: for [label.gif] the
    extension is unsupported, and the message thrown is not the one that
    lists .jpg before .jpeg. *)
Lemma C7_listing_order_counterexample :
  has SUPPORTED_EXTS (toLowerCase (extname "label.gif")) = false /\
  loadImage noFiles "label.gif"
  <> Throw (Error (unsupportedFileFormat ".gif"
              [".bmp"; ".jpg"; ".jpeg"; ".pdf"; ".png"; ".tif"; ".tiff"; ".webp"])).
Proof.
  split; [vm_compute; reflexivity|].
  vm_compute. intros H. discriminate H.
Qed.

(** ** [buildPdf2Up] *)


Lemma buildPdf2Up_firstn (images : list Buffer) (labelSize : JsValue) :
  buildPdf2Up images labelSize = buildPdf2Up (firstn 2 images) labelSize.
Proof.
  destruct images as [|a [|b [|c rest]]]; try reflexivity.
  unfold buildPdf2Up.
  replace (Z.to_nat (Z.min (Z.of_nat (List.length (a :: b :: c :: rest))) 2 - 0))
    with 2%nat by (cbn [List.length]; lia).
  reflexivity.
Qed.

Lemma buildPdf2Up_counts (images : list Buffer) (labelSize : JsValue) :
  match buildPdf2Up images labelSize with
  | Ok doc => List.length (pages doc) = 1%nat /\ (embeddedImages doc <= 2)%nat
  | Throw _ => True
  end.
Proof.
  rewrite buildPdf2Up_firstn.
  destruct images as [|a [|b rest]]; cbn [firstn].
  - split; [reflexivity|]. cbv. lia.
  - destruct a; [|exact I]. split; [reflexivity|]. cbv. lia.
  - destruct a; [|exact I]. destruct b; [|exact I]. split; [reflexivity|]. cbv. lia.
Qed.

Lemma generate2UpPDF_firstn (UIImage : Type) (labels : list UIImage) :
  Swift.generate2UpPDF labels = Swift.generate2UpPDF (firstn 2 labels).
Proof.
  unfold Swift.generate2UpPDF. rewrite firstn_firstn. reflexivity.
Qed.

(** The Swift [generate2UpPDF] places two labels by the same formulas, for
    its fixed 4 x 6 inch label. *)
Lemma Swift_two_up_layout (UIImage : Type) (a b : UIImage) :
  exists left right : Swift.CGRect,
    Swift.drawn (Swift.generate2UpPDF [a; b]) = [(a, left); (b, right)] /\
    Centred 0 396 (Swift.x left) (Swift.width left) /\
    Centred 396 792 (Swift.x right) (Swift.width right) /\
    Centred 0 612 (Swift.y left) (Swift.height left) /\
    Centred 0 612 (Swift.y right) (Swift.height right) /\
    (Swift.x right - 396 == 396 - (Swift.x left + Swift.width left))%Q.
Proof.
  do 2 eexists. split; [reflexivity|].
  unfold Centred. cbn. repeat split; reflexivity.
Qed.

(** C10.  [buildPdf2Up] and [generate2UpPDF] use at most the first two
    entries of the label list: labels after the second are ignored, a
    document that is produced has one page with at most two images, and for
    the empty list the result is the page with no image on it. *)
Theorem C10_at_most_two_labels :
  (forall images labelSize,
      buildPdf2Up images labelSize = buildPdf2Up (firstn 2 images) labelSize) /\
  (forall images labelSize,
      match buildPdf2Up images labelSize with
      | Ok doc => List.length (pages doc) = 1%nat /\ (embeddedImages doc <= 2)%nat
      | Throw _ => True
      end) /\
  (forall labelSize,
      buildPdf2Up [] labelSize
      = Ok {| pages := [ {| pageSize := (jsMul PAGE_WIDTH_IN PTS_PER_INCH,
                                         jsMul PAGE_HEIGHT_IN PTS_PER_INCH);
                            drawn := [] |} ] |}) /\
  (forall (UIImage : Type) (labels : list UIImage),
      Swift.generate2UpPDF labels = Swift.generate2UpPDF (firstn 2 labels) /\
      (List.length (Swift.drawn (Swift.generate2UpPDF labels)) <= 2)%nat) /\
  (forall UIImage : Type, Swift.drawn (@Swift.generate2UpPDF UIImage []) = []).
Proof.
  split; [exact buildPdf2Up_firstn|].
  split; [exact buildPdf2Up_counts|].
  split; [intros labelSize; reflexivity|].
  split; [|intros UIImage; reflexivity].
  intros UIImage labels. split; [apply generate2UpPDF_firstn|].
  destruct labels as [|a [|b rest]]; cbn; lia.
Qed.

(** ** The label-size lookup of the entry points *)

(** A key that is neither in the catalogue nor a member name of
    [Object.prototype] selects the default size. *)
Lemma sizeFor_fallback (key : string) :
  ownProperty LABEL_SIZES key = None ->
  has Object_prototype key = false ->
  sizeFor key = JsTuple 4 6.
Proof.
  intros Hown Hproto. unfold sizeFor, getProperty. rewrite Hown, Hproto. reflexivity.
Qed.

(** Whatever the key, the size is a catalogue entry or an inherited member:
    no other size can be selected. *)
Lemma sizeFor_values (key : string) :
  (exists name w h, In (name, (w, h)) LABEL_SIZES /\ sizeFor key = JsTuple w h) \/
  sizeFor key = JsInherited key.
Proof.
  unfold sizeFor, getProperty.
  destruct (ownProperty LABEL_SIZES key) as [[w h]|] eqn:Hown.
  - left. revert Hown. unfold LABEL_SIZES. cbn [ownProperty].
    repeat match goal with
           | |- context [String.eqb ?k key] => destruct (String.eqb k key)
           end; intros H; try discriminate; injection H as <- <-;
      eexists _, _, _; (split; [|reflexivity]); cbn; tauto.
  - destruct (has Object_prototype key).
    + right. reflexivity.
    + left. exists "4x6", 4%Q, 6%Q. split; [cbn; tauto|reflexivity].
Qed.

Lemma resizeLabelFromBuffers_fallback
      (buffer1 : Upload) (ext1 : string) (buffer2 : option Upload) (ext2 : option string)
      (dpi : option JsNum) (fitMode : option string) (autoCrop : option bool)
      (key : string) :
  ownProperty LABEL_SIZES key = None ->
  has Object_prototype key = false ->
  resizeLabelFromBuffers
    {| ResizeLabelFromBuffersOptions.buffer1 := buffer1;
       ResizeLabelFromBuffersOptions.ext1 := ext1;
       ResizeLabelFromBuffersOptions.buffer2 := buffer2;
       ResizeLabelFromBuffersOptions.ext2 := ext2;
       ResizeLabelFromBuffersOptions.dpi := dpi;
       ResizeLabelFromBuffersOptions.fitMode := fitMode;
       ResizeLabelFromBuffersOptions.autoCrop := autoCrop;
       ResizeLabelFromBuffersOptions.labelSize := Some key |}
  = resizeLabelFromBuffers
    {| ResizeLabelFromBuffersOptions.buffer1 := buffer1;
       ResizeLabelFromBuffersOptions.ext1 := ext1;
       ResizeLabelFromBuffersOptions.buffer2 := buffer2;
       ResizeLabelFromBuffersOptions.ext2 := ext2;
       ResizeLabelFromBuffersOptions.dpi := dpi;
       ResizeLabelFromBuffersOptions.fitMode := fitMode;
       ResizeLabelFromBuffersOptions.autoCrop := autoCrop;
       ResizeLabelFromBuffersOptions.labelSize := Some "4x6" |}.
Proof.
  intros Hown Hproto. unfold resizeLabelFromBuffers.
  cbn [ResizeLabelFromBuffersOptions.labelSize orDefault].
  rewrite (sizeFor_fallback key Hown Hproto). reflexivity.
Qed.

Lemma resizeLabel_fallback
      (fs : FileSystem) (inputPath : string) (outputPath inputPath2 : option string)
      (dpi : option JsNum) (fitMode : option string) (autoCrop : option bool)
      (key : string) :
  ownProperty LABEL_SIZES key = None ->
  has Object_prototype key = false ->
  resizeLabel fs
    {| ResizeLabelOptions.inputPath := inputPath;
       ResizeLabelOptions.outputPath := outputPath;
       ResizeLabelOptions.inputPath2 := inputPath2;
       ResizeLabelOptions.dpi := dpi;
       ResizeLabelOptions.fitMode := fitMode;
       ResizeLabelOptions.autoCrop := autoCrop;
       ResizeLabelOptions.labelSize := Some key |}
  = resizeLabel fs
    {| ResizeLabelOptions.inputPath := inputPath;
       ResizeLabelOptions.outputPath := outputPath;
       ResizeLabelOptions.inputPath2 := inputPath2;
       ResizeLabelOptions.dpi := dpi;
       ResizeLabelOptions.fitMode := fitMode;
       ResizeLabelOptions.autoCrop := autoCrop;
       ResizeLabelOptions.labelSize := Some "4x6" |}.
Proof.
  intros Hown Hproto. unfold resizeLabel.
  cbn [ResizeLabelOptions.labelSize orDefault].
  rewrite (sizeFor_fallback key Hown Hproto). reflexivity.
Qed.

(** C9.  The key "constructor" is not in the catalogue, yet the entry points
    do not fall back to 4x6 for it: the lookup on the object literal finds
    the member inherited from [Object.prototype], which [??] keeps; its
    elements are [undefined], the pixel size is [NaN], and [resizeImage]
    throws.  With the key "4x6" the same inputs give a document. *)
Theorem C9_inherited_key_not_replaced :
  ownProperty LABEL_SIZES "constructor" = None /\
  sizeFor "constructor" = JsInherited "constructor" /\
  resizeLabelFromBuffers (optionsFor framedLabel "constructor")
    = Throw (SharpInvalidParameter "width") /\
  resizeLabel (oneLabelFile framedLabel) (fileOptionsFor "constructor")
    = Throw (SharpInvalidParameter "width") /\
  (exists doc, resizeLabelFromBuffers (optionsFor framedLabel "4x6") = Ok doc) /\
  (exists doc, resizeLabel (oneLabelFile framedLabel) (fileOptionsFor "4x6")
               = Ok ("label_label.pdf", doc)).
Proof.
  split; [reflexivity|]. split; [reflexivity|].
  split; [vm_compute; reflexivity|]. split; [vm_compute; reflexivity|].
  split; eexists; vm_compute; reflexivity.
Qed.

(** ** Catalogue sizes at an integer dpi *)

Lemma roundHalfUp_at_least_one (x : Q) : (1 <= x)%Q -> 1 <= roundHalfUp x.
Proof.
  intros Hx. unfold roundHalfUp.
  change 1 with (Qfloor 1) at 1. apply Qfloor_resp_le.
  apply Qle_trans with (y := x); [exact Hx|].
  rewrite <- (Qplus_0_r x) at 1. apply Qplus_le_r. discriminate.
Qed.

Lemma Qmult_at_least_one (a : Q) (n : Z) :
  (1 <= a)%Q -> 1 <= n -> (1 <= a * inject_Z n)%Q.
Proof.
  unfold Qle, Qmult, inject_Z. cbn [Qnum Qden]. intros Ha Hn. nia.
Qed.

(** For every catalogue size and every integer dpi of at least 1 both pixel
    dimensions are at least 1, so [resizeImage] returns. *)
Lemma catalogue_dimensions_positive (key : string) (w h : Q) (dpi : Z) :
  ownProperty LABEL_SIZES key = Some (w, h) ->
  1 <= dpi ->
  1 <= roundHalfUp (w * inject_Z dpi) /\ 1 <= roundHalfUp (h * inject_Z dpi).
Proof.
  intros Hown Hdpi.
  assert (Hwh : (1 <= w)%Q /\ (1 <= h)%Q).
  { revert Hown. unfold LABEL_SIZES. cbn [ownProperty].
    repeat match goal with
           | |- context [String.eqb ?k key] => destruct (String.eqb k key)
           end; intros H; try discriminate; injection H as <- <-;
      split; discriminate. }
  destruct Hwh as (Hw & Hh).
  split; apply roundHalfUp_at_least_one, Qmult_at_least_one; assumption.
Qed.

(** ** The Swift [brightness] helper *)

(** On a white pixel the [UInt16] product [255 * 299] overflows. *)
Lemma Swift_brightness_white_traps : Swift.brightness 255 255 255 = None.
Proof. reflexivity. Qed.

(** Whenever [brightness] returns, its value is at most 65, below the
    border threshold 80. *)
Lemma Swift_brightness_returns_dark (r g b v : Z) :
  Swift.brightness r g b = Some v -> v <= 65.
Proof.
  unfold Swift.brightness, Swift.checked, Swift.uint16.
  repeat match goal with
         | |- context [if ?c then _ else _] => destruct c eqn:?
         end; intros H; try discriminate.
  injection H as <-.
  apply Z.lt_succ_r. apply Z.div_lt_upper_bound; lia.
Qed.

(* ================================================================== *)
(** * Further properties of the code *)

(** ** [dropExtension]: the default output name *)

Lemma list_ascii_of_string_app (a b : string) :
  list_ascii_of_string (a ++ b)%string = list_ascii_of_string a ++ list_ascii_of_string b.
Proof. induction a as [|c a IH]; cbn; [reflexivity|]. rewrite IH. reflexivity. Qed.

Lemma string_length_chars (s : string) :
  String.length s = List.length (list_ascii_of_string s).
Proof. induction s as [|c s IH]; cbn; [reflexivity|]. rewrite IH. reflexivity. Qed.

Lemma substring_prefix (a b : string) :
  substring 0 (String.length a) (a ++ b)%string = a.
Proof. induction a as [|c a IH]; cbn; [destruct b; reflexivity|]. rewrite IH. reflexivity. Qed.

Lemma extensionLength_no_dot (l : list ascii) :
  ~ In "."%char l -> forall n, extensionLength l n = None.
Proof.
  induction l as [|c l IH]; intros Hno n; cbn [extensionLength]; [reflexivity|].
  destruct (Ascii.eqb_spec c "."%char) as [->|Hne].
  - exfalso. apply Hno. left. reflexivity.
  - apply IH. intros Hin. apply Hno. right. exact Hin.
Qed.

Lemma extensionLength_at_dot (l rest : list ascii) :
  ~ In "."%char l -> forall n,
  extensionLength (l ++ "."%char :: rest) n
  = if Nat.eqb (n + List.length l) 0 then None else Some (S (n + List.length l)).
Proof.
  induction l as [|c l IH]; intros Hno n; cbn [app extensionLength List.length].
  - rewrite Nat.add_0_r. reflexivity.
  - destruct (Ascii.eqb_spec c "."%char) as [->|Hne].
    + exfalso. apply Hno. left. reflexivity.
    + rewrite IH by (intros Hin; apply Hno; right; exact Hin).
      replace (S n + List.length l)%nat with (n + S (List.length l))%nat by lia.
      reflexivity.
Qed.

(** X1.  [dropExtension] removes a final extension: for an extension that is
    not empty and holds no dot, [(base + "." + ext).replace(/\.[^.]+$/, "")]
    is [base], whatever [base] is (dots and slashes included). *)
Theorem X1_dropExtension_strips (base ext : string) :
  ext <> "" ->
  ~ In "."%char (list_ascii_of_string ext) ->
  dropExtension (base ++ "." ++ ext) = base.
Proof.
  intros Hne Hno. unfold dropExtension.
  rewrite !list_ascii_of_string_app, rev_app_distr. cbn [list_ascii_of_string].
  rewrite rev_app_distr. cbn [rev app]. rewrite <- app_assoc. cbn [app].
  rewrite extensionLength_at_dot by (rewrite <- in_rev; exact Hno).
  rewrite length_rev. cbn [Nat.add].
  destruct (list_ascii_of_string ext) as [|c l] eqn:Hext.
  - exfalso. apply Hne. rewrite <- (string_of_list_ascii_of_string ext), Hext. reflexivity.
  - cbn [List.length Nat.eqb].
    replace (String.length (base ++ "." ++ ext) - S (S (List.length l)))%nat
      with (String.length base).
    + apply substring_prefix.
    + rewrite !string_length_chars, !list_ascii_of_string_app, !length_app, Hext. cbn. lia.
Qed.

Lemma X1_dropExtension_strips_witness : dropExtension ("scans/ups.v2" ++ "." ++ "png") = "scans/ups.v2".
Proof.
  refine (X1_dropExtension_strips "scans/ups.v2" "png" _ _).
  - discriminate.
  - vm_compute. intros H. repeat destruct H as [H|H]; try discriminate H. exact H.
Defined.

(** [dropExtension] leaves a name as it is when it holds no dot, and when
    its last character is a dot. *)
Lemma dropExtension_unchanged :
  (forall s : string, ~ In "."%char (list_ascii_of_string s) -> dropExtension s = s) /\
  (forall s : string, dropExtension (s ++ ".") = (s ++ ".")%string).
Proof.
  split.
  - intros s Hno. unfold dropExtension.
    rewrite extensionLength_no_dot; [reflexivity|]. rewrite <- in_rev. exact Hno.
  - intros s. unfold dropExtension.
    rewrite list_ascii_of_string_app, rev_app_distr. reflexivity.
Qed.

(** ** [buildPdf2Up]: embedding failures and the page *)

Ltac run_buildPdf2Up :=
  match goal with
  | |- context [buildPdf2Up ?l ?s] =>
    let r := eval cbv in (buildPdf2Up l s) in
    change (buildPdf2Up l s) with r
  end.

(** X3.  [buildPdf2Up] throws exactly when one of the first two buffers is
    not a PNG, and returns a document otherwise; buffers after the second are
    never handed to [embedPng]. *)
Theorem X3_buildPdf2Up_failure (images : list Buffer) (labelSize : JsValue) :
  (buildPdf2Up images labelSize = Throw PdfLibNotPng <-> In OtherBytes (firstn 2 images)) /\
  ((exists doc, buildPdf2Up images labelSize = Ok doc) <-> ~ In OtherBytes (firstn 2 images)).
Proof.
  rewrite buildPdf2Up_firstn.
  destruct images as [|[w1 h1|] [|[w2 h2|] rest]]; cbn [firstn In]; run_buildPdf2Up.
  all: split; split.
  all: try (intros H; discriminate H).
  all: try (intros [doc H]; discriminate H).
  all: try (intros _; reflexivity).
  all: try (intros _; eexists; reflexivity).
  all: intuition discriminate.
Qed.

Ltac halves := unfold Qdiv in *; change (/ 2)%Q with (1 # 2)%Q in *.

(** X4.  Two labels of [widthIn] x [heightIn] inches lie inside their halves
    of the 792 x 612 pt page exactly when [widthIn <= 5.5] (horizontally) and
    [heightIn <= 8.5] (vertically); a wider label is drawn from a negative
    x-offset and across the centre line. *)
Theorem X4_labels_inside_page (w1 h1 w2 h2 : Z) (widthIn heightIn : Q) :
  exists xLeft xRight yOffset labelW labelH : Q,
    buildPdf2Up [PngBytes w1 h1; PngBytes w2 h2] (JsTuple widthIn heightIn)
    = Ok {| pages := [ {| pageSize := (jsMul PAGE_WIDTH_IN PTS_PER_INCH,
                                       jsMul PAGE_HEIGHT_IN PTS_PER_INCH);
                          drawn := [ {| image := (w1, h1); x := Finite xLeft;
                                        y := Finite yOffset;
                                        drawnWidth := Finite labelW;
                                        drawnHeight := Finite labelH |};
                                     {| image := (w2, h2); x := Finite xRight;
                                        y := Finite yOffset;
                                        drawnWidth := Finite labelW;
                                        drawnHeight := Finite labelH |} ] |} ] |} /\
    ((0 <= xLeft /\ xLeft + labelW <= 396) <-> widthIn <= 11 # 2)%Q /\
    ((396 <= xRight /\ xRight + labelW <= 792) <-> widthIn <= 11 # 2)%Q /\
    ((0 <= yOffset /\ yOffset + labelH <= 612) <-> heightIn <= 17 # 2)%Q.
Proof.
  do 5 eexists. split; [reflexivity|].
  halves. repeat split; intros; try lra.
Qed.

(** ** [resizeImage]: pixel sizes of the catalogue *)

Lemma roundHalfUp_integer (a d : Z) : roundHalfUp (inject_Z a * inject_Z d) = a * d.
Proof.
  unfold roundHalfUp, Qfloor, Qplus, Qmult, inject_Z. cbn [Qnum Qden].
  symmetry. apply Z.div_unique with (r := 1); lia.
Qed.

Lemma roundHalfUp_halves (a d : Z) :
  roundHalfUp ((a # 2) * inject_Z d) = (a * d + 1) / 2.
Proof.
  unfold roundHalfUp, Qfloor, Qplus, Qmult, inject_Z. cbn [Qnum Qden].
  replace (a * d * 2 + 1 * Z.pos (2 * 1)) with ((a * d + 1) * 2) by lia.
  change (Z.pos (2 * 1 * 2)) with (2 * 2).
  apply Z.div_mul_cancel_r; lia.
Qed.

(** X5.  At an integer dpi from 1 to 9090909 (up to there the longest side
    of the catalogue, 11 dpi, is within the 100000000 pixels the image
    library takes) [resizeImage] returns, for the four catalogue sizes,
    buffers of exactly 4dpi x 6dpi, 4dpi x 8dpi, 2dpi x 7dpi and, for
    "letter", floor((17dpi + 1) / 2) x 11dpi pixels (8.5 dpi rounded half
    up), in every fit mode. *)
Theorem X5_catalogue_pixel_sizes (img : GrayImage) (dpi : Z) (fitMode : string) :
  1 <= dpi <= 9090909 ->
  resizeImage img (sizeFor "4x6") (Finite (inject_Z dpi)) fitMode
    = Ok (PngBytes (4 * dpi) (6 * dpi)) /\
  resizeImage img (sizeFor "4x8") (Finite (inject_Z dpi)) fitMode
    = Ok (PngBytes (4 * dpi) (8 * dpi)) /\
  resizeImage img (sizeFor "2x7") (Finite (inject_Z dpi)) fitMode
    = Ok (PngBytes (2 * dpi) (7 * dpi)) /\
  resizeImage img (sizeFor "letter") (Finite (inject_Z dpi)) fitMode
    = Ok (PngBytes ((17 * dpi + 1) / 2) (11 * dpi)).
Proof.
  intros Hdpi.
  assert (Hhalf : 1 <= (17 * dpi + 1) / 2 <= 100000000).
  { split; [apply Z.div_le_lower_bound; lia|apply Z.div_le_upper_bound; lia]. }
  repeat split;
    match goal with
    | |- resizeImage ?i ?s ?d ?m = _ =>
      destruct (resizeImage_sharp i s d m) as (fit & ->)
    end;
    cbv [sizeFor getProperty LABEL_SIZES ownProperty String.eqb Ascii.eqb Bool.eqb
         nullish item0 item1 jsMul Math_round];
    change (17 # 2) with (17 # 2);
    rewrite ?(roundHalfUp_integer 4), ?(roundHalfUp_integer 6), ?(roundHalfUp_integer 8),
            ?(roundHalfUp_integer 2), ?(roundHalfUp_integer 7), ?(roundHalfUp_integer 11),
            ?(roundHalfUp_halves 17);
    apply sharp_resize_positive; unfold maxDimension; lia.
Qed.

Lemma X5_catalogue_pixel_sizes_witness :
  resizeImage framedLabel (sizeFor "letter") (Finite (inject_Z 151)) "fill"
  = Ok (PngBytes ((17 * 151 + 1) / 2) (11 * 151)).
Proof.
  refine (proj2 (proj2 (proj2 (X5_catalogue_pixel_sizes framedLabel 151 "fill" _)))).
  lia.
Defined.

(** ** [autoCropLabel]: dark images and the size of a crop *)

Lemma zrange_length (i : Z) (n : nat) : List.length (zrange i n) = n.
Proof. revert i. induction n as [|n IH]; intros i; cbn; [reflexivity|]. rewrite IH. reflexivity. Qed.

Lemma filter_zrange_all (p : Z -> bool) :
  forall (n : nat) (i : Z),
    (forall j, i <= j < i + Z.of_nat n -> p j = true) ->
    filter p (zrange i n) = zrange i n.
Proof.
  induction n as [|n IH]; intros i Hall; cbn [zrange filter]; [reflexivity|].
  rewrite (Hall i) by lia. f_equal. apply IH. intros j Hj. apply Hall. lia.
Qed.

Lemma InwardScan_all_border (isBorderLine : Z -> bool) (steps moved : Z) :
  (forall j, 0 <= j < steps -> isBorderLine j = true) ->
  InwardScan isBorderLine steps moved -> moved = 0.
Proof.
  intros Hall [(Hm & Hnot & _)|(Hm & _)]; [|exact Hm].
  rewrite (Hall moved Hm) in Hnot. discriminate.
Qed.

Lemma rows_all_dark_border (img : GrayImage) (threshold : Z) (y x0 x1 : Z) :
  x0 < x1 ->
  (forall x, x0 <= x < x1 -> isDark img threshold (y * width img + x) = true) ->
  rowIsBorder img threshold y x0 x1 = true.
Proof.
  intros Hlt Hall. apply rowIsBorder_spec. unfold darkInRow.
  rewrite filter_zrange_all, zrange_length; [lia|].
  intros j Hj. apply Hall. lia.
Qed.

Lemma columns_all_dark_border (img : GrayImage) (threshold : Z) (x y0 y1 : Z) :
  y0 < y1 ->
  (forall y, y0 <= y < y1 -> isDark img threshold (y * width img + x) = true) ->
  colIsBorder img threshold x y0 y1 = true.
Proof.
  intros Hlt Hall. apply colIsBorder_spec. unfold darkInColumn.
  rewrite filter_zrange_all, zrange_length; [lia|].
  intros j Hj. apply Hall. lia.
Qed.

Lemma Edges_eta (e : Edges.t) :
  e = {| Edges.left := Edges.left e; Edges.top := Edges.top e;
         Edges.right := Edges.right e; Edges.bottom := Edges.bottom e |}.
Proof. destruct e. reflexivity. Qed.

(** X6.  An image with at least one pixel, all of whose pixels are dark, is
    cut at its own bounds: every line is a border line, no scan moves an
    edge, and the extracted region is the whole image. *)
Theorem X6_all_dark_image_kept (img : GrayImage) :
  0 < width img -> 0 < height img ->
  (forall x y, inImage img x y -> darkAt img 80 x y) ->
  autoCropLabel img defaultBorderThreshold defaultMinAreaRatio
  = Ok (Extracted {| Region.left := 0; Region.top := 0;
                     Region.width := width img; Region.height := height img |}).
Proof.
  intros Hw Hh Hdark.
  set (b := findBoundingBox img defaultBorderThreshold).
  assert (Hf : found b = true).
  { apply found_iff_dark. exists 0, 0. split; [unfold inImage; lia|].
    apply Hdark. unfold inImage. lia. }
  assert (Hbox : bx0 b = 0 /\ by0 b = 0 /\ bx1 b = width img /\ by1 b = height img).
  { apply (TightBox_unique img defaultBorderThreshold).
    - apply findBoundingBox_tight. exact Hf.
    - unfold TightBox. split; [|repeat split].
      + intros x y Hin _. exact Hin.
      + exists 0. split; [unfold inImage; lia|apply Hdark; unfold inImage; lia].
      + exists 0. split; [unfold inImage; lia|apply Hdark; unfold inImage; lia].
      + exists 0. split; [unfold inImage; lia|apply Hdark; unfold inImage; lia].
      + exists 0. split; [unfold inImage; lia|apply Hdark; unfold inImage; lia]. }
  destruct Hbox as (E0 & E1 & E2 & E3).
  assert (Hs : tooSmall img defaultMinAreaRatio b = false).
  { unfold tooSmall, Qltb, defaultMinAreaRatio, Qmult, inject_Z. cbn [Qnum Qden].
    rewrite E0, E1, E2, E3. apply Z.ltb_ge. nia. }
  rewrite (autoCropLabel_extracts img defaultBorderThreshold defaultMinAreaRatio Hf Hs).
  fold b.
  pose proof (scanLimit_half (bx1 b - bx0 b) ltac:(lia)) as (HW & _).
  pose proof (scanLimit_half (by1 b - by0 b) ltac:(lia)) as (HH & _).
  assert (Hrow : forall y, 0 <= y < height img ->
                   rowIsBorder img defaultBorderThreshold y (bx0 b) (bx1 b) = true).
  { intros y Hy. apply rows_all_dark_border; [lia|].
    intros x Hx. apply (Hdark x y). unfold inImage. lia. }
  assert (Hcol : forall x, 0 <= x < width img ->
                   colIsBorder img defaultBorderThreshold x (by0 b) (by1 b) = true).
  { intros x Hx. apply columns_all_dark_border; [lia|].
    intros y Hy. apply (Hdark x y). unfold inImage. lia. }
  pose proof (scanInward_top img defaultBorderThreshold b) as Ht.
  apply InwardScan_all_border in Ht; [|intros j Hj; apply Hrow; lia].
  pose proof (scanInward_bottom img defaultBorderThreshold b) as Hb.
  apply InwardScan_all_border in Hb; [|intros j Hj; apply Hrow; lia].
  pose proof (scanInward_left img defaultBorderThreshold b) as Hl.
  apply InwardScan_all_border in Hl; [|intros j Hj; apply Hcol; lia].
  pose proof (scanInward_right img defaultBorderThreshold b) as Hr.
  apply InwardScan_all_border in Hr; [|intros j Hj; apply Hcol; lia].
  do 2 f_equal. unfold extractArgs, expand, pad.
  cbn [Edges.left Edges.top Edges.right Edges.bottom].
  f_equal; lia.
Qed.

Lemma X6_all_dark_image_kept_witness :
  autoCropLabel blackSquare defaultBorderThreshold defaultMinAreaRatio
  = Ok (Extracted {| Region.left := 0; Region.top := 0;
                     Region.width := 2; Region.height := 2 |}).
Proof.
  refine (X6_all_dark_image_kept blackSquare _ _ _).
  - reflexivity.
  - reflexivity.
  - intros x y (Hx & Hy). cbn in Hx, Hy.
    assert (Hx' : x = 0 \/ x = 1) by lia. assert (Hy' : y = 0 \/ y = 1) by lia.
    destruct Hx' as [->| ->], Hy' as [->| ->]; reflexivity.
Defined.

Lemma InwardScan_limit (isBorderLine : Z -> bool) (steps moved : Z) :
  InwardScan isBorderLine steps moved -> 0 <= moved /\ moved <= Z.max 0 (steps - 1).
Proof. intros [H|H]; lia. Qed.

(** X7.  A crop stays close to the tight box of the dark pixels: no side of
    it lies more than 8 px outside the box, the left and top sides lie at most
    91 px and the right and bottom sides at most 90 px inside it. *)
Theorem X7_crop_margins (img : GrayImage) (region : Region.t) (x0 y0 x1 y1 : Z) :
  autoCropLabel img defaultBorderThreshold defaultMinAreaRatio = Ok (Extracted region) ->
  TightBox img 80 x0 y0 x1 y1 ->
  let right := Region.left region + Region.width region in
  let bottom := Region.top region + Region.height region in
  x0 - 8 <= Region.left region <= x0 + 91 /\
  y0 - 8 <= Region.top region <= y0 + 91 /\
  x1 - 90 <= right <= x1 + 8 /\
  y1 - 90 <= bottom <= y1 + 8.
Proof.
  intros Hcrop Htight right bottom.
  pose proof (autoCropLabel_cases img defaultBorderThreshold defaultMinAreaRatio) as Hcases.
  cbv zeta in Hcases.
  set (b := findBoundingBox img defaultBorderThreshold) in *.
  destruct Hcases as [(Hsame & _)|(Hcrop' & Hf & _)]; [congruence|].
  rewrite Hcrop' in Hcrop. injection Hcrop as <-.
  pose proof (findBoundingBox_tight img defaultBorderThreshold Hf) as Htight'. fold b in Htight'.
  destruct (TightBox_unique _ _ _ _ _ _ _ _ _ _ Htight Htight') as (-> & -> & -> & ->).
  pose proof (TightBox_bounds _ _ _ _ _ _ Htight') as Hb.
  pose proof (scanLimit_half (bx1 b - bx0 b) ltac:(lia)) as (_ & HW).
  pose proof (scanLimit_half (by1 b - by0 b) ltac:(lia)) as (_ & HH).
  pose proof (InwardScan_limit _ _ _ (scanInward_top img defaultBorderThreshold b)).
  pose proof (InwardScan_limit _ _ _ (scanInward_bottom img defaultBorderThreshold b)).
  pose proof (InwardScan_limit _ _ _ (scanInward_left img defaultBorderThreshold b)).
  pose proof (InwardScan_limit _ _ _ (scanInward_right img defaultBorderThreshold b)).
  subst right bottom. unfold extractArgs, expand, pad.
  cbn [Region.left Region.top Region.width Region.height
       Edges.left Edges.top Edges.right Edges.bottom].
  lia.
Qed.

Lemma X7_crop_margins_witness :
  0 - 8 <= Region.left framedLabelCrop <= 0 + 91 /\
  0 - 8 <= Region.top framedLabelCrop <= 0 + 91 /\
  6 - 90 <= Region.left framedLabelCrop + Region.width framedLabelCrop <= 6 + 8 /\
  6 - 90 <= Region.top framedLabelCrop + Region.height framedLabelCrop <= 6 + 8.
Proof.
  assert (Hrun : autoCropLabel framedLabel defaultBorderThreshold defaultMinAreaRatio
                 = Ok (Extracted framedLabelCrop))
    by (vm_compute; reflexivity).
  assert (Hbox : findBoundingBox framedLabel defaultBorderThreshold
                 = {| bx0 := 0; by0 := 0; bx1 := 6; by1 := 6; found := true |})
    by (vm_compute; reflexivity).
  assert (Htight : TightBox framedLabel 80 0 0 6 6).
  { pose proof (findBoundingBox_tight framedLabel defaultBorderThreshold) as H.
    cbv zeta in H. rewrite Hbox in H. exact (H eq_refl). }
  exact (X7_crop_margins framedLabel framedLabelCrop 0 0 6 6 Hrun Htight).
Defined.

(** ** The entry points on inputs that decode *)

Lemma autoCropped_returns (img : GrayImage) : exists img', autoCropped img = Ok img'.
Proof.
  unfold autoCropped.
  pose proof (autoCropLabel_cases img defaultBorderThreshold defaultMinAreaRatio) as Hcases.
  cbv zeta in Hcases.
  destruct Hcases as [(-> & _)|(-> & _)]; eexists; reflexivity.
Qed.

Lemma resizeImage_finite (img : GrayImage) (w h d : Q) (fitMode : string) :
  1 <= roundHalfUp (w * d) <= 100000000 -> 1 <= roundHalfUp (h * d) <= 100000000 ->
  resizeImage img (JsTuple w h) (Finite d) fitMode
  = Ok (PngBytes (roundHalfUp (w * d)) (roundHalfUp (h * d))).
Proof.
  intros Hw Hh.
  destruct (resizeImage_sharp img (JsTuple w h) (Finite d) fitMode) as (fit & ->).
  cbn [item0 item1 jsMul Math_round].
  apply sharp_resize_positive; unfold maxDimension; lia.
Qed.

Lemma resizeImage_not_finite (img : GrayImage) (w h : Q) (fitMode : string) :
  resizeImage img (JsTuple w h) NaN fitMode = Throw (SharpInvalidParameter "width").
Proof.
  destruct (resizeImage_sharp img (JsTuple w h) NaN fitMode) as (fit & ->). reflexivity.
Qed.

Lemma resizeImage_non_positive (img : GrayImage) (w h d : Q) (fitMode : string) :
  roundHalfUp (w * d) <= 0 ->
  resizeImage img (JsTuple w h) (Finite d) fitMode = Throw (SharpInvalidParameter "width").
Proof.
  intros Hw.
  destruct (resizeImage_sharp img (JsTuple w h) (Finite d) fitMode) as (fit & ->).
  cbn [item0 item1 jsMul Math_round]. unfold sharp_resize.
  destruct (Z.ltb_spec 0 (roundHalfUp (w * d))); [lia|reflexivity].
Qed.

Lemma prepared (img : GrayImage) (autoCrop : bool) (w h d : Q) (fitMode : string) :
  1 <= roundHalfUp (w * d) <= 100000000 -> 1 <= roundHalfUp (h * d) <= 100000000 ->
  (await img' <- (if autoCrop then autoCropped img else Ok img);
   resizeImage img' (JsTuple w h) (Finite d) fitMode)
  = Ok (PngBytes (roundHalfUp (w * d)) (roundHalfUp (h * d))).
Proof.
  intros Hw Hh. destruct autoCrop.
  - destruct (autoCropped_returns img) as (img' & ->). cbn [bind].
    apply resizeImage_finite; assumption.
  - cbn [bind]. apply resizeImage_finite; assumption.
Qed.

(** After decoding, a label whose pixel width is not a positive integer is
    rejected by the resize, with or without auto-crop. *)
Lemma not_prepared (img : GrayImage) (autoCrop : bool) (w h : Q) (dpi : JsNum) (fitMode : string) :
  dpi = NaN \/ (exists d, dpi = Finite d /\ roundHalfUp (w * d) <= 0) ->
  (await img' <- (if autoCrop then autoCropped img else Ok img);
   resizeImage img' (JsTuple w h) dpi fitMode)
  = Throw (SharpInvalidParameter "width").
Proof.
  intros Hdpi.
  assert (Hany : forall i, resizeImage i (JsTuple w h) dpi fitMode
                           = Throw (SharpInvalidParameter "width")).
  { intros i. destruct Hdpi as [->|(d & -> & Hd)].
    - apply resizeImage_not_finite.
    - apply resizeImage_non_positive. exact Hd. }
  destruct autoCrop.
  - destruct (autoCropped_returns img) as (img' & ->). cbn [bind]. apply Hany.
  - cbn [bind]. apply Hany.
Qed.

Lemma pdf_ext_is_not_image (ext : string) :
  has SUPPORTED_PDF_EXTS ext = true -> has SUPPORTED_IMAGE_EXTS ext = false.
Proof.
  change SUPPORTED_PDF_EXTS with [".pdf"]. unfold has at 1. cbn [existsb].
  rewrite orb_false_r. intros H. apply String.eqb_eq in H. subst ext. reflexivity.
Qed.

Lemma image_ext_is_not_pdf (ext : string) :
  has SUPPORTED_IMAGE_EXTS ext = true -> has SUPPORTED_PDF_EXTS ext = false.
Proof.
  intros Himg. destruct (has SUPPORTED_PDF_EXTS ext) eqn:Hpdf; [|reflexivity].
  rewrite (pdf_ext_is_not_image ext Hpdf) in Himg. discriminate.
Qed.

Lemma image_ext_is_supported (ext : string) :
  has SUPPORTED_IMAGE_EXTS ext = true -> has SUPPORTED_EXTS ext = true.
Proof.
  intros Himg. destruct (has SUPPORTED_EXTS ext) eqn:Hsup; [reflexivity|].
  destruct (supported_exts_split ext Hsup) as (Hno & _). congruence.
Qed.

Lemma one_label_document (tw th : Z) (w h : Q) :
  exists doc,
    buildPdf2Up [PngBytes tw th] (JsTuple w h) = Ok doc /\
    List.length (pages doc) = 1%nat /\ embeddedImages doc = 1%nat.
Proof. eexists. split; [reflexivity|]. split; reflexivity. Qed.

Lemma two_label_document (tw th : Z) (w h : Q) :
  exists doc,
    buildPdf2Up [PngBytes tw th; PngBytes tw th] (JsTuple w h) = Ok doc /\
    List.length (pages doc) = 1%nat /\ embeddedImages doc = 2%nat.
Proof. eexists. split; [reflexivity|]. split; reflexivity. Qed.

Ltac buffers_options :=
  cbn [ResizeLabelFromBuffersOptions.buffer1 ResizeLabelFromBuffersOptions.ext1
       ResizeLabelFromBuffersOptions.buffer2 ResizeLabelFromBuffersOptions.ext2
       ResizeLabelFromBuffersOptions.dpi ResizeLabelFromBuffersOptions.fitMode
       ResizeLabelFromBuffersOptions.autoCrop ResizeLabelFromBuffersOptions.labelSize].

Ltac file_options :=
  cbn [ResizeLabelOptions.inputPath ResizeLabelOptions.outputPath
       ResizeLabelOptions.inputPath2 ResizeLabelOptions.dpi ResizeLabelOptions.fitMode
       ResizeLabelOptions.autoCrop ResizeLabelOptions.labelSize].

(** The result of [resizeLabelFromBuffers] when the first upload decodes and
    its pixel size is positive, by what became of the second upload. *)
Lemma resizeLabelFromBuffers_first_prepared
      (buffer1 : Upload) (ext1 : string) (img : GrayImage)
      (buffer2 : option Upload) (ext2 : option string)
      (dpi : option JsNum) (fitMode : option string) (autoCrop : option bool)
      (labelSize : option string) (w h d : Q) :
  sharpPng buffer1 = Ok img ->
  has SUPPORTED_PDF_EXTS ext1 = false ->
  sizeFor (orDefault labelSize DEFAULT_LABEL_SIZE) = JsTuple w h ->
  orDefault dpi DEFAULT_DPI = Finite d ->
  1 <= roundHalfUp (w * d) <= 100000000 -> 1 <= roundHalfUp (h * d) <= 100000000 ->
  resizeLabelFromBuffers
    {| ResizeLabelFromBuffersOptions.buffer1 := buffer1;
       ResizeLabelFromBuffersOptions.ext1 := ext1;
       ResizeLabelFromBuffersOptions.buffer2 := buffer2;
       ResizeLabelFromBuffersOptions.ext2 := ext2;
       ResizeLabelFromBuffersOptions.dpi := dpi;
       ResizeLabelFromBuffersOptions.fitMode := fitMode;
       ResizeLabelFromBuffersOptions.autoCrop := autoCrop;
       ResizeLabelFromBuffersOptions.labelSize := labelSize |}
  = let label1 := PngBytes (roundHalfUp (w * d)) (roundHalfUp (h * d)) in
    await labels <-
      (match buffer2 with
       | Some buffer2 =>
         if truthy ext2 then
           await label2 <- prepare (Finite d) (orDefault fitMode "fit")
                             (orDefault autoCrop true) (JsTuple w h) buffer2
                             (orDefault ext2 "");
           Ok [label1; label2]
         else Ok [label1]
       | None => Ok [label1]
       end);
    buildPdf2Up labels (JsTuple w h).
Proof.
  intros Hpng Hext Hsize Hdpi Hw Hh.
  unfold resizeLabelFromBuffers. buffers_options.
  rewrite Hsize, Hdpi. unfold prepare at 1, bufToImage at 1.
  rewrite Hext, Hpng. cbn [bind].
  rewrite (prepared img _ w h d _ Hw Hh). cbn [bind]. reflexivity.
Qed.

Lemma prepare_image (buf : Upload) (ext : string) (img : GrayImage)
      (autoCrop : bool) (w h d : Q) (fitMode : string) :
  sharpPng buf = Ok img ->
  has SUPPORTED_PDF_EXTS ext = false ->
  1 <= roundHalfUp (w * d) <= 100000000 -> 1 <= roundHalfUp (h * d) <= 100000000 ->
  prepare (Finite d) fitMode autoCrop (JsTuple w h) buf ext
  = Ok (PngBytes (roundHalfUp (w * d)) (roundHalfUp (h * d))).
Proof.
  intros Hpng Hext Hw Hh. unfold prepare, bufToImage. rewrite Hext, Hpng. cbn [bind].
  apply prepared; assumption.
Qed.

(** X8.  [resizeLabelFromBuffers] on one upload that is not a PDF and that
    sharp decodes, with a label size that resolves to a catalogue entry and
    an integer dpi at which both pixel sizes lie between 1 and 100000000
    (the products of a catalogue size and an integer are then exact in
    binary64): it returns a document of one page with one image of
    [round(w * dpi)] x [round(h * dpi)] pixels, whatever the fit mode and
    whether auto-crop is on or off. *)
Theorem X8_buffers_one_label
        (buffer1 : Upload) (ext1 : string) (img : GrayImage)
        (dpi : option JsNum) (fitMode : option string) (autoCrop : option bool)
        (labelSize : option string) (w h : Q) (n : Z) :
  sharpPng buffer1 = Ok img ->
  has SUPPORTED_PDF_EXTS ext1 = false ->
  sizeFor (orDefault labelSize DEFAULT_LABEL_SIZE) = JsTuple w h ->
  orDefault dpi DEFAULT_DPI = Finite (inject_Z n) ->
  1 <= roundHalfUp (w * inject_Z n) <= 100000000 ->
  1 <= roundHalfUp (h * inject_Z n) <= 100000000 ->
  exists doc,
    resizeLabelFromBuffers
      {| ResizeLabelFromBuffersOptions.buffer1 := buffer1;
         ResizeLabelFromBuffersOptions.ext1 := ext1;
         ResizeLabelFromBuffersOptions.buffer2 := None;
         ResizeLabelFromBuffersOptions.ext2 := None;
         ResizeLabelFromBuffersOptions.dpi := dpi;
         ResizeLabelFromBuffersOptions.fitMode := fitMode;
         ResizeLabelFromBuffersOptions.autoCrop := autoCrop;
         ResizeLabelFromBuffersOptions.labelSize := labelSize |}
    = Ok doc /\
    buildPdf2Up [PngBytes (roundHalfUp (w * inject_Z n)) (roundHalfUp (h * inject_Z n))]
                (JsTuple w h) = Ok doc /\
    List.length (pages doc) = 1%nat /\ embeddedImages doc = 1%nat.
Proof.
  intros Hpng Hext Hsize Hdpi Hw Hh.
  destruct (one_label_document (roundHalfUp (w * inject_Z n))
                               (roundHalfUp (h * inject_Z n)) w h)
    as (doc & Hdoc & Hpages & Himages).
  exists doc. split; [|split; [exact Hdoc|split; assumption]].
  rewrite (resizeLabelFromBuffers_first_prepared _ _ img _ _ _ _ _ _ w h (inject_Z n))
    by assumption.
  cbn [bind]. exact Hdoc.
Qed.

Lemma X8_buffers_one_label_witness :
  exists doc,
    resizeLabelFromBuffers (optionsFor framedLabel "4x8") = Ok doc /\
    embeddedImages doc = 1%nat.
Proof.
  destruct (X8_buffers_one_label (imageUpload framedLabel) ".png" framedLabel
              None None None (Some "4x8") 4 8 300)
    as (doc & Hrun & _ & _ & Himages).
  - reflexivity.
  - reflexivity.
  - reflexivity.
  - reflexivity.
  - vm_compute. split; discriminate.
  - vm_compute. split; discriminate.
  - exists doc. split; [exact Hrun|exact Himages].
Defined.

(** X9.  Under the same conditions on the label size and the integer dpi,
    with a second upload that also decodes (and has a non-empty extension
    other than .pdf) the document has one page with two images of the same
    pixel size. *)
Theorem X9_buffers_two_labels
        (buffer1 buffer2 : Upload) (ext1 ext2 : string) (img1 img2 : GrayImage)
        (dpi : option JsNum) (fitMode : option string) (autoCrop : option bool)
        (labelSize : option string) (w h : Q) (n : Z) :
  sharpPng buffer1 = Ok img1 -> has SUPPORTED_PDF_EXTS ext1 = false ->
  sharpPng buffer2 = Ok img2 -> has SUPPORTED_PDF_EXTS ext2 = false -> ext2 <> "" ->
  sizeFor (orDefault labelSize DEFAULT_LABEL_SIZE) = JsTuple w h ->
  orDefault dpi DEFAULT_DPI = Finite (inject_Z n) ->
  1 <= roundHalfUp (w * inject_Z n) <= 100000000 ->
  1 <= roundHalfUp (h * inject_Z n) <= 100000000 ->
  exists doc,
    resizeLabelFromBuffers
      {| ResizeLabelFromBuffersOptions.buffer1 := buffer1;
         ResizeLabelFromBuffersOptions.ext1 := ext1;
         ResizeLabelFromBuffersOptions.buffer2 := Some buffer2;
         ResizeLabelFromBuffersOptions.ext2 := Some ext2;
         ResizeLabelFromBuffersOptions.dpi := dpi;
         ResizeLabelFromBuffersOptions.fitMode := fitMode;
         ResizeLabelFromBuffersOptions.autoCrop := autoCrop;
         ResizeLabelFromBuffersOptions.labelSize := labelSize |}
    = Ok doc /\
    buildPdf2Up [PngBytes (roundHalfUp (w * inject_Z n)) (roundHalfUp (h * inject_Z n));
                 PngBytes (roundHalfUp (w * inject_Z n)) (roundHalfUp (h * inject_Z n))] (JsTuple w h) = Ok doc /\
    List.length (pages doc) = 1%nat /\ embeddedImages doc = 2%nat.
Proof.
  intros Hpng1 Hext1 Hpng2 Hext2 Hne Hsize Hdpi Hw Hh.
  destruct (two_label_document (roundHalfUp (w * inject_Z n))
                               (roundHalfUp (h * inject_Z n)) w h)
    as (doc & Hdoc & Hpages & Himages).
  exists doc. split; [|split; [exact Hdoc|split; assumption]].
  rewrite (resizeLabelFromBuffers_first_prepared _ _ img1 _ _ _ _ _ _ w h (inject_Z n))
    by assumption.
  cbv zeta. unfold truthy. apply String.eqb_neq in Hne. rewrite Hne. cbn [negb orDefault].
  rewrite (prepare_image buffer2 ext2 img2) by assumption.
  cbn [bind]. exact Hdoc.
Qed.

Lemma X9_buffers_two_labels_witness :
  exists doc,
    resizeLabelFromBuffers
      {| ResizeLabelFromBuffersOptions.buffer1 := imageUpload framedLabel;
         ResizeLabelFromBuffersOptions.ext1 := ".png";
         ResizeLabelFromBuffersOptions.buffer2 := Some (imageUpload blackSquare);
         ResizeLabelFromBuffersOptions.ext2 := Some ".jpg";
         ResizeLabelFromBuffersOptions.dpi := None;
         ResizeLabelFromBuffersOptions.fitMode := None;
         ResizeLabelFromBuffersOptions.autoCrop := None;
         ResizeLabelFromBuffersOptions.labelSize := None |}
    = Ok doc /\
    embeddedImages doc = 2%nat.
Proof.
  destruct (X9_buffers_two_labels (imageUpload framedLabel) (imageUpload blackSquare)
              ".png" ".jpg" framedLabel blackSquare None None None None 4 6 300)
    as (doc & Hrun & _ & _ & Himages).
  - reflexivity.
  - reflexivity.
  - reflexivity.
  - reflexivity.
  - discriminate.
  - reflexivity.
  - reflexivity.
  - vm_compute. split; discriminate.
  - vm_compute. split; discriminate.
  - exists doc. split; [exact Hrun|exact Himages].
Defined.

(** X10.  Under the same conditions on the label size and the integer dpi,
    when the second upload is passed on and does not decode, the whole call
    throws its decoding error, although the first label was prepared: no
    document with the first label alone is produced. *)
Theorem X10_second_upload_failure
        (buffer1 buffer2 : Upload) (ext1 ext2 : string) (img1 : GrayImage) (e : Exception)
        (dpi : option JsNum) (fitMode : option string) (autoCrop : option bool)
        (labelSize : option string) (w h : Q) (n : Z) :
  sharpPng buffer1 = Ok img1 -> has SUPPORTED_PDF_EXTS ext1 = false ->
  sharpPng buffer2 = Throw e -> has SUPPORTED_PDF_EXTS ext2 = false -> ext2 <> "" ->
  sizeFor (orDefault labelSize DEFAULT_LABEL_SIZE) = JsTuple w h ->
  orDefault dpi DEFAULT_DPI = Finite (inject_Z n) ->
  1 <= roundHalfUp (w * inject_Z n) <= 100000000 ->
  1 <= roundHalfUp (h * inject_Z n) <= 100000000 ->
  resizeLabelFromBuffers
    {| ResizeLabelFromBuffersOptions.buffer1 := buffer1;
       ResizeLabelFromBuffersOptions.ext1 := ext1;
       ResizeLabelFromBuffersOptions.buffer2 := Some buffer2;
       ResizeLabelFromBuffersOptions.ext2 := Some ext2;
       ResizeLabelFromBuffersOptions.dpi := dpi;
       ResizeLabelFromBuffersOptions.fitMode := fitMode;
       ResizeLabelFromBuffersOptions.autoCrop := autoCrop;
       ResizeLabelFromBuffersOptions.labelSize := labelSize |}
  = Throw e.
Proof.
  intros Hpng1 Hext1 Hpng2 Hext2 Hne Hsize Hdpi Hw Hh.
  rewrite (resizeLabelFromBuffers_first_prepared _ _ img1 _ _ _ _ _ _ w h (inject_Z n))
    by assumption.
  cbv zeta. unfold truthy. apply String.eqb_neq in Hne. rewrite Hne. cbn [negb orDefault].
  unfold prepare, bufToImage. rewrite Hext2, Hpng2. reflexivity.
Qed.

Lemma X10_second_upload_failure_witness :
  resizeLabelFromBuffers
    {| ResizeLabelFromBuffersOptions.buffer1 := imageUpload framedLabel;
       ResizeLabelFromBuffersOptions.ext1 := ".png";
       ResizeLabelFromBuffersOptions.buffer2 := Some brokenUpload;
       ResizeLabelFromBuffersOptions.ext2 := Some ".png";
       ResizeLabelFromBuffersOptions.dpi := None;
       ResizeLabelFromBuffersOptions.fitMode := None;
       ResizeLabelFromBuffersOptions.autoCrop := None;
       ResizeLabelFromBuffersOptions.labelSize := None |}
  = Throw SharpUnsupportedInput.
Proof.
  refine (X10_second_upload_failure (imageUpload framedLabel) brokenUpload
            ".png" ".png" framedLabel SharpUnsupportedInput None None None None 4 6 300
            _ _ _ _ _ _ _ _ _).
  - reflexivity.
  - reflexivity.
  - reflexivity.
  - reflexivity.
  - discriminate.
  - reflexivity.
  - reflexivity.
  - vm_compute. split; discriminate.
  - vm_compute. split; discriminate.
Defined.
(** ** [resizeLabel] *)

Lemma loadImage_image (fs : FileSystem) (inputPath : string) :
  has SUPPORTED_IMAGE_EXTS (toLowerCase (extname inputPath)) = true ->
  loadImage fs inputPath = sharpFile fs inputPath.
Proof. intros H. unfold loadImage. rewrite H. reflexivity. Qed.

Lemma loadImage_pdf (fs : FileSystem) (inputPath : string) :
  has SUPPORTED_PDF_EXTS (toLowerCase (extname inputPath)) = true ->
  loadImage fs inputPath = loadImageFromPdf fs inputPath 0 (Finite 300).
Proof.
  intros H. unfold loadImage. rewrite (pdf_ext_is_not_image _ H), H. reflexivity.
Qed.

Lemma loadImage_unsupported (fs : FileSystem) (inputPath : string) :
  has SUPPORTED_EXTS (toLowerCase (extname inputPath)) = false ->
  loadImage fs inputPath
  = Throw (Error ("Unsupported file format '" ++ toLowerCase (extname inputPath)
                  ++ "'. Supported: .bmp, .jpeg, .jpg, .pdf, .png, .tif, .tiff, .webp")%string).
Proof.
  intros H. unfold loadImage. destruct (supported_exts_split _ H) as (Himg & Hpdf).
  rewrite Himg, Hpdf. unfold unsupportedFileFormat. rewrite supported_exts_sorted.
  reflexivity.
Qed.

(** [resizeLabel] on one image file that is prepared without error: what is
    left is the write of the document. *)
Lemma resizeLabel_one_label
      (fs : FileSystem) (inputPath : string) (outputPath : option string) (img : GrayImage)
      (dpi : option JsNum) (fitMode : option string) (autoCrop : option bool)
      (labelSize : option string) (w h d : Q) (saved : string) :
  existsSync fs inputPath = true ->
  has SUPPORTED_IMAGE_EXTS (toLowerCase (extname inputPath)) = true ->
  sharpFile fs inputPath = Ok img ->
  sizeFor (orDefault labelSize DEFAULT_LABEL_SIZE) = JsTuple w h ->
  orDefault dpi DEFAULT_DPI = Finite d ->
  1 <= roundHalfUp (w * d) <= 100000000 -> 1 <= roundHalfUp (h * d) <= 100000000 ->
  saved = (if truthy outputPath then orDefault outputPath ""
           else (dropExtension inputPath ++ "_label.pdf")%string) ->
  exists doc,
    buildPdf2Up [PngBytes (roundHalfUp (w * d)) (roundHalfUp (h * d))] (JsTuple w h) = Ok doc /\
    resizeLabel fs
      {| ResizeLabelOptions.inputPath := inputPath;
         ResizeLabelOptions.outputPath := outputPath;
         ResizeLabelOptions.inputPath2 := None;
         ResizeLabelOptions.dpi := dpi;
         ResizeLabelOptions.fitMode := fitMode;
         ResizeLabelOptions.autoCrop := autoCrop;
         ResizeLabelOptions.labelSize := labelSize |}
    = match writeFileSync fs saved with
      | Ok _ => Ok (saved, doc)
      | Throw e => Throw e
      end.
Proof.
  intros Hexists Hext Hpng Hsize Hdpi Hw Hh Hsaved.
  destruct (one_label_document (roundHalfUp (w * d)) (roundHalfUp (h * d)) w h)
    as (doc & Hdoc & _).
  exists doc. split; [exact Hdoc|].
  unfold resizeLabel. file_options.
  rewrite Hexists, Hsize, Hdpi. cbn [negb truthy andb].
  unfold prepareLabel. rewrite (loadImage_image fs inputPath Hext), Hpng. cbn [bind].
  rewrite (prepared img _ w h d _ Hw Hh). cbn [bind].
  unfold savePdf2Up. rewrite Hdoc. cbn [bind].
  assert (Hpath : (if negb (truthy outputPath)
                   then (dropExtension inputPath ++ "_label.pdf")%string
                   else orDefault outputPath "") = saved).
  { rewrite Hsaved. destruct (truthy outputPath); reflexivity. }
  rewrite Hpath. destruct (writeFileSync fs saved); reflexivity.
Qed.

(** X11.  [resizeLabel] on one input file that exists, has an image
    extension and decodes, with a label size that resolves to a catalogue
    entry and an integer dpi at which both pixel sizes lie between 1 and
    100000000 (the products are then exact in binary64): the document of the
    one resized label is written to the output path it was given, or, when
    none (or the empty string) was given, to the input path with its last
    extension replaced by [_label.pdf].  When the write succeeds that path is
    returned; when it throws, the call throws the same error. *)
Theorem X11_resizeLabel_one_label
      (fs : FileSystem) (inputPath : string) (outputPath : option string) (img : GrayImage)
      (dpi : option JsNum) (fitMode : option string) (autoCrop : option bool)
      (labelSize : option string) (w h : Q) (n : Z) (saved : string) :
  existsSync fs inputPath = true ->
  has SUPPORTED_IMAGE_EXTS (toLowerCase (extname inputPath)) = true ->
  sharpFile fs inputPath = Ok img ->
  sizeFor (orDefault labelSize DEFAULT_LABEL_SIZE) = JsTuple w h ->
  orDefault dpi DEFAULT_DPI = Finite (inject_Z n) ->
  1 <= roundHalfUp (w * inject_Z n) <= 100000000 ->
  1 <= roundHalfUp (h * inject_Z n) <= 100000000 ->
  saved = (if truthy outputPath then orDefault outputPath ""
           else (dropExtension inputPath ++ "_label.pdf")%string) ->
  exists doc,
    buildPdf2Up [PngBytes (roundHalfUp (w * inject_Z n)) (roundHalfUp (h * inject_Z n))]
                (JsTuple w h) = Ok doc /\
    resizeLabel fs
      {| ResizeLabelOptions.inputPath := inputPath;
         ResizeLabelOptions.outputPath := outputPath;
         ResizeLabelOptions.inputPath2 := None;
         ResizeLabelOptions.dpi := dpi;
         ResizeLabelOptions.fitMode := fitMode;
         ResizeLabelOptions.autoCrop := autoCrop;
         ResizeLabelOptions.labelSize := labelSize |}
    = match writeFileSync fs saved with
      | Ok _ => Ok (saved, doc)
      | Throw e => Throw e
      end.
Proof.
  intros Hexists Hext Hpng Hsize Hdpi Hw Hh Hsaved.
  exact (resizeLabel_one_label fs inputPath outputPath img dpi fitMode autoCrop labelSize
           w h (inject_Z n) saved Hexists Hext Hpng Hsize Hdpi Hw Hh Hsaved).
Qed.

Lemma X11_resizeLabel_one_label_witness :
  exists doc,
    buildPdf2Up [PngBytes (roundHalfUp (4 * inject_Z 300)) (roundHalfUp (8 * inject_Z 300))]
                (JsTuple 4 8) = Ok doc /\
    resizeLabel (readOnlyFiles framedLabel) (fileOptionsFor "4x8")
    = match writeFileSync (readOnlyFiles framedLabel) "label_label.pdf" with
      | Ok _ => Ok ("label_label.pdf", doc)
      | Throw e => Throw e
      end.
Proof.
  refine (X11_resizeLabel_one_label (readOnlyFiles framedLabel) "label.png" None framedLabel
            None None None (Some "4x8") 4 8 300 "label_label.pdf" _ _ _ _ _ _ _ _).
  - reflexivity.
  - reflexivity.
  - reflexivity.
  - reflexivity.
  - reflexivity.
  - vm_compute. split; discriminate.
  - vm_compute. split; discriminate.
  - reflexivity.
Defined.

(** X12.  [resizeLabel] on a first input file that exists but whose
    lower-cased extension is not a supported one throws the unsupported-format
    error naming that extension and the sorted list of supported ones,
    whatever the other options, provided the second input (if one is given)
    exists too. *)
Theorem X12_resizeLabel_unsupported
      (fs : FileSystem) (inputPath : string) (outputPath inputPath2 : option string)
      (dpi : option JsNum) (fitMode : option string) (autoCrop : option bool)
      (labelSize : option string) :
  existsSync fs inputPath = true ->
  (truthy inputPath2 = true -> existsSync fs (orDefault inputPath2 "") = true) ->
  has SUPPORTED_EXTS (toLowerCase (extname inputPath)) = false ->
  resizeLabel fs
    {| ResizeLabelOptions.inputPath := inputPath;
       ResizeLabelOptions.outputPath := outputPath;
       ResizeLabelOptions.inputPath2 := inputPath2;
       ResizeLabelOptions.dpi := dpi;
       ResizeLabelOptions.fitMode := fitMode;
       ResizeLabelOptions.autoCrop := autoCrop;
       ResizeLabelOptions.labelSize := labelSize |}
  = Throw (Error ("Unsupported file format '" ++ toLowerCase (extname inputPath)
                  ++ "'. Supported: .bmp, .jpeg, .jpg, .pdf, .png, .tif, .tiff, .webp")%string).
Proof.
  intros Hexists Hsecond Hext.
  unfold resizeLabel. file_options. rewrite Hexists. cbn [negb].
  destruct (truthy inputPath2) eqn:Ht.
  - rewrite (Hsecond eq_refl). cbn [negb andb].
    unfold prepareLabel. rewrite (loadImage_unsupported fs inputPath Hext). reflexivity.
  - cbn [andb]. unfold prepareLabel.
    rewrite (loadImage_unsupported fs inputPath Hext). reflexivity.
Qed.

Lemma X12_resizeLabel_unsupported_witness :
  resizeLabel
    {| existsSync := fun _ => true;
       sharpFile := fun _ => Ok framedLabel;
       loadImageFromPdf := fun _ _ _ => Ok framedLabel;
       writeFileSync := fun _ => Ok tt |}
    {| ResizeLabelOptions.inputPath := "scan.GIF";
       ResizeLabelOptions.outputPath := Some "out.pdf";
       ResizeLabelOptions.inputPath2 := Some "label.png";
       ResizeLabelOptions.dpi := None;
       ResizeLabelOptions.fitMode := None;
       ResizeLabelOptions.autoCrop := None;
       ResizeLabelOptions.labelSize := None |}
  = Throw (Error ("Unsupported file format '" ++ toLowerCase (extname "scan.GIF")
                  ++ "'. Supported: .bmp, .jpeg, .jpg, .pdf, .png, .tif, .tiff, .webp")%string).
Proof.
  refine (X12_resizeLabel_unsupported
            {| existsSync := fun _ => true;
               sharpFile := fun _ => Ok framedLabel;
               loadImageFromPdf := fun _ _ _ => Ok framedLabel;
               writeFileSync := fun _ => Ok tt |}
            "scan.GIF" (Some "out.pdf") (Some "label.png") None None None None _ _ _).
  - reflexivity.
  - intros _. reflexivity.
  - reflexivity.
Defined.

(** X13.  A PDF is rendered at different resolutions by the two entry
    points.  From a path ([prepareLabel], used by [resizeLabel]) page 0 is
    rendered at [loadImageFromPdf]'s default of 300 dpi whatever [dpi] the
    caller passed; from a buffer ([resizeLabelFromBuffers]) it is rendered at
    the caller's [dpi].  In both the caller's [dpi] still sets the output
    pixel size. *)
Theorem X13_pdf_resolution (fs : FileSystem) (inputPath : string) (buf : Upload) (ext : string)
        (dpi : JsNum) (fitMode : string) (autoCrop : bool) (size : JsValue) :
  has SUPPORTED_PDF_EXTS (toLowerCase (extname inputPath)) = true ->
  has SUPPORTED_PDF_EXTS ext = true ->
  prepareLabel fs inputPath dpi fitMode autoCrop size
  = (await page <- loadImageFromPdf fs inputPath 0 (Finite 300);
     await page' <- (if autoCrop then autoCropped page else Ok page);
     resizeImage page' size dpi fitMode)
  /\
  prepare dpi fitMode autoCrop size buf ext
  = (await page <- pdfPage0 buf dpi;
     await page' <- (if autoCrop then autoCropped page else Ok page);
     resizeImage page' size dpi fitMode).
Proof.
  intros Hpath Hext. split.
  - unfold prepareLabel. rewrite (loadImage_pdf fs inputPath Hpath). reflexivity.
  - unfold prepare, bufToImage. rewrite Hext. reflexivity.
Qed.

Lemma X13_pdf_resolution_witness :
  prepareLabel (onePdfFile framedLabel) "label.pdf" (Finite 150) "fit" false (JsTuple 4 6)
  = (await page <- loadImageFromPdf (onePdfFile framedLabel) "label.pdf" 0 (Finite 300);
     await page' <- (if false then autoCropped page else Ok page);
     resizeImage page' (JsTuple 4 6) (Finite 150) "fit")
  /\
  prepare (Finite 150) "fit" false (JsTuple 4 6) (pdfUpload framedLabel) ".pdf"
  = (await page <- pdfPage0 (pdfUpload framedLabel) (Finite 150);
     await page' <- (if false then autoCropped page else Ok page);
     resizeImage page' (JsTuple 4 6) (Finite 150) "fit").
Proof.
  refine (X13_pdf_resolution (onePdfFile framedLabel) "label.pdf" (pdfUpload framedLabel)
            ".pdf" (Finite 150) "fit" false (JsTuple 4 6) _ _).
  - reflexivity.
  - reflexivity.
Defined.

(** ** The [/resize] route and the command line *)

Ltac request_fields :=
  cbn [file file2 body_dpi body_fit body_auto_crop originalname buffer].

Lemma four_by_six (n : Z) :
  roundHalfUp (4 * inject_Z n) = 4 * n /\ roundHalfUp (6 * inject_Z n) = 6 * n.
Proof.
  split; [exact (roundHalfUp_integer 4 n)|exact (roundHalfUp_integer 6 n)].
Qed.




(** A second upload that is not passed on leaves no trace in the call. *)
Lemma secondUpload_unsupported (f2 : MulterFile) :
  has SUPPORTED_EXTS (toLowerCase (extname (originalname f2))) = false ->
  fst (secondUpload (Some f2)) = None.
Proof.
  intros H. unfold secondUpload. destruct (truthy (Some (originalname f2))); [|reflexivity].
  rewrite H. reflexivity.
Qed.

Lemma resizeLabelFromBuffers_without_second
      (buffer1 : Upload) (ext1 : string) (ext2 ext2' : option string)
      (dpi : option JsNum) (fitMode : option string) (autoCrop : option bool)
      (labelSize : option string) :
  resizeLabelFromBuffers
    {| ResizeLabelFromBuffersOptions.buffer1 := buffer1;
       ResizeLabelFromBuffersOptions.ext1 := ext1;
       ResizeLabelFromBuffersOptions.buffer2 := None;
       ResizeLabelFromBuffersOptions.ext2 := ext2;
       ResizeLabelFromBuffersOptions.dpi := dpi;
       ResizeLabelFromBuffersOptions.fitMode := fitMode;
       ResizeLabelFromBuffersOptions.autoCrop := autoCrop;
       ResizeLabelFromBuffersOptions.labelSize := labelSize |}
  = resizeLabelFromBuffers
    {| ResizeLabelFromBuffersOptions.buffer1 := buffer1;
       ResizeLabelFromBuffersOptions.ext1 := ext1;
       ResizeLabelFromBuffersOptions.buffer2 := None;
       ResizeLabelFromBuffersOptions.ext2 := ext2';
       ResizeLabelFromBuffersOptions.dpi := dpi;
       ResizeLabelFromBuffersOptions.fitMode := fitMode;
       ResizeLabelFromBuffersOptions.autoCrop := autoCrop;
       ResizeLabelFromBuffersOptions.labelSize := labelSize |}.
Proof. reflexivity. Qed.

(** X15.  A second upload whose extension is not supported is dropped
    silently: the response is the one the same request without a second
    upload gets (the first upload's extension, by contrast, is answered with
    a 400). *)
Theorem X15_route_drops_unsupported_second
      (libraryMessage : Exception -> string) (first : option MulterFile) (f2 : MulterFile)
      (dpi fitMode autoCrop : option string) :
  has SUPPORTED_EXTS (toLowerCase (extname (originalname f2))) = false ->
  resizeRoute libraryMessage
    {| file := first; file2 := Some f2;
       body_dpi := dpi; body_fit := fitMode; body_auto_crop := autoCrop |}
  = resizeRoute libraryMessage
    {| file := first; file2 := None;
       body_dpi := dpi; body_fit := fitMode; body_auto_crop := autoCrop |}.
Proof.
  intros Hext. unfold resizeRoute. request_fields.
  destruct first as [file1|]; [|reflexivity].
  destruct (negb (has SUPPORTED_EXTS (toLowerCase (extname (originalname file1)))));
    [reflexivity|].
  pose proof (secondUpload_unsupported f2 Hext) as Hnone.
  destruct (secondUpload (Some f2)) as [b2 e2]. cbn [fst snd] in *. subst b2.
  cbn [secondUpload fst snd].
  rewrite (resizeLabelFromBuffers_without_second _ _ e2 None). reflexivity.
Qed.

Lemma X15_route_drops_unsupported_second_witness :
  resizeRoute (fun _ => "Input buffer contains unsupported image format")
    {| file := Some {| originalname := "a.png"; buffer := imageUpload framedLabel |};
       file2 := Some {| originalname := "b.gif"; buffer := brokenUpload |};
       body_dpi := None; body_fit := None; body_auto_crop := None |}
  = resizeRoute (fun _ => "Input buffer contains unsupported image format")
    {| file := Some {| originalname := "a.png"; buffer := imageUpload framedLabel |};
       file2 := None;
       body_dpi := None; body_fit := None; body_auto_crop := None |}.
Proof.
  refine (X15_route_drops_unsupported_second _ _
            {| originalname := "b.gif"; buffer := brokenUpload |} None None None _).
  reflexivity.
Defined.

Lemma resizeLabelFromBuffers_bad_dpi
      (buffer1 : Upload) (ext1 : string) (img : GrayImage)
      (buffer2 : option Upload) (ext2 : option string)
      (dpi : JsNum) (fitMode : option string) (autoCrop : option bool) :
  sharpPng buffer1 = Ok img ->
  has SUPPORTED_PDF_EXTS ext1 = false ->
  dpi = NaN \/ (exists n, dpi = Finite (inject_Z n) /\ n <= 0) ->
  resizeLabelFromBuffers
    {| ResizeLabelFromBuffersOptions.buffer1 := buffer1;
       ResizeLabelFromBuffersOptions.ext1 := ext1;
       ResizeLabelFromBuffersOptions.buffer2 := buffer2;
       ResizeLabelFromBuffersOptions.ext2 := ext2;
       ResizeLabelFromBuffersOptions.dpi := Some dpi;
       ResizeLabelFromBuffersOptions.fitMode := fitMode;
       ResizeLabelFromBuffersOptions.autoCrop := autoCrop;
       ResizeLabelFromBuffersOptions.labelSize := None |}
  = Throw (SharpInvalidParameter "width").
Proof.
  intros Hpng Hext Hdpi.
  unfold resizeLabelFromBuffers. buffers_options. cbn [orDefault].
  unfold prepare at 1, bufToImage at 1. rewrite Hext, Hpng. cbn [bind].
  change (sizeFor DEFAULT_LABEL_SIZE) with (JsTuple 4 6).
  rewrite not_prepared; [reflexivity|].
  destruct Hdpi as [->|(n & -> & Hn)]; [left; reflexivity|right].
  exists (inject_Z n). split; [reflexivity|].
  rewrite (proj1 (four_by_six n)). lia.
Qed.

(** X16.  [POST /resize] with a first upload that is an image and
    decodes, but a [dpi] field that [parseInt] reads as [NaN] or as an
    integer [n <= 0]: sharp rejects the width, and, its message containing
    neither [not found] nor [Unsupported], the route answers 500 (not 400)
    with that message. *)
Theorem X16_route_bad_dpi
      (libraryMessage : Exception -> string) (file1 : MulterFile) (second : option MulterFile)
      (dpi fitMode autoCrop : option string) (img : GrayImage) :
  has SUPPORTED_IMAGE_EXTS (toLowerCase (extname (originalname file1))) = true ->
  sharpPng (buffer file1) = Ok img ->
  parseInt (orDefault dpi "300") = NaN \/
  (exists n, parseInt (orDefault dpi "300") = Finite (inject_Z n) /\ n <= 0) ->
  includes (libraryMessage (SharpInvalidParameter "width")) "not found" = false ->
  includes (libraryMessage (SharpInvalidParameter "width")) "Unsupported" = false ->
  resizeRoute libraryMessage
    {| file := Some file1; file2 := second;
       body_dpi := dpi; body_fit := fitMode; body_auto_crop := autoCrop |}
  = Json 500 (libraryMessage (SharpInvalidParameter "width")).
Proof.
  intros Hext Hpng Hdpi Hfound Hunsupported.
  unfold resizeRoute. request_fields.
  rewrite (image_ext_is_supported _ Hext). cbn [negb].
  rewrite (resizeLabelFromBuffers_bad_dpi _ _ img);
    [ | exact Hpng | apply image_ext_is_not_pdf; exact Hext | exact Hdpi ].
  cbn [messageOf]. rewrite Hfound, Hunsupported. reflexivity.
Qed.

Lemma X16_route_bad_dpi_witness :
  resizeRoute (fun _ => "Expected positive integer for width but received NaN of type number")
    {| file := Some {| originalname := "a.png"; buffer := imageUpload framedLabel |};
       file2 := None;
       body_dpi := Some "high"; body_fit := None; body_auto_crop := None |}
  = Json 500 "Expected positive integer for width but received NaN of type number".
Proof.
  refine (X16_route_bad_dpi
            (fun _ => "Expected positive integer for width but received NaN of type number")
            {| originalname := "a.png"; buffer := imageUpload framedLabel |} None
            (Some "high") None None framedLabel _ _ _ _ _).
  - reflexivity.
  - reflexivity.
  - left. reflexivity.
  - reflexivity.
  - reflexivity.
Defined.

(** X17.  The command line on one input file that exists, has an image
    extension and decodes, with a [--dpi] that [parseInt] reads as an integer
    [n] from 1 to 16666666: it prepares one 4x6 in label of [4n] x [6n]
    pixels (it has no option for the label size) and writes the document to
    the [--output] path or, without one, to the input path with its last
    extension replaced by [_label.pdf].  When the write succeeds it prints
    [Label saved to: ] followed by that path; when the write throws it prints
    [Error: ] followed by the message and exits with status 1. *)
Theorem X17_cli_label_is_4x6
      (fs : FileSystem) (libraryMessage : Exception -> string)
      (input : string) (opts : CliOptions) (img : GrayImage) (n : Z) (saved : string) :
  existsSync fs input = true ->
  has SUPPORTED_IMAGE_EXTS (toLowerCase (extname input)) = true ->
  sharpFile fs input = Ok img ->
  parseInt (cli_dpi opts) = Finite (inject_Z n) -> 1 <= n <= 16666666 ->
  saved = (if truthy (output opts) then orDefault (output opts) ""
           else (dropExtension input ++ "_label.pdf")%string) ->
  exists doc,
    buildPdf2Up [PngBytes (4 * n) (6 * n)] (JsTuple 4 6) = Ok doc /\
    cliAction fs libraryMessage input None opts
    = match writeFileSync fs saved with
      | Ok _ => Logged ("Label saved to: " ++ saved)%string (saved, doc)
      | Throw e => ExitedWith 1 ("Error: " ++ messageOf libraryMessage e)%string
      end.
Proof.
  intros Hexists Hext Hpng Hdpi Hn Hsaved.
  destruct (four_by_six n) as (Hw & Hh).
  destruct (resizeLabel_one_label fs input (output opts) img
              (Some (parseInt (cli_dpi opts))) (Some (fit opts)) (Some (crop opts)) None
              4 6 (inject_Z n) saved)
    as (doc & Hdoc & Hrun);
    [ exact Hexists | exact Hext | exact Hpng | reflexivity | cbn [orDefault]; exact Hdpi
      | rewrite Hw; lia | rewrite Hh; lia | exact Hsaved | ].
  rewrite Hw, Hh in Hdoc.
  exists doc. split; [exact Hdoc|].
  unfold cliAction. rewrite Hrun.
  destruct (writeFileSync fs saved); reflexivity.
Qed.

Lemma X17_cli_label_is_4x6_witness :
  exists doc,
    buildPdf2Up [PngBytes (4 * 203) (6 * 203)] (JsTuple 4 6) = Ok doc /\
    cliAction (oneLabelFile framedLabel) (fun _ => "Input file is missing") "label.png" None
              {| output := None; cli_dpi := "203"; fit := "stretch"; crop := false |}
    = match writeFileSync (oneLabelFile framedLabel) "label_label.pdf" with
      | Ok _ => Logged ("Label saved to: " ++ "label_label.pdf")%string
                       ("label_label.pdf", doc)
      | Throw e => ExitedWith 1 ("Error: " ++ messageOf (fun _ => "Input file is missing") e)%string
      end.
Proof.
  refine (X17_cli_label_is_4x6 (oneLabelFile framedLabel) (fun _ => "Input file is missing")
            "label.png"
            {| output := None; cli_dpi := "203"; fit := "stretch"; crop := false |}
            framedLabel 203 "label_label.pdf" _ _ _ _ _ _).
  - reflexivity.
  - reflexivity.
  - reflexivity.
  - reflexivity.
  - lia.
  - reflexivity.
Defined.

(** X18.  The command line checks that the input files exist before it
    reads anything: a missing first input exits with status 1 and
    [Error: Input file not found: <input>], whatever the other arguments; a
    missing second input (the first existing) exits with status 1 and
    [Error: Second input file not found: <input2>]. *)
Theorem X18_cli_missing_input
      (fs : FileSystem) (libraryMessage : Exception -> string)
      (input : string) (input2 : option string) (opts : CliOptions) :
  (existsSync fs input = false ->
   cliAction fs libraryMessage input input2 opts
   = ExitedWith 1 ("Error: Input file not found: " ++ input)%string) /\
  (forall second, existsSync fs input = true -> input2 = Some second -> second <> "" ->
   existsSync fs second = false ->
   cliAction fs libraryMessage input input2 opts
   = ExitedWith 1 ("Error: Second input file not found: " ++ second)%string).
Proof.
  split.
  - intros H. unfold cliAction, resizeLabel. file_options. rewrite H. reflexivity.
  - intros second H -> Hne H2. unfold cliAction, resizeLabel. file_options.
    rewrite H. cbn [negb orDefault truthy]. apply String.eqb_neq in Hne. rewrite Hne, H2.
    reflexivity.
Qed.

(** ** Names without an extension *)

Lemma extnameScan_no_dot (backwards : list ascii) :
  ~ In "."%char backwards ->
  forall (i : Z) (st : ExtScan),
    startDot st = -1 -> startDot (extnameScan backwards i st) = -1.
Proof.
  induction backwards as [|code rest IH]; intros Hno i st Hst; cbn [extnameScan].
  - exact Hst.
  - assert (Hrest : ~ In "."%char rest) by (intros H; apply Hno; right; exact H).
    assert (Hcode : Ascii.eqb code "." = false).
    { apply Ascii.eqb_neq. intros ->. apply Hno. left. reflexivity. }
    destruct (Ascii.eqb code "/").
    + destruct (negb (matchedSlash st)); [exact Hst|]. apply IH; assumption.
    + rewrite Hcode. apply IH; [exact Hrest|].
      destruct (endAt st =? -1); cbn [startDot]; rewrite Hst;
        change (-1 =? -1) with true; cbn [negb startDot]; [reflexivity|exact Hst].
Qed.

Lemma extname_no_dot (path : string) :
  ~ In "."%char (list_ascii_of_string path) -> extname path = "".
Proof.
  intros Hno. unfold extname.
  rewrite extnameScan_no_dot; [reflexivity| |reflexivity].
  rewrite <- in_rev. exact Hno.
Qed.

(** X2.  A name that holds no dot has the extension [''].  The rule for the
    output name would leave such a name as it is, but no such name gets as
    far as an output name: [loadImage] throws the unsupported-format error
    for [''] and the route answers the upload with status 400. *)
Theorem X2_name_without_dot_rejected
        (fs : FileSystem) (libraryMessage : Exception -> string) (name : string)
        (upload : Upload) (second : option MulterFile) (dpi fitMode autoCrop : option string) :
  ~ In "."%char (list_ascii_of_string name) ->
  dropExtension name = name /\
  loadImage fs name
  = Throw (Error ("Unsupported file format ''. "
                  ++ "Supported: .bmp, .jpeg, .jpg, .pdf, .png, .tif, .tiff, .webp")%string) /\
  resizeRoute libraryMessage
    {| file := Some {| originalname := name; buffer := upload |}; file2 := second;
       body_dpi := dpi; body_fit := fitMode; body_auto_crop := autoCrop |}
  = Json 400 ("Unsupported format ''. "
              ++ "Supported: .bmp, .jpeg, .jpg, .pdf, .png, .tif, .tiff, .webp")%string.
Proof.
  intros Hno. pose proof (extname_no_dot name Hno) as Hext.
  split; [exact (proj1 dropExtension_unchanged name Hno)|]. split.
  - rewrite loadImage_unsupported; rewrite Hext; reflexivity.
  - unfold resizeRoute. request_fields. rewrite Hext. reflexivity.
Qed.

Lemma X2_name_without_dot_rejected_witness :
  dropExtension "labels/scan" = "labels/scan" /\
  loadImage (oneLabelFile framedLabel) "labels/scan"
  = Throw (Error ("Unsupported file format ''. "
                  ++ "Supported: .bmp, .jpeg, .jpg, .pdf, .png, .tif, .tiff, .webp")%string) /\
  resizeRoute (fun _ => "Input buffer contains unsupported image format")
    {| file := Some {| originalname := "labels/scan"; buffer := imageUpload framedLabel |};
       file2 := None; body_dpi := None; body_fit := None; body_auto_crop := None |}
  = Json 400 ("Unsupported format ''. "
              ++ "Supported: .bmp, .jpeg, .jpg, .pdf, .png, .tif, .tiff, .webp")%string.
Proof.
  refine (X2_name_without_dot_rejected (oneLabelFile framedLabel)
            (fun _ => "Input buffer contains unsupported image format") "labels/scan"
            (imageUpload framedLabel) None None None None _).
  cbn. intuition discriminate.
Defined.

(** ** The Swift [autoCrop] *)

Lemma forIn_trap {St : Type} (body : Z -> St -> option St) (j : Z) :
  (forall s, body j s = None) ->
  forall (n : nat) (i : Z) (s : St),
    i <= j < i + Z.of_nat n -> LabelProcessor.forIn n i body s = None.
Proof.
  intros Htrap. induction n as [|n IH]; intros i s Hj; [lia|].
  cbn [LabelProcessor.forIn].
  destruct (Z.eq_dec j i) as [->|Hne].
  - rewrite Htrap. reflexivity.
  - destruct (body i s) as [s'|]; [|reflexivity]. cbn [LabelProcessor.andThen].
    apply IH. lia.
Qed.

Lemma forIn_invariant {St : Type} (P : Z -> St -> Prop) (body : Z -> St -> option St) :
  forall (n : nat) (i : Z) (s s' : St),
    P i s ->
    (forall j t t', i <= j < i + Z.of_nat n -> P j t -> body j t = Some t' -> P (j + 1) t') ->
    LabelProcessor.forIn n i body s = Some s' ->
    P (i + Z.of_nat n) s'.
Proof.
  induction n as [|n IH]; intros i s s' Hs Hstep Hrun; cbn [LabelProcessor.forIn] in Hrun.
  - injection Hrun as <-. replace (i + Z.of_nat 0) with i by lia. exact Hs.
  - destruct (body i s) as [t|] eqn:Hbody; [|discriminate].
    cbn [LabelProcessor.andThen] in Hrun.
    replace (i + Z.of_nat (S n)) with ((i + 1) + Z.of_nat n) by lia.
    apply (IH (i + 1) t s'); [| |exact Hrun].
    + apply (Hstep i s t); [lia|exact Hs|exact Hbody].
    + intros j u u' Hj. apply Hstep. lia.
Qed.

Lemma forInRange_trap {St : Type} (body : Z -> St -> option St) (start limit j : Z) (s : St) :
  (forall s, body j s = None) -> start <= j < limit ->
  LabelProcessor.forInRange start limit body s = None.
Proof.
  intros Htrap Hj. unfold LabelProcessor.forInRange.
  destruct (limit <? start); [reflexivity|].
  apply (forIn_trap body j Htrap). lia.
Qed.

Lemma forInRange_invariant {St : Type} (P : Z -> St -> Prop) (body : Z -> St -> option St)
      (start limit : Z) (s s' : St) :
  P start s ->
  (forall j t t', start <= j < limit -> P j t -> body j t = Some t' -> P (j + 1) t') ->
  LabelProcessor.forInRange start limit body s = Some s' ->
  start <= limit /\ P limit s'.
Proof.
  intros Hs Hstep. unfold LabelProcessor.forInRange.
  destruct (Z.ltb_spec limit start) as [|Hle]; [discriminate|].
  intros Hrun. split; [exact Hle|].
  replace limit with (start + Z.of_nat (Z.to_nat (limit - start))) at 1 by lia.
  apply (forIn_invariant P body _ _ s s' Hs); [|exact Hrun].
  intros j t t' Hj. apply Hstep. lia.
Qed.

(** Every pixel [brightness] returns for counts as dark. *)
Lemma isDark_cases (bitmap : LabelProcessor.Bitmap) (x y : Z) :
  LabelProcessor.isDark bitmap x y = None \/ LabelProcessor.isDark bitmap x y = Some true.
Proof.
  unfold LabelProcessor.isDark, LabelProcessor.brightness.
  destruct (Swift.brightness _ _ _) as [v|] eqn:Hv; [right|left; reflexivity].
  apply Swift_brightness_returns_dark in Hv. cbn [LabelProcessor.andThen].
  f_equal. apply Z.ltb_lt. unfold LabelProcessor.borderThreshold. lia.
Qed.

Lemma boundingBox_trap (bitmap : LabelProcessor.Bitmap) (x y : Z) :
  0 <= x < LabelProcessor.width bitmap -> 0 <= y < LabelProcessor.height bitmap ->
  LabelProcessor.isDark bitmap x y = None ->
  LabelProcessor.boundingBox bitmap = None.
Proof.
  intros Hx Hy Htrap. unfold LabelProcessor.boundingBox.
  apply forInRange_trap with (j := y); [|exact Hy].
  intros box. apply forInRange_trap with (j := x); [|exact Hx].
  intros box'. rewrite Htrap. reflexivity.
Qed.

Lemma boundingBox_all_dark (bitmap : LabelProcessor.Bitmap) (box : LabelProcessor.Box) :
  LabelProcessor.boundingBox bitmap = Some box ->
  forall x y,
    0 <= x < LabelProcessor.width bitmap -> 0 <= y < LabelProcessor.height bitmap ->
    LabelProcessor.isDark bitmap x y = Some true.
Proof.
  intros Hbox x y Hx Hy.
  destruct (isDark_cases bitmap x y) as [Htrap|Hdark]; [|exact Hdark].
  rewrite (boundingBox_trap bitmap x y Hx Hy Htrap) in Hbox. discriminate.
Qed.

Lemma Box_eq (a b c d a' b' c' d' : Z) :
  a = a' -> b = b' -> c = c' -> d = d' ->
  {| LabelProcessor.minX := a; LabelProcessor.minY := b;
     LabelProcessor.maxX := c; LabelProcessor.maxY := d |}
  = {| LabelProcessor.minX := a'; LabelProcessor.minY := b';
       LabelProcessor.maxX := c'; LabelProcessor.maxY := d' |}.
Proof. intros -> -> -> ->. reflexivity. Qed.

(** When the search returns on a bitmap with pixels, the box is the whole
    bitmap. *)
Lemma boundingBox_whole (bitmap : LabelProcessor.Bitmap) (box : LabelProcessor.Box) :
  LabelProcessor.boundingBox bitmap = Some box ->
  0 < LabelProcessor.width bitmap -> 0 < LabelProcessor.height bitmap ->
  box = wholeBox (LabelProcessor.width bitmap) (LabelProcessor.height bitmap).
Proof.
  intros Hbox Hw Hh.
  pose proof (boundingBox_all_dark bitmap box Hbox) as Hdark.
  set (w := LabelProcessor.width bitmap) in *.
  set (h := LabelProcessor.height bitmap) in *.
  set (init := {| LabelProcessor.minX := w; LabelProcessor.minY := h;
                  LabelProcessor.maxX := 0; LabelProcessor.maxY := 0 |}).
  unfold LabelProcessor.boundingBox in Hbox. fold w h init in Hbox.
  apply (forInRange_invariant
           (fun y b => 0 <= y /\ b = if y =? 0 then init else wholeBox w y)) in Hbox.
  - destruct Hbox as (_ & _ & ->). destruct (Z.eqb_spec h 0); [lia|reflexivity].
  - split; [lia|reflexivity].
  - intros y b b' Hy (_ & Hb) Hrow.
    split; [lia|].
    apply (forInRange_invariant
             (fun x c => 0 <= x /\
                         c = if x =? 0 then b
                             else {| LabelProcessor.minX := Z.min (LabelProcessor.minX b) 0;
                                     LabelProcessor.minY := Z.min (LabelProcessor.minY b) y;
                                     LabelProcessor.maxX := Z.max (LabelProcessor.maxX b) (x - 1);
                                     LabelProcessor.maxY := Z.max (LabelProcessor.maxY b) y |}))
      in Hrow.
    + destruct Hrow as (_ & _ & ->).
      destruct (Z.eqb_spec w 0); [lia|].
      destruct (Z.eqb_spec (y + 1) 0); [lia|].
      subst b. destruct (Z.eqb_spec y 0) as [->|Hy0];
        cbn [LabelProcessor.minX LabelProcessor.minY LabelProcessor.maxX LabelProcessor.maxY
             init wholeBox]; apply Box_eq; lia.
    + split; [lia|reflexivity].
    + intros x c c' Hx (_ & Hc) Hpixel.
      rewrite (Hdark x y Hx Hy) in Hpixel. cbn [LabelProcessor.andThen] in Hpixel.
      injection Hpixel as <-. split; [lia|].
      destruct (Z.eqb_spec (x + 1) 0); [lia|].
      subst c. unfold LabelProcessor.include.
      destruct (Z.eqb_spec x 0) as [->|Hx0];
        cbn [LabelProcessor.minX LabelProcessor.minY LabelProcessor.maxX LabelProcessor.maxY];
        apply Box_eq; lia.
Qed.

(** Without pixels the box stays as it was set up. *)
Lemma boundingBox_empty (bitmap : LabelProcessor.Bitmap) (box : LabelProcessor.Box) :
  LabelProcessor.boundingBox bitmap = Some box ->
  LabelProcessor.width bitmap <= 0 \/ LabelProcessor.height bitmap <= 0 ->
  (LabelProcessor.minX box <? LabelProcessor.maxX box)
  && (LabelProcessor.minY box <? LabelProcessor.maxY box) = false.
Proof.
  intros Hbox Hempty.
  set (w := LabelProcessor.width bitmap) in *.
  set (h := LabelProcessor.height bitmap) in *.
  set (init := {| LabelProcessor.minX := w; LabelProcessor.minY := h;
                  LabelProcessor.maxX := 0; LabelProcessor.maxY := 0 |}).
  unfold LabelProcessor.boundingBox in Hbox. fold w h init in Hbox.
  apply (forInRange_invariant (fun y b => b = init)) in Hbox.
  - destruct Hbox as (Hh & ->). cbn [LabelProcessor.minX LabelProcessor.minY
                                      LabelProcessor.maxX LabelProcessor.maxY init].
    apply andb_false_iff.
    destruct (Z.ltb_spec w 0); destruct (Z.ltb_spec h 0); try (now left); try (now right).
    lia.
  - reflexivity.
  - intros y b b' Hy -> Hrow.
    apply (forInRange_invariant (fun x c => c = init)) in Hrow.
    + destruct Hrow as (_ & ->). reflexivity.
    + reflexivity.
    + intros x c c' Hx. exfalso. lia.
Qed.

Lemma countDark_all (start limit : Z) (dark : Z -> option bool) :
  start <= limit ->
  (forall i, start <= i < limit -> dark i = Some true) ->
  LabelProcessor.countDark start limit dark = Some (limit - start).
Proof.
  intros Hle Hdark. unfold LabelProcessor.countDark, LabelProcessor.forInRange.
  destruct (Z.ltb_spec limit start); [lia|].
  assert (Hgen : forall n i c,
             (forall k, i <= k < i + Z.of_nat n -> dark k = Some true) ->
             LabelProcessor.forIn n i
               (fun i darkCount =>
                  LabelProcessor.andThen (dark i)
                    (fun d => Some (if d then darkCount + 1 else darkCount))) c
             = Some (c + Z.of_nat n)).
  { induction n as [|n IH]; intros i c Hall; cbn [LabelProcessor.forIn].
    - f_equal. lia.
    - rewrite (Hall i) by lia. cbn [LabelProcessor.andThen].
      rewrite IH; [f_equal; lia|]. intros k Hk. apply Hall. lia. }
  rewrite Hgen; [f_equal; lia|]. intros k Hk. apply Hdark. lia.
Qed.

Lemma firstWhere_none (stop : Z -> option bool) (step : Z) :
  forall (n : nat) (i : Z),
    (forall k, (k < n)%nat -> stop (i + Z.of_nat k * step) = Some false) ->
    LabelProcessor.firstWhere n i step stop = Some None.
Proof.
  induction n as [|n IH]; intros i Hall; cbn [LabelProcessor.firstWhere]; [reflexivity|].
  assert (H0 := Hall O (Nat.lt_0_succ n)). replace (i + Z.of_nat 0 * step) with i in H0 by lia.
  rewrite H0. apply IH. intros k Hk.
  replace (i + step + Z.of_nat k * step) with (i + Z.of_nat (S k) * step) by lia.
  apply Hall. lia.
Qed.

Lemma scanUp_all_border (low limit : Z) (isBorder : Z -> option bool) :
  low <= limit ->
  (forall i, low <= i < limit -> isBorder i = Some true) ->
  LabelProcessor.scanUp low limit isBorder = Some low.
Proof.
  intros Hle Hall. unfold LabelProcessor.scanUp.
  destruct (Z.ltb_spec limit low); [lia|].
  rewrite firstWhere_none; [reflexivity|].
  intros k Hk. unfold LabelProcessor.isNot. rewrite Hall by lia. reflexivity.
Qed.

Lemma scanDown_all_border (high limit : Z) (isBorder : Z -> option bool) :
  (forall i, limit < i <= high -> isBorder i = Some true) ->
  LabelProcessor.scanDown high limit isBorder = Some high.
Proof.
  intros Hall. unfold LabelProcessor.scanDown.
  rewrite firstWhere_none; [reflexivity|].
  intros k Hk. unfold LabelProcessor.isNot. rewrite Hall by lia. reflexivity.
Qed.

Lemma half_below (n : Z) : 1 <= n -> (Z.quot n 2 <? n) = true.
Proof.
  intros Hn. apply Z.ltb_lt. rewrite Z.quot_div_nonneg by lia.
  apply Z.div_lt_upper_bound; lia.
Qed.

(** X19.  The Swift [autoCrop] never removes anything: whatever the
    bitmap, the call ends in a runtime trap, returns the image it was given,
    or crops to the rectangle of the whole image.  ([brightness] overflows
    its [UInt16] on every pixel it would not call dark, so a search that
    returns has found every pixel dark.) *)
Theorem X19_swift_autoCrop_never_crops (bitmap : LabelProcessor.Bitmap) :
  LabelProcessor.autoCrop bitmap = None \/
  LabelProcessor.autoCrop bitmap = Some LabelProcessor.ReturnedImage \/
  LabelProcessor.autoCrop bitmap = Some (LabelProcessor.CroppedTo (wholeImage bitmap)).
Proof.
  unfold LabelProcessor.autoCrop.
  destruct (LabelProcessor.boundingBox bitmap) as [box|] eqn:Hbox; [|left; reflexivity].
  right. cbn [LabelProcessor.andThen].
  pose proof (boundingBox_all_dark bitmap box Hbox) as Hdark.
  set (w := LabelProcessor.width bitmap) in *.
  set (h := LabelProcessor.height bitmap) in *.
  destruct (Z_lt_le_dec 0 w) as [Hw|Hw]; [destruct (Z_lt_le_dec 0 h) as [Hh|Hh]|].
  2: rewrite (boundingBox_empty bitmap box Hbox) by (right; exact Hh); left; reflexivity.
  2: rewrite (boundingBox_empty bitmap box Hbox) by (left; exact Hw); left; reflexivity.
  rewrite (boundingBox_whole bitmap box Hbox Hw Hh). fold w h.
  cbn [wholeBox LabelProcessor.minX LabelProcessor.minY LabelProcessor.maxX LabelProcessor.maxY].
  destruct ((0 <? w - 1) && (0 <? h - 1)) eqn:Hguard; [|left; reflexivity].
  apply andb_true_iff in Hguard. destruct Hguard as (Hw2 & Hh2).
  apply Z.ltb_lt in Hw2. apply Z.ltb_lt in Hh2.
  cbn [negb].
  destruct (Z.quot (w * h) 20 <=? (w - 1 - 0) * (h - 1 - 0)); [|left; reflexivity].
  right. cbn [negb].
  assert (Hrow : forall y, 0 <= y < h ->
                           LabelProcessor.rowIsBorder bitmap (wholeBox w h) y = Some true).
  { intros y Hy. unfold LabelProcessor.rowIsBorder.
    cbn [wholeBox LabelProcessor.minX LabelProcessor.maxX].
    rewrite countDark_all; [|lia|intros x Hx; apply Hdark; lia].
    cbn [LabelProcessor.andThen]. f_equal. apply half_below. lia. }
  assert (Hcol : forall x, 0 <= x < w ->
                           LabelProcessor.colIsBorder bitmap (wholeBox w h) x = Some true).
  { intros x Hx. unfold LabelProcessor.colIsBorder.
    cbn [wholeBox LabelProcessor.minY LabelProcessor.maxY].
    rewrite countDark_all; [|lia|intros y Hy; apply Hdark; lia].
    cbn [LabelProcessor.andThen]. f_equal. apply half_below. lia. }
  fold (wholeBox w h).
  assert (Hqw : 0 <= Z.quot (w - 1 - 0) 2) by (apply Z.quot_pos; lia).
  assert (Hqh : 0 <= Z.quot (h - 1 - 0) 2) by (apply Z.quot_pos; lia).
  rewrite scanUp_all_border; [|lia|intros y Hy; apply Hrow; lia].
  cbn [LabelProcessor.andThen].
  rewrite scanDown_all_border; [|intros y Hy; apply Hrow; lia].
  cbn [LabelProcessor.andThen].
  rewrite scanUp_all_border; [|lia|intros x Hx; apply Hcol; lia].
  cbn [LabelProcessor.andThen].
  rewrite scanDown_all_border; [|intros x Hx; apply Hcol; lia].
  cbn [LabelProcessor.andThen].
  unfold wholeImage, LabelProcessor.cropPadding. fold w h.
  replace (Z.max (0 - 8) 0) with 0 by lia.
  replace (Z.min (w - 1 + 8) w - 0) with w by lia.
  replace (Z.min (h - 1 + 8) h - 0) with h by lia.
  reflexivity.
Qed.

Lemma Swift_brightness_overflow (r g b : Z) :
  65535 < 299 * r + 587 * g + 114 * b -> Swift.brightness r g b = None.
Proof.
  intros Hsum. unfold Swift.brightness, Swift.checked, Swift.uint16.
  repeat match goal with
         | |- context [if ?c then _ else _] => destruct c eqn:?
         end; try reflexivity; exfalso; lia.
Qed.

(** X20.  One pixel with [299 r + 587 g + 114 b > 65535], pure white for
    one, makes the Swift [autoCrop] trap on the [UInt16] arithmetic of
    [brightness]. *)
Theorem X20_swift_autoCrop_traps_on_bright_pixel
        (bitmap : LabelProcessor.Bitmap) (x y : Z) :
  0 <= x < LabelProcessor.width bitmap -> 0 <= y < LabelProcessor.height bitmap ->
  (let offset := (y * LabelProcessor.width bitmap + x) * 4 in
   65535 < 299 * LabelProcessor.byte bitmap offset
           + 587 * LabelProcessor.byte bitmap (offset + 1)
           + 114 * LabelProcessor.byte bitmap (offset + 2)) ->
  LabelProcessor.autoCrop bitmap = None.
Proof.
  intros Hx Hy Hbright. cbv zeta in Hbright.
  unfold LabelProcessor.autoCrop.
  rewrite (boundingBox_trap bitmap x y Hx Hy); [reflexivity|].
  unfold LabelProcessor.isDark, LabelProcessor.brightness.
  rewrite (Swift_brightness_overflow _ _ _ Hbright). reflexivity.
Qed.

Lemma X20_swift_autoCrop_traps_on_bright_pixel_witness :
  LabelProcessor.autoCrop (plainBitmap 3 2 200 120 40) = None.
Proof.
  refine (X20_swift_autoCrop_traps_on_bright_pixel (plainBitmap 3 2 200 120 40) 2 1 _ _ _).
  - cbn. lia.
  - cbn. lia.
  - vm_compute. reflexivity.
Defined.

(** ** The Swift [resizeToLabel] *)





(** ** A second input that is not supported *)

(** X22.  Unlike the route, [resizeLabel] does not drop a second input whose
    extension is not supported: with a first input that is prepared without
    error (an image that decodes, a catalogue size and an integer dpi at
    which both pixel sizes lie between 1 and 100000000), the call throws the
    unsupported-format error of the second file and writes nothing. *)
Theorem X22_resizeLabel_second_unsupported
      (fs : FileSystem) (inputPath inputPath2 : string) (outputPath : option string)
      (img : GrayImage) (dpi : option JsNum) (fitMode : option string)
      (autoCrop : option bool) (labelSize : option string) (w h : Q) (n : Z) :
  existsSync fs inputPath = true ->
  has SUPPORTED_IMAGE_EXTS (toLowerCase (extname inputPath)) = true ->
  sharpFile fs inputPath = Ok img ->
  sizeFor (orDefault labelSize DEFAULT_LABEL_SIZE) = JsTuple w h ->
  orDefault dpi DEFAULT_DPI = Finite (inject_Z n) ->
  1 <= roundHalfUp (w * inject_Z n) <= 100000000 ->
  1 <= roundHalfUp (h * inject_Z n) <= 100000000 ->
  inputPath2 <> "" ->
  existsSync fs inputPath2 = true ->
  has SUPPORTED_EXTS (toLowerCase (extname inputPath2)) = false ->
  resizeLabel fs
    {| ResizeLabelOptions.inputPath := inputPath;
       ResizeLabelOptions.outputPath := outputPath;
       ResizeLabelOptions.inputPath2 := Some inputPath2;
       ResizeLabelOptions.dpi := dpi;
       ResizeLabelOptions.fitMode := fitMode;
       ResizeLabelOptions.autoCrop := autoCrop;
       ResizeLabelOptions.labelSize := labelSize |}
  = Throw (Error ("Unsupported file format '" ++ toLowerCase (extname inputPath2)
                  ++ "'. Supported: .bmp, .jpeg, .jpg, .pdf, .png, .tif, .tiff, .webp")%string).
Proof.
  intros Hexists Hext Hpng Hsize Hdpi Hw Hh Hne Hexists2 Hext2.
  unfold resizeLabel. file_options.
  rewrite Hexists, Hsize, Hdpi. cbn [negb truthy orDefault].
  apply String.eqb_neq in Hne. rewrite Hne, Hexists2. cbn [negb andb].
  unfold prepareLabel at 1. rewrite (loadImage_image fs inputPath Hext), Hpng. cbn [bind].
  rewrite (prepared img _ w h (inject_Z n) _ Hw Hh). cbn [bind].
  unfold prepareLabel. rewrite (loadImage_unsupported fs inputPath2 Hext2). reflexivity.
Qed.

Lemma X22_resizeLabel_second_unsupported_witness :
  resizeLabel
    {| existsSync := fun _ => true;
       sharpFile := fun _ => Ok framedLabel;
       loadImageFromPdf := fun _ _ _ => Ok framedLabel;
       writeFileSync := fun _ => Ok tt |}
    {| ResizeLabelOptions.inputPath := "label.png";
       ResizeLabelOptions.outputPath := None;
       ResizeLabelOptions.inputPath2 := Some "notes.txt";
       ResizeLabelOptions.dpi := None;
       ResizeLabelOptions.fitMode := None;
       ResizeLabelOptions.autoCrop := None;
       ResizeLabelOptions.labelSize := None |}
  = Throw (Error ("Unsupported file format '" ++ toLowerCase (extname "notes.txt")
                  ++ "'. Supported: .bmp, .jpeg, .jpg, .pdf, .png, .tif, .tiff, .webp")%string).
Proof.
  refine (X22_resizeLabel_second_unsupported
            {| existsSync := fun _ => true;
               sharpFile := fun _ => Ok framedLabel;
               loadImageFromPdf := fun _ _ _ => Ok framedLabel;
               writeFileSync := fun _ => Ok tt |}
            "label.png" "notes.txt" None framedLabel None None None None 4 6 300
            _ _ _ _ _ _ _ _ _ _).
  - reflexivity.
  - reflexivity.
  - reflexivity.
  - reflexivity.
  - reflexivity.
  - vm_compute. split; discriminate.
  - vm_compute. split; discriminate.
  - discriminate.
  - reflexivity.
  - reflexivity.
Defined.
